(** * BFM (Build and Flash Manager): a shallow embedding of [bfm.py]

    The development follows the source file top-down: the string
    primitives of Python that the script relies on, the hexadecimal
    codec ([format_hex], [decode_hex]), the platform table
    ([get_config]), the version stamper ([set_version]), the archiver
    ([save_bootleg]), the binary locator ([get_binary]) and the
    pipeline ([main]).

    Conventions of the model.
    - A Python [str] is a [string]: a sequence of code points below 256.
      A file holds bytes; a read in text mode takes each byte for the
      code point of the same number and reads every line ending as a
      line feed, and a write in text mode writes the text as it is
      (the POSIX flavour of [open]). A file whose bytes the codec of
      the platform refuses is a file that does not decode.
    - A Python [int] is a [Z].
    - [os.path] and [pathlib] are modelled in their POSIX flavour
      ([posixpath], [PurePosixPath]). The file system takes two
      spellings of one path for the same file: repeated and trailing
      separators and the components [.] and [..] are resolved, the
      latter as [os.path.normpath] does, which is what the operating
      system does when the directory named before it exists and is not
      a symbolic link. The empty path names nothing.
    - A function that may raise returns in the monad [M], which threads
      the state of the world and carries the raised exception.
    - Console output is not part of the state, except for the calls
      recorded in the trace of the world. *)

From Stdlib Require Import ZArith List String Ascii Bool Lia.
Import ListNotations.

Local Open Scope string_scope.
Local Open Scope Z_scope.

Set Implicit Arguments.

(** ** Python string primitives *)

Module Py.

(** Code point of a character. *)
Definition ord (c : ascii) : Z := Z.of_nat (nat_of_ascii c).

Definition chr (n : Z) : ascii := ascii_of_nat (Z.to_nat n).

Definition LF : ascii := "010"%char.

Definition CR : ascii := "013"%char.

(** [s.startswith(p)] *)
Fixpoint startswith (p s : string) : bool :=
  match p, s with
  | EmptyString, _ => true
  | String a p', String b s' => Ascii.eqb a b && startswith p' s'
  | String _ _, EmptyString => false
  end.

(** [sub in s] *)
Fixpoint contains (sub s : string) : bool :=
  startswith sub s ||
  match s with
  | EmptyString => false
  | String _ s' => contains sub s'
  end.

(** [s[n:]] *)
Fixpoint drop (n : nat) (s : string) : string :=
  match n, s with
  | O, _ => s
  | S k, String _ s' => drop k s'
  | S _, EmptyString => EmptyString
  end.

(** [s.endswith(p)] *)
Definition endswith (p s : string) : bool :=
  (String.length p <=? String.length s)%nat &&
  String.eqb (drop (String.length s - String.length p) s) p.

(** [str.isspace] on one character, for code points below 256:
    TAB..CR, FS..US, SPACE, NEL and NBSP. *)
Definition isspace (c : ascii) : bool :=
  let n := ord c in
  ((9 <=? n) && (n <=? 13)) || ((28 <=? n) && (n <=? 32))
  || (n =? 133) || (n =? 160).

Fixpoint lstrip (s : string) : string :=
  match s with
  | String c s' => if isspace c then lstrip s' else s
  | EmptyString => EmptyString
  end.

Fixpoint rstrip (s : string) : string :=
  match s with
  | EmptyString => EmptyString
  | String c s' =>
      match rstrip s' with
      | EmptyString => if isspace c then EmptyString else String c EmptyString
      | r => String c r
      end
  end.

(** [s.strip()] *)
Definition strip (s : string) : string := rstrip (lstrip s).

(** [str.lower] on one character, for code points below 256: the
    ASCII capitals and the Latin-1 capitals (all of 0xC0..0xDE but the
    multiplication sign 0xD7). *)
Definition lower_char (c : ascii) : ascii :=
  let n := ord c in
  if ((65 <=? n) && (n <=? 90))
     || ((192 <=? n) && (n <=? 222) && negb (n =? 215))
  then chr (n + 32) else c.

(** [s.lower()] *)
Fixpoint lower (s : string) : string :=
  match s with
  | EmptyString => EmptyString
  | String c s' => String (lower_char c) (lower s')
  end.

(** [s.replace(old, new)] for a non-empty [old]: the occurrences of
    [old] are replaced from left to right, without overlap. [skip]
    counts the characters of the occurrence being replaced that are
    still to be dropped. *)
Fixpoint replace_from (old new s : string) (skip : nat) : string :=
  match s with
  | EmptyString => EmptyString
  | String c s' =>
      match skip with
      | S k => replace_from old new s' k
      | O =>
          if startswith old s
          then new ++ replace_from old new s' (String.length old - 1)
          else String c (replace_from old new s' 0)
      end
  end.

(** [s.replace(old, new)] for the empty [old]: [new] goes before
    every character and at the end. *)
Fixpoint intersperse (new s : string) : string :=
  match s with
  | EmptyString => new
  | String c s' => new ++ String c (intersperse new s')
  end.

Definition replace (old new s : string) : string :=
  match old with
  | EmptyString => intersperse new s
  | _ => replace_from old new s 0
  end.

(** [f.readlines()]: the text is cut after every line feed, which
    stays at the end of its line. *)
Fixpoint readlines_from (cur : string) (s : string) : list string :=
  match s with
  | EmptyString =>
      match cur with EmptyString => [] | _ => [cur] end
  | String c s' =>
      if Ascii.eqb c LF
      then (cur ++ String c EmptyString) :: readlines_from EmptyString s'
      else readlines_from (cur ++ String c EmptyString) s'
  end.

Definition readlines (text : string) : list string :=
  readlines_from EmptyString text.

(** [f.writelines(lines)] *)
Definition writelines (lines : list string) : string :=
  String.concat EmptyString lines.

(** What a read in text mode makes of the bytes of a file: a carriage
    return followed by a line feed, and a carriage return alone, are
    read as a line feed (universal newlines). *)
Fixpoint universal_newlines (s : string) : string :=
  match s with
  | EmptyString => EmptyString
  | String c s' =>
      if Ascii.eqb c CR then
        match s' with
        | String d s'' =>
            if Ascii.eqb d LF then String LF (universal_newlines s'')
            else String LF (universal_newlines s')
        | EmptyString => String LF EmptyString
        end
      else String c (universal_newlines s')
  end.

End Py.

(** ** Exceptions

    The exception classes the script raises or lets through.
    [FileNotFoundError] and [SameFileError] are subclasses of [OSError]
    in Python; every class below is a subclass of [Exception]. *)

Inductive exn : Type :=
| FileNotFoundError (msg : string)
| ValueError (msg : string)
| RuntimeError (msg : string)
| OSError (msg : string)
| SameFileError (msg : string)
| EOFError.

(** [isinstance(e, OSError)] *)
Definition is_OSError (e : exn) : bool :=
  match e with
  | FileNotFoundError _ | OSError _ | SameFileError _ => true
  | ValueError _ | RuntimeError _ | EOFError => false
  end.

(** [str(e)] *)
Definition exn_message (e : exn) : string :=
  match e with
  | FileNotFoundError m | ValueError m | RuntimeError m
  | OSError m | SameFileError m => m
  | EOFError => "EOF when reading a line"
  end.

(** ** The hexadecimal codec *)

Definition hex_digit (d : Z) : ascii :=
  if d <? 10 then Py.chr (48 + d) else Py.chr (55 + d).

(** Upper-case hexadecimal digits of a non-negative integer, most
    significant first; [fuel] bounds the number of digits. *)
Fixpoint hex_upper (fuel : nat) (n : Z) (acc : string) : string :=
  match fuel with
  | O => acc
  | S f =>
      let acc' := String (hex_digit (n mod 16)) acc in
      if n / 16 =? 0 then acc' else hex_upper f (n / 16) acc'
  end.

Definition hex_upper_of (n : Z) : string :=
  hex_upper (S (Z.to_nat (Z.log2 n))) n EmptyString.

(** The format specification [02X]: upper-case hexadecimal, padded with
    zeros after the sign up to a width of two. *)
Definition format_02X (value : Z) : string :=
  if value <? 0 then String "-"%char (hex_upper_of (- value))
  else
    let digits := hex_upper_of value in
    if (String.length digits <? 2)%nat then String "0"%char digits else digits.

Definition format_hex (value : Z) (reverse : bool) : string :=
  let hex_str := format_02X value in
  if reverse then hex_str else hex_str.

(** Value of a character as a digit in base 16. *)
Definition hex_value (c : ascii) : option Z :=
  let n := Py.ord c in
  if (48 <=? n) && (n <=? 57) then Some (n - 48)
  else if (65 <=? n) && (n <=? 70) then Some (n - 55)
  else if (97 <=? n) && (n <=? 102) then Some (n - 87)
  else None.

(** White space skipped by [int()] around the literal: the ASCII white
    space TAB..CR and SPACE, and the non-ASCII white space (NEL, NBSP),
    which [int()] first turns into spaces. *)
Definition int_space (c : ascii) : bool :=
  let n := Py.ord c in
  ((9 <=? n) && (n <=? 13)) || (n =? 32) || (n =? 133) || (n =? 160).

Fixpoint skip_int_space (s : string) : string :=
  match s with
  | String c s' => if int_space c then skip_int_space s' else s
  | EmptyString => EmptyString
  end.

Definition is_underscore (c : ascii) : bool := Ascii.eqb c "_"%char.

(** The digit loop of [int()]: digits and single underscores between
    them. [prev_us] tells whether the previous character was an
    underscore, [n] counts the digits read so far. The scan stops at the
    first character that is neither; a doubled or a trailing underscore
    is an error. *)
Fixpoint scan_hex (prev_us : bool) (acc : Z) (n : nat) (s : string)
  : option (Z * nat * string) :=
  match s with
  | EmptyString => if prev_us then None else Some (acc, n, s)
  | String c s' =>
      if is_underscore c then
        if prev_us then None else scan_hex true acc n s'
      else
        match hex_value c with
        | Some d => scan_hex false (16 * acc + d) (S n) s'
        | None => if prev_us then None else Some (acc, n, s)
        end
  end.

(** [int(s, 16)], [None] standing for [ValueError]. *)
Definition int_base16 (s : string) : option Z :=
  let s1 := skip_int_space s in
  let '(sign, s2) :=
    match s1 with
    | String "+"%char r => (1, r)
    | String "-"%char r => (-1, r)
    | _ => (1, s1)
    end in
  let s3 :=
    match s2 with
    | String "0"%char (String x r) =>
        if Ascii.eqb x "x"%char || Ascii.eqb x "X"%char then
          match r with
          | String "_"%char r' => r'
          | _ => r
          end
        else s2
    | _ => s2
    end in
  match s3 with
  | String "_"%char _ => None
  | _ =>
      match scan_hex false 0 0 s3 with
      | Some (v, S _, rest) =>
          match skip_int_space rest with
          | EmptyString => Some (sign * v)
          | _ => None
          end
      | _ => None
      end
  end.

Definition decode_hex (hex_str : string) : exn + Z :=
  match int_base16 hex_str with
  | Some v => inr v
  | None => inl (ValueError "invalid literal for int() with base 16")
  end.

(** A line feed as a string, to build texts with. *)
Definition nl : string := String Py.LF EmptyString.

(** ** Paths: [posixpath] and [pathlib] *)

Module Path.

Definition SEP : ascii := "/"%char.

(** The part of [p] that follows its last separator; [p] itself when
    it has none. *)
Fixpoint after_last_sep (p : string) : string :=
  match p with
  | EmptyString => EmptyString
  | String c p' =>
      if Py.contains "/" p' then after_last_sep p'
      else if Ascii.eqb c SEP then p' else p
  end.

(** [os.path.basename(p)] *)
Definition basename (p : string) : string := after_last_sep p.

(** [s.rstrip('/')] *)
Fixpoint rstrip_sep (s : string) : string :=
  match s with
  | EmptyString => EmptyString
  | String c s' =>
      match rstrip_sep s' with
      | EmptyString =>
          if Ascii.eqb c SEP then EmptyString else String c EmptyString
      | r => String c r
      end
  end.

(** [os.path.dirname(p)]: what comes before the base name, without
    its trailing separators unless it is made of separators only. *)
Definition dirname (p : string) : string :=
  let head :=
    String.substring 0 (String.length p - String.length (basename p)) p in
  match rstrip_sep head with
  | EmptyString => head
  | stripped => stripped
  end.

(** [os.path.join(a, b)] *)
Definition join (a b : string) : string :=
  if Py.startswith "/" b then b
  else if String.eqb a EmptyString || Py.endswith "/" a then a ++ b
  else a ++ "/" ++ b.

(** [os.path.join(a, b, c)] *)
Definition join3 (a b c : string) : string := join (join a b) c.

(** [s.split('/')] *)
Fixpoint split_sep_from (cur : string) (s : string) : list string :=
  match s with
  | EmptyString => [cur]
  | String c s' =>
      if Ascii.eqb c SEP then cur :: split_sep_from EmptyString s'
      else split_sep_from (cur ++ String c EmptyString) s'
  end.

(** The parts of [PurePosixPath(p)] below the root: empty components
    and [.] components are dropped. *)
Definition parts (p : string) : list string :=
  filter (fun x => negb (String.eqb x EmptyString || String.eqb x "."))
         (split_sep_from EmptyString p).

(** [Path(p).name] *)
Definition name (p : string) : string := last (parts p) EmptyString.

(** The file that a path names, whatever its spelling: whether the
    path starts from the root, and the components that are left once
    the empty components and [.] are dropped and every [..] has taken
    the component before it away. *)
Definition key : Type := (bool * list string)%type.

Definition key_eq_dec (a b : key) : {a = b} + {a <> b}.
Proof.
  decide equality; [apply (list_eq_dec string_dec)|apply Bool.bool_dec].
Defined.

(** One more component, on the components read so far, the last one
    first. *)
Definition push (abs : bool) (stack : list string) (c : string) : list string :=
  if String.eqb c EmptyString || String.eqb c "." then stack
  else if String.eqb c ".." then
    match stack with
    | [] => if abs then [] else [c]
    | top :: rest => if String.eqb top ".." then c :: stack else rest
    end
  else c :: stack.

Definition key_of (p : string) : key :=
  let abs := Py.startswith "/" p in
  (abs, rev (fold_left (push abs) (split_sep_from EmptyString p) [])).

(** The path can only name a directory: it ends with a separator, with
    [.] or with [..]. *)
Definition names_directory (p : string) : bool :=
  let c := last (split_sep_from EmptyString p) EmptyString in
  String.eqb c EmptyString || String.eqb c "." || String.eqb c "..".

(** The directory that holds the entry. *)
Definition parent (k : key) : key := (fst k, removelast (snd k)).

(** A single component that names an entry. *)
Definition is_name (nm : string) : bool :=
  negb (Py.contains "/" nm)
  && negb (String.eqb nm EmptyString || String.eqb nm "." || String.eqb nm "..").

(** The path cut after each of its components: the directories on the
    way to it, and the path itself. *)
Fixpoint prefixes_from (cur : string) (s : string) : list string :=
  match s with
  | EmptyString => [cur]
  | String c s' =>
      if Ascii.eqb c SEP then cur :: prefixes_from (cur ++ String c EmptyString) s'
      else prefixes_from (cur ++ String c EmptyString) s'
  end.

Definition prefixes (p : string) : list string :=
  filter (fun q => negb (String.eqb q EmptyString))
         (prefixes_from EmptyString p).

(** Index of the last dot of [s], counted from the left. *)
Fixpoint rfind_dot (s : string) : option nat :=
  match s with
  | EmptyString => None
  | String c s' =>
      match rfind_dot s' with
      | Some i => Some (S i)
      | None => if Ascii.eqb c "."%char then Some O else None
      end
  end.

(** Whether the name has a suffix, and where it starts: the last dot,
    when it is neither the first nor the last character. *)
Definition suffix_start (nm : string) : option nat :=
  match rfind_dot nm with
  | Some i =>
      if (0 <? i)%nat && (i <? String.length nm - 1)%nat
      then Some i else None
  | None => None
  end.

(** [Path(p).suffix], as Python has it up to version 3.13. *)
Definition suffix (p : string) : string :=
  let nm := name p in
  match suffix_start nm with
  | Some i => Py.drop i nm
  | None => EmptyString
  end.

(** [Path(p).stem] *)
Definition stem (p : string) : string :=
  let nm := name p in
  match suffix_start nm with
  | Some i => String.substring 0 i nm
  | None => nm
  end.

End Path.

(** ** The file system

    A file system is an association list from paths to nodes, in the
    order in which a directory scan yields the entries. An entry is
    found under every spelling of its path. A regular file carries its
    bytes and its modification time; a directory carries whether the
    process has access to it, that is whether it may list its entries
    and create entries in it; a dangling entry is one that a scan lists but
    [os.stat] fails on (a broken link); a guarded file is a regular
    file that the process may not read, may not write, or whose bytes
    do not decode. The working directory and the root are directories
    that exist. A file has one entry: there are no hard links and no
    symbolic links but the dangling ones, so that two paths name one
    file when they are two spellings of one path, and only then. The modification time stands for the float [st_mtime];
    only its order matters. *)

Record stat_result : Type := { st_size : Z; st_mtime : Z }.

Record access : Type := {
  can_read : bool;       (* [open(p, 'r')] is allowed *)
  can_write : bool;      (* [open(p, 'w')] is allowed *)
  decodes : bool         (* the bytes decode under the codec of the platform *)
}.

Inductive node : Type :=
| File (content : string) (mtime : Z)
| Dir (accessible : bool) (size mtime : Z)
| Dangling
| Guarded (rights : access) (content : string) (mtime : Z).

Definition filesystem : Type := list (string * node).

Module FS.

(** The entry of the file that the key names. *)
Fixpoint entry (fs : filesystem) (k : Path.key) : option node :=
  match fs with
  | [] => None
  | (q, n) :: fs' =>
      if Path.key_eq_dec (Path.key_of q) k then Some n else entry fs' k
  end.

(** What there is where the path leads, whether the path can only name
    a directory or not. *)
Definition node_at (fs : filesystem) (p : string) : option node :=
  if String.eqb p EmptyString then None
  else
    match entry fs (Path.key_of p) with
    | Some n => Some n
    | None =>
        match snd (Path.key_of p) with
        | [] => Some (Dir true 0 0)
        | _ :: _ => None
        end
    end.

(** What the path names: a path that can only name a directory does
    not name a file. *)
Definition lookup (fs : filesystem) (p : string) : option node :=
  match node_at fs p with
  | Some n =>
      if Path.names_directory p then
        match n with
        | Dir _ _ _ => Some n
        | _ => None
        end
      else Some n
  | None => None
  end.

(** Writing a node: in place when the file has an entry, at the end
    otherwise. *)
Fixpoint store (fs : filesystem) (p : string) (n : node) : filesystem :=
  match fs with
  | [] => [(p, n)]
  | (q, m) :: fs' =>
      if Path.key_eq_dec (Path.key_of q) (Path.key_of p)
      then (q, n) :: fs' else (q, m) :: store fs' p n
  end.

(** [os.path.exists(p)] *)
Definition exists_ (fs : filesystem) (p : string) : bool :=
  match lookup fs p with
  | Some (File _ _) | Some (Dir _ _ _) | Some (Guarded _ _ _) => true
  | Some Dangling | None => false
  end.

(** [os.path.isdir(p)] *)
Definition isdir (fs : filesystem) (p : string) : bool :=
  match lookup fs p with
  | Some (Dir _ _ _) => true
  | _ => false
  end.

(** [os.path.isfile(p)] *)
Definition isfile (fs : filesystem) (p : string) : bool :=
  match lookup fs p with
  | Some (File _ _) | Some (Guarded _ _ _) => true
  | _ => false
  end.

(** [os.stat(p)], [None] standing for [OSError]. *)
Definition stat (fs : filesystem) (p : string) : option stat_result :=
  match lookup fs p with
  | Some (File c m) | Some (Guarded _ c m) =>
      Some {| st_size := Z.of_nat (String.length c); st_mtime := m |}
  | Some (Dir _ sz m) => Some {| st_size := sz; st_mtime := m |}
  | Some Dangling | None => None
  end.

(** The bytes of a regular file that is not guarded. *)
Definition read (fs : filesystem) (p : string) : option string :=
  match lookup fs p with
  | Some (File c _) => Some c
  | _ => None
  end.

(** [os.path.samefile(p, q)], with [False] for the [OSError] that it
    raises when one of the two does not exist. *)
Definition samefile (fs : filesystem) (p q : string) : bool :=
  exists_ fs p && exists_ fs q
  && if Path.key_eq_dec (Path.key_of p) (Path.key_of q) then true else false.

(** [os.path.isdir(p) and os.access(p, os.W_OK | os.X_OK)]: the path
    names a directory that the process has access to. *)
Definition accessible (fs : filesystem) (p : string) : bool :=
  match lookup fs p with
  | Some (Dir a _ _) => a
  | _ => false
  end.

(** An entry can be created in the directory that the key names. The
    working directory and the root allow it when the file system does
    not say otherwise. *)
Definition may_create_in (fs : filesystem) (k : Path.key) : bool :=
  match entry fs k with
  | Some (Dir a _ _) => a
  | Some _ => false
  | None =>
      match snd k with
      | [] => true
      | _ :: _ => false
      end
  end.

(** A file can be created at the path: the path names an entry of a
    directory that exists and that the process has access to. *)
Definition creatable (fs : filesystem) (p : string) : bool :=
  negb (String.eqb p EmptyString) && negb (Path.names_directory p)
  && may_create_in fs (Path.parent (Path.key_of p)).

End FS.

(** ** Records of the script *)

(** The dictionary returned by [create_config]. *)
Module Config.
Record t : Type := {
  name : string;
  repo_loc : string;
  pltpkg_loc : string;
  bld_path : string;
  bootleg_loc : string;
  network_loc : string;
  biosid_loc : string
}.
End Config.

(** The dictionary returned by [get_binary]. *)
Module Binary.
Record t : Type := {
  name : string;
  size : Z;
  modified : Z
}.
End Binary.

(** The namespace returned by [parser.parse_args()]. *)
Module Args.
Record t : Type := {
  platform : option string;
  build : bool;
  release : bool;
  bootleg : bool;
  save : bool;
  network : bool;
  flash : bool;
  tree : option string;
  path : option string;
  append : option string;
  output : option string;
  decrement : bool;
  set_version : option Z
}.
End Args.

(** ** The world and the monad of the script *)

(** The calls that the pipeline makes, as they are recorded in the
    trace, and the two reports of [main]. *)
Inductive event : Type :=
| CallSetVersion (file_path : string) (version : option Z)
| CallBuild (name : string) (release : bool)
| CallFindBuild (bld_path : string)
| CallFindBootleg (bootleg_loc : string)
| CallFindPath (path : string)
| WarnNoBinaryProvided
| CallSaveBootleg (bootleg_loc binary_path : string) (append : option string)
| CallFlash (binary : Binary.t)
| ReportError (e : exn).

Record World : Type := {
  fs : filesystem;
  stdin : list string;      (* the lines that [input()] will read *)
  clock : Z;                (* the time stamp given to written files *)
  trace : list event        (* the calls made so far, oldest first *)
}.

Definition M (A : Type) : Type := World -> (exn + A) * World.

Definition ret {A : Type} (a : A) : M A := fun w => (inr a, w).

Definition bind {A B : Type} (m : M A) (k : A -> M B) : M B :=
  fun w =>
    match m w with
    | (inr a, w') => k a w'
    | (inl e, w') => (inl e, w')
    end.

Definition raise {A : Type} (e : exn) : M A := fun w => (inl e, w).

Declare Scope bfm_scope.
Delimit Scope bfm_scope with bfm.

Notation "x <- m ;; k" := (bind m (fun x => k))
  (at level 61, m at next level, right associativity) : bfm_scope.
Notation "m ;; k" := (bind m (fun _ => k))
  (at level 61, right associativity) : bfm_scope.

Local Open Scope bfm_scope.

(** [try: m except OSError as e: h e] *)
Definition try_except_OSError {A : Type} (m : M A) (h : exn -> M A) : M A :=
  fun w =>
    match m w with
    | (inl e, w') => if is_OSError e then h e w' else (inl e, w')
    | r => r
    end.

Definition lift {A : Type} (r : exn + A) : M A := fun w => (r, w).

Definition get_fs : M filesystem := fun w => (inr (fs w), w).

Definition put_fs (f : filesystem) : M unit :=
  fun w => (inr tt, {| fs := f; stdin := stdin w; clock := clock w; trace := trace w |}).

Definition get_clock : M Z := fun w => (inr (clock w), w).

Definition log (ev : event) : M unit :=
  fun w => (inr tt, {| fs := fs w; stdin := stdin w; clock := clock w;
                       trace := trace w ++ [ev] |}).

(** [input(prompt)] *)
Definition input : M string :=
  fun w =>
    match stdin w with
    | [] => (inl EOFError, w)
    | l :: rest =>
        (inr l, {| fs := fs w; stdin := rest; clock := clock w; trace := trace w |})
    end.

(** The error of [open] on a path that names no file. *)
Definition open_error (f : filesystem) (p : string) : exn :=
  match FS.node_at f p with
  | Some (File _ _) | Some (Guarded _ _ _) => OSError "Not a directory"
  | _ => FileNotFoundError "No such file or directory"
  end.

(** The error of a creation that is not allowed. *)
Definition create_error (f : filesystem) (p : string) : exn :=
  match FS.entry f (Path.parent (Path.key_of p)) with
  | Some (Dir false _ _) => OSError "Permission denied"
  | _ => open_error f p
  end.

(** [open(p, 'r').read()] *)
Definition open_read (p : string) : M string :=
  f <- get_fs ;;
  match FS.lookup f p with
  | Some (File c _) => ret (Py.universal_newlines c)
  | Some (Guarded a c _) =>
      if negb (can_read a) then raise (OSError "Permission denied")
      else if negb (decodes a) then raise (ValueError "codec can't decode bytes")
      else ret (Py.universal_newlines c)
  | Some (Dir _ _ _) => raise (OSError "Is a directory")
  | Some Dangling | None => raise (open_error f p)
  end.

(** [open(p, 'w').write(text)] *)
Definition open_write (p : string) (text : string) : M unit :=
  f <- get_fs ;;
  now <- get_clock ;;
  match FS.lookup f p with
  | Some (Dir _ _ _) => raise (OSError "Is a directory")
  | Some (File _ _) => put_fs (FS.store f p (File text now))
  | Some (Guarded a _ _) =>
      if can_write a then
        put_fs (FS.store f p
                  (Guarded {| can_read := can_read a; can_write := true;
                              decodes := true |} text now))
      else raise (OSError "Permission denied")
  | Some Dangling | None =>
      if FS.creatable f p then put_fs (FS.store f p (File text now))
      else raise (create_error f p)
  end.

(** The loop of [os.makedirs]: the directories on the way are created
    one after the other where nothing is, each one in the one before
    it, which must allow it ([parent_ok]); the loop stops at the first
    one that is something else than a directory. *)
Fixpoint mkdirs (now : Z) (parent_ok : bool) (f : filesystem)
    (dirs : list string) : option exn * filesystem :=
  match dirs with
  | [] => (None, f)
  | q :: dirs' =>
      match FS.node_at f q with
      | None =>
          if parent_ok
          then mkdirs now true (FS.store f q (Dir true 0 now)) dirs'
          else (Some (OSError "Permission denied"), f)
      | Some (Dir a _ _) => mkdirs now a f dirs'
      | Some _ =>
          (Some (OSError match dirs' with
                         | [] => "File exists"
                         | _ :: _ => "Not a directory"
                         end), f)
      end
  end.

(** [os.makedirs(p, exist_ok=True)] *)
Definition makedirs (p : string) : M unit :=
  if String.eqb p EmptyString then
    raise (FileNotFoundError "No such file or directory")
  else
    f <- get_fs ;;
    now <- get_clock ;;
    let start := if Py.startswith "/" p then "/" else "." in
    match mkdirs now (FS.accessible f start) f (Path.prefixes p) with
    | (None, f') => put_fs f'
    | (Some e, f') => put_fs f' ;; raise e
    end.

(** ** Platform configuration, lines 17-84 *)

Definition DEV_LOC : string := "C:\Users\felixb\BIOS".
Definition LOCAL_BOOTLEGS : string := "C:\Users\felixb\BIOS\Bootlegs".
Definition NET_LOC : string :=
  "\\wks-file.ftc.rd.hpicorp.net\MAIN_LAB\SHARES\LAB\Brendon Felix\Bootlegs".

Definition get_repo_loc (tree : option string) (default : string) : string :=
  match tree with
  | Some t => Path.join DEV_LOC t
  | None => Path.join DEV_LOC default
  end.

Definition create_config (name : string) (tree : option string)
    (default_tree biosid_loc : string) : M Config.t :=
  let repo_loc := get_repo_loc tree default_tree in
  f <- get_fs ;;
  if negb (FS.exists_ f repo_loc) then
    raise (FileNotFoundError ("Repository tree not found: " ++ repo_loc))
  else
    let pltpkg_loc := Path.join repo_loc "HpPlatformPkg" in
    ret {| Config.name := name;
           Config.repo_loc := repo_loc;
           Config.pltpkg_loc := pltpkg_loc;
           Config.bld_path := Path.join3 pltpkg_loc "BLD" "FV";
           Config.bootleg_loc := Path.join3 DEV_LOC "Bootlegs" name;
           Config.network_loc := Path.join NET_LOC name;
           Config.biosid_loc := Path.join pltpkg_loc biosid_loc |}.

(** [platform == lit] for an optional string. *)
Definition is_platform (platform : option string) (lit : string) : bool :=
  match platform with
  | Some p => String.eqb p lit
  | None => false
  end.

Definition get_config (platform tree : option string) : M Config.t :=
  if is_platform platform "U60" then
    create_config "Glacier" tree "HpWintersWks" "MultiProject/U60Glacier/BLD/BiosId.env"
  else if is_platform platform "U61" then
    create_config "Winters" tree "HpWintersWks" "MultiProject/U61Blizzard/BLD/BiosId.env"
  else if is_platform platform "U65" then
    create_config "Avalanche" tree "HpAvalancheWks" "BLD/RSPS/BiosId.env"
  else if is_platform platform "X60"
          || match platform with None => true | Some _ => false end then
    create_config "Springs" tree "HpSpringsWks" "MultiProject/X60Steamboat/BLD/BiosId.env"
  else
    raise (ValueError ("Unknown platform: " ++
                       match platform with Some p => p | None => "None" end)).

(** ** The version stamper, lines 98-138 *)

Definition VERSION_FEATURE : string := "VERSION_FEATURE".

(** The greedy group [(.+)] at the head of [s]: the characters up to
    the next line feed, at least one. *)
Fixpoint rest_of_line (s : string) : string :=
  match s with
  | EmptyString => EmptyString
  | String c s' => if Ascii.eqb c Py.LF then EmptyString else String c (rest_of_line s')
  end.

Definition match_group (s : string) : option string :=
  match rest_of_line s with
  | EmptyString => None
  | g => Some g
  end.

(** The tail [.*?=(.+)] of the pattern, matched at the head of [s]: the
    lazy [.*?] takes the fewest characters, none of them a line feed,
    such that [=] and a non-empty group 1 follow. *)
Fixpoint match_assignment (s : string) : option string :=
  match s with
  | EmptyString => None
  | String c rest =>
      match (if Ascii.eqb c "="%char then match_group rest else None) with
      | Some g => Some g
      | None => if Ascii.eqb c Py.LF then None else match_assignment rest
      end
  end.

(** [re.search(r'VERSION_FEATURE.*?=(.+)', line)], returning group 1 of
    the leftmost match. *)
Fixpoint re_search_version (line : string) : option string :=
  match line with
  | EmptyString => None
  | String _ rest =>
      match (if Py.startswith VERSION_FEATURE line
             then match_assignment (Py.drop (String.length VERSION_FEATURE) line)
             else None) with
      | Some g => Some g
      | None => re_search_version rest
      end
  end.

(** The first loop of [set_version], lines 109-115. *)
Fixpoint find_version (lines : list string) : option string :=
  match lines with
  | [] => None
  | line :: lines' =>
      if Py.contains VERSION_FEATURE line && Py.contains "=" line then
        match re_search_version line with
        | Some g => Some (Py.strip g)
        | None => find_version lines'
        end
      else find_version lines'
  end.

(** Lines 122-125. *)
Definition next_version (curr_version : Z) (version : option Z) : Z :=
  match version with
  | None => (curr_version - 1) mod 100
  | Some v => v mod 100
  end.

(** The second loop of [set_version], lines 130-135. *)
Definition update_lines (curr_version_str : string) (new_version : Z)
    (lines : list string) : list string :=
  map (fun line =>
         if Py.contains VERSION_FEATURE line
         then Py.replace curr_version_str (format_hex new_version true) line
         else line)
      lines.

Definition set_version (file_path : string) (version : option Z) : M unit :=
  log (CallSetVersion file_path version) ;;
  f <- get_fs ;;
  if negb (FS.exists_ f file_path) then
    raise (FileNotFoundError "BiosId.env file not found")
  else
    text <- open_read file_path ;;
    let lines := Py.readlines text in
    match find_version lines with
    | None => raise (ValueError "VERSION_FEATURE not found in BiosId.env")
    | Some curr_version_str =>
        curr_version <- lift (decode_hex curr_version_str) ;;
        let new_version := next_version curr_version version in
        let new_lines := update_lines curr_version_str new_version lines in
        open_write file_path (Py.writelines new_lines)
    end.

(** ** External tools

    The build scripts and the flash programmer are outside the
    repository: the pipeline is parametrised by what they do. *)

Inductive tool_result : Type :=
| ToolOk             (* exit status zero *)
| ToolNonZero        (* [CalledProcessError] *)
| ToolMissing.       (* the executable is not found *)

Record Tools : Type := {
  (* the build command run in the package directory: the file system it
     leaves, or [None] for a non-zero exit status *)
  build_tool : string -> bool -> filesystem -> option filesystem;
  (* [dpcmd --batch name --verify] *)
  flash_tool : string -> filesystem -> tool_result
}.

(** ** The build invoker, lines 141-163 *)

Definition command_map (name : string) : string :=
  if String.eqb name "Glacier" then "HpBldGlacier.bat"
  else if String.eqb name "Winters" then "HpBldBlizzard.bat"
  else if String.eqb name "Avalanche" then "HpBiosBuild.bat"
  else if String.eqb name "Springs" then "HpBldSprings.bat"
  else "HpBldSprings.bat".

(** [os.chdir(p)]; the working directory is not tracked, as every path
    of the pipeline is used as given. *)
Definition chdir (p : string) : M unit :=
  f <- get_fs ;;
  if FS.isdir f p then ret tt
  else raise (FileNotFoundError "No such file or directory").

Definition build (tools : Tools) (config : Config.t) (release : bool) : M unit :=
  log (CallBuild (Config.name config) release) ;;
  chdir (Config.pltpkg_loc config) ;;
  let command := command_map (Config.name config) in
  f <- get_fs ;;
  match build_tool tools command release f with
  | Some f' => put_fs f'
  | None => raise (RuntimeError "Build failed")
  end.

(** ** The binary locator, lines 218-251

    [get_binary] reads the file system through four operations of the
    operating system. [os_glob] is [glob.glob]; [os_stat] is [os.stat],
    which [os.path.getmtime] calls as well, with [None] standing for
    [OSError]. *)

Record OsView : Type := {
  os_isdir : string -> bool;
  os_isfile : string -> bool;
  os_glob : string -> list string;
  os_stat : string -> option stat_result
}.

Section Locator.

Variable os : OsView.

Definition stat_or_raise (p : string) : exn + stat_result :=
  match os_stat os p with
  | Some st => inr st
  | None => inl (OSError "stat failed")
  end.

(** [os.path.getmtime(p)] *)
Definition getmtime (p : string) : exn + Z :=
  match stat_or_raise p with
  | inr st => inr (st_mtime st)
  | inl e => inl e
  end.

(** The loop of [max(items, key=os.path.getmtime)] after its first
    item: a later item replaces the current maximum only when its key
    is strictly greater. *)
Fixpoint max_loop (best : string) (best_key : Z) (items : list string)
  : exn + string :=
  match items with
  | [] => inr best
  | x :: items' =>
      match getmtime x with
      | inl e => inl e
      | inr k =>
          if best_key <? k then max_loop x k items'
          else max_loop best best_key items'
      end
  end.

(** [max(items, key=os.path.getmtime)] *)
Definition max_by_mtime (items : list string) : exn + string :=
  match items with
  | [] => inl (ValueError "max() arg is an empty sequence")
  | x :: items' =>
      match getmtime x with
      | inl e => inl e
      | inr k => max_loop x k items'
      end
  end.

(** The test of line 229 on one path of the scan. *)
Definition is_valid_file (f : string) : bool :=
  let basename := Py.lower (Path.basename f) in
  negb (Py.contains "pvt" basename)
  && (Py.contains "32" basename || Py.contains "64" basename).

Definition binary_of (name : string) (st : stat_result) : Binary.t :=
  {| Binary.name := name;
     Binary.size := st_size st;
     Binary.modified := st_mtime st |}.

(** The body of the [try] statement, lines 221-247; [inr None] is the
    fall through to line 251. *)
Definition get_binary_try (path : string) : exn + option Binary.t :=
  if os_isdir os path then
    let pattern := Path.join path "*.bin" in
    let files := os_glob os pattern in
    let valid_files := filter is_valid_file files in
    match valid_files with
    | [] => inr None
    | _ :: _ =>
        match max_by_mtime valid_files with
        | inl e => inl e
        | inr latest_file =>
            match stat_or_raise latest_file with
            | inl e => inl e
            | inr st => inr (Some (binary_of latest_file st))
            end
        end
    end
  else if os_isfile os path then
    match stat_or_raise path with
    | inl e => inl e
    | inr st => inr (Some (binary_of path st))
    end
  else inr None.

(** [get_binary]: the handler of line 248 turns an [OSError] into the
    fall through; any other exception goes on to the caller. *)
Definition get_binary (path : string) : exn + option Binary.t :=
  match get_binary_try path with
  | inl e => if is_OSError e then inr None else inl e
  | r => r
  end.

End Locator.

(** ** The operating system over the modelled file system *)

Module Glob.

(** [glob.has_magic(s)] *)
Definition has_magic (s : string) : bool :=
  Py.contains "*" s || Py.contains "?" s || Py.contains "[" s.

(** The name of the entry [p] in the directory that [dir] names, if
    [p] is one. *)
Definition entry_name (dir : Path.key) (p : string) : option string :=
  let k := Path.key_of p in
  match rev (snd k) with
  | nm :: _ =>
      if String.eqb nm ".." then None
      else if Path.key_eq_dec (Path.parent k) dir then Some nm else None
  | [] => None
  end.

(** [os.scandir(dir)]: the names of the entries, in the order of the
    file system; nothing when [dir] cannot be scanned. *)
Definition scandir (f : filesystem) (dir : string) : list string :=
  match FS.lookup f dir with
  | Some (Dir true _ _) =>
      flat_map (fun e => match entry_name (Path.key_of dir) (fst e) with
                         | Some nm => [nm]
                         | None => []
                         end) f
  | _ => []
  end.

(** [glob.glob(pattern)] for the patterns that the script builds: a
    directory without wild card, then one component made of a star
    and a literal. Hidden entries do not match, and names are compared
    as they are written, as [fnmatch] does on POSIX. Other patterns
    are outside the model and match nothing. *)
Definition glob (f : filesystem) (pattern : string) : list string :=
  let dir := Path.dirname pattern in
  match Path.basename pattern with
  | String "*"%char lit =>
      if has_magic dir || has_magic lit || String.eqb dir EmptyString then []
      else
        map (Path.join dir)
            (filter (fun nm => negb (Py.startswith "." nm) && Py.endswith lit nm)
                    (scandir f dir))
  | _ => []
  end.

End Glob.

Definition view (f : filesystem) : OsView :=
  {| os_isdir := FS.isdir f;
     os_isfile := FS.isfile f;
     os_glob := Glob.glob f;
     os_stat := FS.stat f |}.

(** [get_binary] called in the current world. *)
Definition locate (path : string) : M (option Binary.t) :=
  f <- get_fs ;; lift (get_binary (view f) path).

(** ** The three finders, lines 266-290 *)

Definition find_build (bld_path : string) : M (option Binary.t) :=
  log (CallFindBuild bld_path) ;; locate bld_path.

Definition find_bootleg (bootleg_loc : string) : M (option Binary.t) :=
  log (CallFindBootleg bootleg_loc) ;; locate bootleg_loc.

Definition find_path (path : string) : M (option Binary.t) :=
  log (CallFindPath path) ;; locate path.

(** ** The flasher, lines 293-301 *)

Definition flash (tools : Tools) (binary : Binary.t) : M unit :=
  log (CallFlash binary) ;;
  f <- get_fs ;;
  match flash_tool tools (Binary.name binary) f with
  | ToolOk => ret tt
  | ToolNonZero => raise (RuntimeError "Flash failed")
  | ToolMissing => raise (FileNotFoundError "dpcmd")
  end.

(** ** The archiver, lines 201-215 *)

(** Writing the node [n] at [dst], as [open(dst, 'wb')] allows it. *)
Definition write_node (f : filesystem) (dst : string) (n : node) : M unit :=
  match FS.lookup f dst with
  | Some (Dir _ _ _) => raise (OSError "Is a directory")
  | Some (File _ _) => put_fs (FS.store f dst n)
  | Some (Guarded a _ _) =>
      if can_write a then put_fs (FS.store f dst n)
      else raise (OSError "Permission denied")
  | Some Dangling | None =>
      if FS.creatable f dst then put_fs (FS.store f dst n)
      else raise (create_error f dst)
  end.

(** [shutil.copy2(src, dst)]: the bytes, the modification time and the
    rights of [src] go to [dst], or into [dst] when it is a directory.
    The copy is refused when the two are the same file. *)
Definition copy2 (src dst : string) : M unit :=
  f <- get_fs ;;
  let dst := if FS.isdir f dst then Path.join dst (Path.basename src) else dst in
  if FS.samefile f src dst then
    raise (SameFileError "source and destination are the same file")
  else
    match FS.lookup f src with
    | Some (File c m) => write_node f dst (File c m)
    | Some (Guarded a c m) =>
        if can_read a then write_node f dst (Guarded a c m)
        else raise (OSError "Permission denied")
    | Some (Dir _ _ _) => raise (OSError "Is a directory")
    | Some Dangling | None => raise (open_error f src)
    end.

(** Lines 207-211. *)
Definition bootleg_basename (binary_path : string) (append : option string) : string :=
  match append with
  | None => Path.basename binary_path
  | Some a => Path.stem binary_path ++ "_" ++ a ++ Path.suffix binary_path
  end.

Definition save_bootleg (bootleg_loc binary_path : string)
    (append : option string) : M unit :=
  log (CallSaveBootleg bootleg_loc binary_path append) ;;
  f <- get_fs ;;
  (if negb (FS.exists_ f bootleg_loc) then makedirs bootleg_loc else ret tt) ;;
  let bootleg_path := Path.join bootleg_loc (bootleg_basename binary_path append) in
  copy2 binary_path bootleg_path.

(** ** The directory check, lines 166-198 *)

(** Truth value of an optional string: [None] and the empty string are
    false. *)
Definition truthy (o : option string) : bool :=
  match o with
  | Some s => negb (String.eqb s EmptyString)
  | None => false
  end.

Definition directories_to_check (config : Config.t) (args : Args.t)
  : list (string * string) :=
  (if Args.save args then [("local bootlegs", Config.bootleg_loc config)] else [])
  ++ (if Args.network args then [("network bootlegs", Config.network_loc config)] else [])
  ++ (match Args.output args with
      | Some o => if truthy (Some o) then [("custom output", o)] else []
      | None => []
      end).

(** Lines 186-191: the flag of the declined directory is cleared. *)
Definition skip_save (dir_type : string) (a : Args.t) : Args.t :=
  let with_flags (save network : bool) (output : option string) :=
    {| Args.platform := Args.platform a; Args.build := Args.build a;
       Args.release := Args.release a; Args.bootleg := Args.bootleg a;
       Args.save := save; Args.network := network; Args.flash := Args.flash a;
       Args.tree := Args.tree a; Args.path := Args.path a;
       Args.append := Args.append a; Args.output := output;
       Args.decrement := Args.decrement a;
       Args.set_version := Args.set_version a |} in
  if String.eqb dir_type "local bootlegs" then
    with_flags false (Args.network a) (Args.output a)
  else if String.eqb dir_type "network bootlegs" then
    with_flags (Args.save a) false (Args.output a)
  else if String.eqb dir_type "custom output" then
    with_flags (Args.save a) (Args.network a) None
  else a.

(** The loop of lines 179-198, returning the arguments as the loop
    leaves them. *)
Fixpoint check_directories (dirs : list (string * string)) (args : Args.t)
  : M Args.t :=
  match dirs with
  | [] => ret args
  | (dir_type, dir_path) :: dirs' =>
      f <- get_fs ;;
      if negb (FS.exists_ f dir_path) then
        line <- input ;;
        let response := Py.lower (Py.strip line) in
        if negb (String.eqb response "y" || String.eqb response "yes") then
          check_directories dirs' (skip_save dir_type args)
        else
          try_except_OSError (makedirs dir_path)
            (fun _ => raise (RuntimeError ("Could not create " ++ dir_type
                                           ++ " directory: " ++ dir_path))) ;;
          check_directories dirs' args
      else check_directories dirs' args
  end.

Definition check_and_create_directories (config : Config.t) (args : Args.t)
  : M Args.t :=
  check_directories (directories_to_check config args) args.

(** ** The pipeline, lines 304-390 *)

Section Pipeline.

Variable tools : Tools.

(** Lines 352-366: the stage that obtains the binary. *)
Definition obtain_binary (config : Config.t) (args : Args.t)
  : M (option Binary.t) :=
  if Args.build args then
    match Args.set_version args with
    | Some v => set_version (Config.biosid_loc config) (Some v)
    | None =>
        if Args.decrement args then set_version (Config.biosid_loc config) None
        else ret tt
    end ;;
    build tools config (Args.release args) ;;
    find_build (Config.bld_path config)
  else if Args.bootleg args then
    find_bootleg (Config.bootleg_loc config)
  else
    match Args.path args with
    | Some p => find_path p
    | None =>
        log WarnNoBinaryProvided ;;
        find_build (Config.bld_path config)
    end.

(** Lines 371-386: the saves and the flash. *)
Definition deliver (config : Config.t) (args : Args.t) (binary : Binary.t)
  : M unit :=
  (if Args.save args
   then save_bootleg (Config.bootleg_loc config) (Binary.name binary) (Args.append args)
   else ret tt) ;;
  (if Args.network args
   then save_bootleg (Config.network_loc config) (Binary.name binary) (Args.append args)
   else ret tt) ;;
  match Args.output args with
  | Some o =>
      if truthy (Some o)
      then save_bootleg o (Binary.name binary) (Args.append args)
      else ret tt
  | None => ret tt
  end ;;
  if Args.flash args then flash tools binary else ret tt.

(** Lines 344-386: the body of the [try] statement. *)
Definition main_try (args : Args.t) : M unit :=
  config <- get_config (Args.platform args) (Args.tree args) ;;
  args <- check_and_create_directories config args ;;
  binary <- obtain_binary config args ;;
  match binary with
  | None => raise (RuntimeError "No binary found")
  | Some b => deliver config args b
  end.

(** [main] with the arguments already parsed: the exit status of the
    process and the world it leaves. The handler of line 388 catches
    every exception, reports it and exits with status 1. *)
Definition main (args : Args.t) (w : World) : Z * World :=
  match main_try args w with
  | (inr _, w') => (0, w')
  | (inl e, w') => (1, snd (log (ReportError e) w'))
  end.

End Pipeline.

(** * Definitions for the statements *)

(** ** Worlds *)

(** Two spellings of one path. *)
Definition same_path (p q : string) : Prop := Path.key_of p = Path.key_of q.

Definition world_of (f : filesystem) : World :=
  {| fs := f; stdin := []; clock := 1000; trace := [] |}.

Definition with_fs (w : World) (f : filesystem) : World :=
  {| fs := f; stdin := stdin w; clock := clock w; trace := trace w |}.

Definition with_event (w : World) (ev : event) : World :=
  {| fs := fs w; stdin := stdin w; clock := clock w; trace := trace w ++ [ev] |}.

(** ** Tests on hexadecimal text *)

Definition is_upper_hex_digit (c : ascii) : bool :=
  let n := Py.ord c in
  ((48 <=? n) && (n <=? 57)) || ((65 <=? n) && (n <=? 70)).

Fixpoint all_chars (p : ascii -> bool) (s : string) : bool :=
  match s with
  | EmptyString => true
  | String c s' => p c && all_chars p s'
  end.

(** The round trip at one value, as a test. *)
Definition roundtrips (n : Z) : bool :=
  let hex_str := format_02X n in
  match int_base16 hex_str with
  | Some m => (m =? n) && (String.length hex_str =? 2)%nat
              && all_chars is_upper_hex_digit hex_str
  | None => false
  end.

(** What the decoder needs of the character that stands for the digit
    [d], as a test. *)
Definition hex_digit_ok (d : Z) : bool :=
  let c := hex_digit d in
  match hex_value c with
  | Some v => v =? d
  | None => false
  end
  && negb (is_underscore c) && is_upper_hex_digit c.

(** ** What a computation emits and what it leaves in place

    [effect P R m]: whenever [m] runs, it extends the trace by events
    that satisfy [P], and the worlds before and after are related by
    [R] at those events. *)

Definition effect {A : Type} (P : event -> Prop)
    (R : list event -> World -> World -> Prop) (m : M A) : Prop :=
  forall w r w',
    m w = (r, w') ->
    exists evs, trace w' = (trace w ++ evs)%list /\ Forall P evs /\ R evs w w'.

(** What a computation returns, when it returns. *)
Definition returns {A : Type} (Q : A -> Prop) (m : M A) : Prop :=
  forall w a w', m w = (inr a, w') -> Q a.

(** No event at all: [effect silent R m] says that [m] leaves the
    trace as it is. *)
Definition silent : event -> Prop := fun _ => False.

(** The relation that says nothing of the worlds: [effect P any_world]
    is about the trace alone. *)
Definition any_world : list event -> World -> World -> Prop :=
  fun _ _ _ => True.

(** The paths that a call of [save_bootleg] may write: the destination
    path, or the entry of the source's name in it when the destination
    path is a directory. *)
Definition save_targets (bootleg_loc binary_path : string)
    (append : option string) : list string :=
  let destination :=
    Path.join bootleg_loc (bootleg_basename binary_path append) in
  [destination; Path.join destination (Path.basename binary_path)].

Definition not_target (q : string) (ev : event) : Prop :=
  match ev with
  | CallSaveBootleg bootleg_loc binary_path append =>
      forall target,
        In target (save_targets bootleg_loc binary_path append) ->
        ~ same_path target q
  | _ => True
  end.

(** What there is at [q] stays as it is, as long as no call of
    [save_bootleg] has [q] among its targets: the bytes of a file, and
    with them its time and the rights on it. *)
Definition keeps (q : string) : list event -> World -> World -> Prop :=
  fun evs w w' =>
    Forall (not_target q) evs ->
    FS.read (fs w') q = FS.read (fs w) q
    /\ forall n, FS.lookup (fs w) q = Some n -> FS.lookup (fs w') q = Some n.

(** ** Kinds of events *)

(** The events of the stage that obtains the binary. *)
Definition is_stage_event (ev : event) : Prop :=
  match ev with
  | CallSetVersion _ _ | CallBuild _ _ | CallFindBuild _
  | CallFindBootleg _ | CallFindPath _ | WarnNoBinaryProvided => True
  | CallSaveBootleg _ _ _ | CallFlash _ | ReportError _ => False
  end.

(** The calls that save or flash the binary. *)
Definition is_delivery (ev : event) : Prop :=
  match ev with
  | CallSaveBootleg _ _ _ | CallFlash _ => True
  | _ => False
  end.

Definition is_set_version_call (ev : event) : Prop :=
  match ev with
  | CallSetVersion _ _ => True
  | _ => False
  end.

(** ** Stages *)





(** The options that select the stage and those that the stage
    reads. *)
Definition same_stage_options (a a' : Args.t) : Prop :=
  Args.build a' = Args.build a
  /\ Args.bootleg a' = Args.bootleg a
  /\ Args.path a' = Args.path a
  /\ Args.release a' = Args.release a
  /\ Args.decrement a' = Args.decrement a
  /\ Args.set_version a' = Args.set_version a.

(** The arguments [a] with other values of [--bootleg] and [--path]. *)
Definition with_reuse (bootleg : bool) (path : option string) (a : Args.t)
  : Args.t :=
  {| Args.platform := Args.platform a; Args.build := Args.build a;
     Args.release := Args.release a; Args.bootleg := bootleg;
     Args.save := Args.save a; Args.network := Args.network a;
     Args.flash := Args.flash a; Args.tree := Args.tree a; Args.path := path;
     Args.append := Args.append a; Args.output := Args.output a;
     Args.decrement := Args.decrement a;
     Args.set_version := Args.set_version a |}.

(** The arguments [a] with other values of the three options that ask
    for a save. *)
Definition with_saves (save network : bool) (output : option string)
    (a : Args.t) : Args.t :=
  {| Args.platform := Args.platform a; Args.build := Args.build a;
     Args.release := Args.release a; Args.bootleg := Args.bootleg a;
     Args.save := save; Args.network := network;
     Args.flash := Args.flash a; Args.tree := Args.tree a;
     Args.path := Args.path a; Args.append := Args.append a;
     Args.output := output; Args.decrement := Args.decrement a;
     Args.set_version := Args.set_version a |}.

(** The arguments [a] with other values of the three options that a
    build reads. *)
Definition with_build_options (release decrement : bool)
    (set_version : option Z) (a : Args.t) : Args.t :=
  {| Args.platform := Args.platform a; Args.build := Args.build a;
     Args.release := release; Args.bootleg := Args.bootleg a;
     Args.save := Args.save a; Args.network := Args.network a;
     Args.flash := Args.flash a; Args.tree := Args.tree a;
     Args.path := Args.path a; Args.append := Args.append a;
     Args.output := Args.output a; Args.decrement := decrement;
     Args.set_version := set_version |}.

(** Whether the save that goes to the directory of type [dir_type] is
    still asked for. *)
Definition save_enabled (dir_type : string) (a : Args.t) : bool :=
  if String.eqb dir_type "local bootlegs" then Args.save a
  else if String.eqb dir_type "network bootlegs" then Args.network a
  else if String.eqb dir_type "custom output" then truthy (Args.output a)
  else false.

(** The answers that the prompt of the directory check takes for a
    yes. *)
Definition accepts (line : string) : bool :=
  let response := Py.lower (Py.strip line) in
  String.eqb response "y" || String.eqb response "yes".


(** ** Worlds and arguments of the examples *)

(** External tools that succeed and leave the files as they are. *)
Definition no_tools : Tools :=
  {| build_tool := fun _ _ f => Some f;
     flash_tool := fun _ _ => ToolOk |}.

(** The arguments of a run without any option. *)
Definition default_args : Args.t :=
  {| Args.platform := None; Args.build := false; Args.release := false;
     Args.bootleg := false; Args.save := false; Args.network := false;
     Args.flash := false; Args.tree := None; Args.path := None;
     Args.append := None; Args.output := None; Args.decrement := false;
     Args.set_version := None |}.

(** [-l -s] *)
Definition reuse_args : Args.t :=
  {| Args.platform := None; Args.build := false; Args.release := false;
     Args.bootleg := true; Args.save := true; Args.network := false;
     Args.flash := true; Args.tree := None; Args.path := None;
     Args.append := None; Args.output := None; Args.decrement := false;
     Args.set_version := None |}.

(** [-b] *)
Definition build_args : Args.t :=
  {| Args.platform := None; Args.build := true; Args.release := false;
     Args.bootleg := false; Args.save := false; Args.network := false;
     Args.flash := false; Args.tree := None; Args.path := None;
     Args.append := None; Args.output := None; Args.decrement := false;
     Args.set_version := None |}.

(** [-s -d -v 7] *)
Definition save_args : Args.t :=
  {| Args.platform := None; Args.build := false; Args.release := false;
     Args.bootleg := false; Args.save := true; Args.network := false;
     Args.flash := false; Args.tree := None; Args.path := None;
     Args.append := None; Args.output := None; Args.decrement := true;
     Args.set_version := Some 7 |}.

(** The configuration of Springs with its default tree. *)
Definition springs_config : Config.t :=
  {| Config.name := "Springs";
     Config.repo_loc := "C:\Users\felixb\BIOS/HpSpringsWks";
     Config.pltpkg_loc := "C:\Users\felixb\BIOS/HpSpringsWks/HpPlatformPkg";
     Config.bld_path := "C:\Users\felixb\BIOS/HpSpringsWks/HpPlatformPkg/BLD/FV";
     Config.bootleg_loc := "C:\Users\felixb\BIOS/Bootlegs/Springs";
     Config.network_loc :=
       "\\wks-file.ftc.rd.hpicorp.net\MAIN_LAB\SHARES\LAB\Brendon Felix\Bootlegs/Springs";
     Config.biosid_loc :=
       "C:\Users\felixb\BIOS/HpSpringsWks/HpPlatformPkg/MultiProject/X60Steamboat/BLD/BiosId.env"
  |}.

Definition descriptor_dir : string :=
  Path.dirname (Config.biosid_loc springs_config).

(** [-p /tmp/BiosId.env -o <the directory of the descriptor>]: no
    build, and the descriptor is the destination of the save. *)
Definition overwrite_args : Args.t :=
  {| Args.platform := None; Args.build := false; Args.release := false;
     Args.bootleg := false; Args.save := false; Args.network := false;
     Args.flash := false; Args.tree := None;
     Args.path := Some "/tmp/BiosId.env";
     Args.append := None; Args.output := Some descriptor_dir;
     Args.decrement := false; Args.set_version := None |}.

(** A descriptor with the version text [value] on its second line. *)
Definition descriptor_text (value : string) : string :=
  "BOARD_ID = X60" ++ nl ++ "VERSION_FEATURE = " ++ value ++ nl
  ++ "BUILD_TYPE = D" ++ nl.

Definition descriptor_world (value : string) : World :=
  world_of [("BiosId.env", File (descriptor_text value) 5)].

(** A descriptor whose version text occurs in the marker. *)
Definition marker_descriptor : string :=
  "BOARD_ID = X60" ++ nl ++ "VERSION_FEATURE=FE" ++ nl.

(** A descriptor with a comment line that names the marker. *)
Definition comment_descriptor : string :=
  "# VERSION_FEATURE was 05, then 06" ++ nl
  ++ "VERSION_FEATURE = 05" ++ nl
  ++ "VERSION_MINOR = 05" ++ nl.

(** The default tree of Springs, and nothing in it. *)
Definition springs_tree : filesystem :=
  [(Path.join DEV_LOC "HpSpringsWks", Dir true 4096 0)].

(** The source tree of Springs with an empty build output. *)
Definition empty_build : filesystem :=
  [ (Config.repo_loc springs_config, Dir true 4096 0);
    (Config.pltpkg_loc springs_config, Dir true 4096 0);
    (Config.bld_path springs_config, Dir true 4096 0) ].

(** The source tree of Springs with its descriptor and one image in the
    build output, and a stray file with the name of the descriptor. *)
Definition built_tree : filesystem :=
  [ (Config.repo_loc springs_config, Dir true 4096 0);
    (Config.pltpkg_loc springs_config, Dir true 4096 0);
    (descriptor_dir, Dir true 4096 0);
    (Config.biosid_loc springs_config, File (descriptor_text "05") 5);
    (Config.bld_path springs_config, Dir true 4096 0);
    (Path.join (Config.bld_path springs_config) "A32.bin", File "image" 20);
    ("/tmp/BiosId.env", File "not a descriptor" 7) ].

(** [y] is typed at the prompt. *)
Definition save_world : World :=
  {| fs := built_tree; stdin := ["y"]; clock := 1000; trace := [] |}.

(** A build output: a pre-production image, a newer production image,
    an image with an upper-case extension, a hidden image and a text
    file. *)
Definition build_output : filesystem :=
  [ ("FV", Dir true 4096 50);
    ("FV/Bpvt64.bin", File "old image" 10);
    ("FV/A32.bin", File "new image!" 20);
    ("FV/C64.BIN", File "other case" 40);
    ("FV/.D64.bin", File "hidden" 45);
    ("FV/notes32.txt", File "notes" 30) ].

(** A build output with a broken link, and a directory that cannot be
    scanned. *)
Definition broken_output : filesystem :=
  [ ("FV", Dir true 4096 50);
    ("FV/A32.bin", File "image" 20);
    ("FV/B64.bin", Dangling);
    ("locked", Dir false 4096 60);
    ("locked/A32.bin", File "image" 20) ].

(** The archive of Springs with one image in it. *)
Definition reuse_tree : filesystem :=
  [ (Config.repo_loc springs_config, Dir true 4096 0);
    (Config.bootleg_loc springs_config, Dir true 4096 0);
    (Path.join (Config.bootleg_loc springs_config) "A32.bin", File "image" 20) ].

Definition archive_world : World :=
  world_of [("FV", Dir true 4096 10); ("FV/foo.bin", File "image bytes" 20)].

(** * Properties *)

(** ** The model on examples *)

Example format_hex_5 : format_hex 5 false = "05".
Proof. reflexivity. Qed.

Example format_hex_254 : format_hex 254 true = "FE".
Proof. reflexivity. Qed.

Example format_hex_4096 : format_hex 4096 false = "1000".
Proof. reflexivity. Qed.

Example format_hex_negative : format_hex (-5) false = "-5".
Proof. reflexivity. Qed.

Example decode_hex_prefixed : decode_hex " 0x_1f " = inr 31.
Proof. reflexivity. Qed.

Example decode_hex_double_underscore :
  decode_hex "1__0" = inl (ValueError "invalid literal for int() with base 16").
Proof. reflexivity. Qed.

Example replace_all_occurrences : Py.replace "ab" "X" "ababa-ab" = "XXa-X".
Proof. reflexivity. Qed.

Example replace_empty_pattern : Py.replace EmptyString "-" "abc" = "-a-b-c-".
Proof. reflexivity. Qed.

Example readlines_keeps_line_feeds :
  Py.readlines ("a" ++ nl ++ "b") = ["a" ++ nl; "b"].
Proof. reflexivity. Qed.

Example strip_both_ends : Py.strip ("  0A" ++ nl) = "0A".
Proof. reflexivity. Qed.

Example basename_nested : Path.basename "a/b/foo.bin" = "foo.bin".
Proof. reflexivity. Qed.

Example basename_trailing_sep : Path.basename "a/b/" = EmptyString.
Proof. reflexivity. Qed.

Example join_plain : Path.join "a/b" "c" = "a/b/c".
Proof. reflexivity. Qed.

Example join_absolute : Path.join "a/b" "/c" = "/c".
Proof. reflexivity. Qed.

Example stem_suffix_plain :
  (Path.stem "dir/foo.tar.bin", Path.suffix "dir/foo.tar.bin") = ("foo.tar", ".bin").
Proof. reflexivity. Qed.

Example stem_suffix_hidden :
  (Path.stem ".profile", Path.suffix ".profile") = (".profile", EmptyString).
Proof. reflexivity. Qed.

Example re_search_plain :
  re_search_version ("VERSION_FEATURE = 05" ++ nl) = Some " 05".
Proof. reflexivity. Qed.

Example re_search_no_value :
  re_search_version ("VERSION_FEATURE =" ++ nl) = None.
Proof. reflexivity. Qed.

Example re_search_marker_after_assignment :
  re_search_version ("X=1 VERSION_FEATURE" ++ nl) = None.
Proof. reflexivity. Qed.

Example find_version_skips_unmatched :
  find_version ["# VERSION_FEATURE" ++ nl; "A=VERSION_FEATURE" ++ nl;
                "VERSION_FEATURE=0A" ++ nl] = Some "0A".
Proof. reflexivity. Qed.

Example dirname_plain : Path.dirname "a/b/*.bin" = "a/b".
Proof. reflexivity. Qed.

Example dirname_root : Path.dirname "/*.bin" = "/".
Proof. reflexivity. Qed.

Example dirname_doubled_sep : Path.dirname "a//*.bin" = "a".
Proof. reflexivity. Qed.

(** ** Strings and paths *)

Lemma append_assoc (a b c : string) : (a ++ b) ++ c = a ++ (b ++ c).
Proof. induction a as [|x a IH]; simpl; [reflexivity|now rewrite IH]. Qed.

Lemma append_nil_r (a : string) : a ++ EmptyString = a.
Proof. induction a as [|x a IH]; simpl; [reflexivity|now rewrite IH]. Qed.

Lemma startswith_app_l (p x y : string) :
  Py.startswith p x = true -> Py.startswith p (x ++ y) = true.
Proof.
  revert x. induction p as [|a p IH]; intros x; [reflexivity|].
  destruct x as [|b x]; simpl; [discriminate|].
  destruct (Ascii.eqb a b); simpl; [apply IH|discriminate].
Qed.

Lemma contains_app_l (sub x y : string) :
  Py.contains sub x = true -> Py.contains sub (x ++ y) = true.
Proof.
  induction x as [|c x IH].
  - destruct sub; [destruct y; reflexivity|discriminate].
  - intros H. simpl in H. apply orb_prop in H.
    change (Py.contains sub (String c x ++ y))
      with (Py.startswith sub (String c x ++ y) || Py.contains sub (x ++ y)).
    destruct H as [H|H].
    + now rewrite (@startswith_app_l sub (String c x) y H).
    + rewrite (IH H). apply orb_true_r.
Qed.

Lemma contains_app_r (sub x y : string) :
  Py.contains sub y = true -> Py.contains sub (x ++ y) = true.
Proof.
  intros H. induction x as [|c x IH]; [exact H|].
  change (Py.contains sub (String c x ++ y))
    with (Py.startswith sub (String c x ++ y) || Py.contains sub (x ++ y)).
  rewrite IH. apply orb_true_r.
Qed.

(** A text without separator is its own base name. *)
Lemma contains_cons (sub : string) (c : ascii) (s : string) :
  Py.contains sub (String c s)
  = Py.startswith sub (String c s) || Py.contains sub s.
Proof. reflexivity. Qed.

Lemma startswith_sep (c : ascii) (s : string) :
  Py.startswith "/" (String c s) = Ascii.eqb c Path.SEP.
Proof.
  change (Py.startswith "/" (String c s)) with (Ascii.eqb "/" c && true).
  now rewrite andb_true_r, Ascii.eqb_sym.
Qed.

Lemma after_last_sep_plain (p : string) :
  Py.contains "/" p = false -> Path.after_last_sep p = p.
Proof.
  destruct p as [|c p]; [reflexivity|].
  rewrite contains_cons, startswith_sep. intros H.
  apply orb_false_elim in H. destruct H as [Hc Hp].
  cbn [Path.after_last_sep]. now rewrite Hp, Hc.
Qed.

(** A base name has no separator. *)
Lemma after_last_sep_no_sep (p : string) :
  Py.contains "/" (Path.after_last_sep p) = false.
Proof.
  induction p as [|c p IH]; [reflexivity|].
  cbn [Path.after_last_sep].
  destruct (Py.contains "/" p) eqn:Hp; [exact IH|].
  destruct (Ascii.eqb c Path.SEP) eqn:Hc; [exact Hp|].
  now rewrite contains_cons, startswith_sep, Hc, Hp.
Qed.

(** What precedes the last separator plays no part in the base name. *)
Lemma after_last_sep_app (x y : string) :
  Py.contains "/" y = true ->
  Path.after_last_sep (x ++ y) = Path.after_last_sep y.
Proof.
  intros Hy. induction x as [|c x IH]; [reflexivity|].
  change (String c x ++ y) with (String c (x ++ y)).
  cbn [Path.after_last_sep].
  now rewrite (@contains_app_r "/" x y Hy).
Qed.

Lemma after_last_sep_sep (x y : string) :
  Path.after_last_sep (x ++ "/" ++ y) = Path.after_last_sep y.
Proof.
  rewrite after_last_sep_app by reflexivity.
  change ("/" ++ y) with (String "/"%char y). cbn [Path.after_last_sep].
  destruct (Py.contains "/" y) eqn:Hy; [reflexivity|].
  rewrite after_last_sep_plain by exact Hy. reflexivity.
Qed.

Lemma endswith_sep_split (a : string) :
  Py.endswith "/" a = true -> exists a', a = a' ++ "/".
Proof.
  unfold Py.endswith. induction a as [|c a IH]; [discriminate|].
  intros H. apply andb_prop in H. destruct H as [_ H].
  apply String.eqb_eq in H.
  destruct a as [|d a].
  - simpl in H. exists EmptyString. exact H.
  - destruct IH as [a' Ha'].
    + apply andb_true_intro. split; [reflexivity|].
      apply String.eqb_eq. simpl in H. simpl.
      rewrite Nat.sub_0_r. exact H.
    + exists (String c a'). simpl. now rewrite Ha'.
Qed.

(** [os.path.basename(os.path.join(a, b))] is [os.path.basename(b)]. *)
Lemma basename_join (a b : string) :
  Path.basename (Path.join a b) = Path.basename b.
Proof.
  unfold Path.basename, Path.join.
  destruct (Py.startswith "/" b); [reflexivity|].
  destruct (String.eqb a EmptyString) eqn:Ha.
  - apply String.eqb_eq in Ha. now subst a.
  - simpl orb. destruct (Py.endswith "/" a) eqn:He.
    + destruct (endswith_sep_split _ He) as [a' ->].
      rewrite append_assoc. apply after_last_sep_sep.
    + apply after_last_sep_sep.
Qed.

Lemma basename_idempotent (p : string) :
  Path.basename (Path.basename p) = Path.basename p.
Proof. apply after_last_sep_plain, after_last_sep_no_sep. Qed.

(** ** Paths and the files they name *)

Lemma split_sep_app (a b : string) :
  forall cur,
    Path.split_sep_from cur (a ++ String "/" b)
    = (Path.split_sep_from cur a ++ Path.split_sep_from EmptyString b)%list.
Proof.
  induction a as [|c a IH]; intros cur.
  - reflexivity.
  - change (String c a ++ String "/" b) with (String c (a ++ String "/" b)).
    cbn [Path.split_sep_from].
    destruct (Ascii.eqb c Path.SEP); rewrite IH; reflexivity.
Qed.

Lemma split_sep_plain (nm : string) :
  forall cur,
    Py.contains "/" nm = false -> Path.split_sep_from cur nm = [cur ++ nm].
Proof.
  induction nm as [|c nm IH]; intros cur.
  - intros _. simpl. now rewrite append_nil_r.
  - rewrite contains_cons, startswith_sep. intros H.
    apply orb_false_elim in H. destruct H as [Hc Hnm].
    cbn [Path.split_sep_from]. rewrite Hc, (IH _ Hnm).
    now rewrite append_assoc.
Qed.

Lemma split_sep_nonempty (s : string) :
  forall cur, Path.split_sep_from cur s <> [].
Proof.
  induction s as [|c s IH]; intros cur; cbn [Path.split_sep_from].
  - discriminate.
  - destruct (Ascii.eqb c Path.SEP); [discriminate|apply IH].
Qed.

(** The base name is the last of the components. *)
Lemma last_split_sep (p : string) :
  forall cur d,
    last (Path.split_sep_from cur p) d
    = if Py.contains "/" p then Path.after_last_sep p else cur ++ p.
Proof.
  induction p as [|c p IH]; intros cur d.
  - simpl. now rewrite append_nil_r.
  - rewrite contains_cons, startswith_sep.
    cbn [Path.split_sep_from Path.after_last_sep].
    destruct (Ascii.eqb c Path.SEP) eqn:Hc.
    + cbn [orb].
      destruct (Path.split_sep_from EmptyString p) as [|x l] eqn:Hs;
        [now apply split_sep_nonempty in Hs|].
      change (last (cur :: x :: l) d) with (last (x :: l) d).
      rewrite <- Hs, IH. now destruct (Py.contains "/" p).
    + cbn [orb]. rewrite IH.
      destruct (Py.contains "/" p); [reflexivity|].
      now rewrite append_assoc.
Qed.

Lemma basename_last (p : string) :
  Path.basename p = last (Path.split_sep_from EmptyString p) EmptyString.
Proof.
  rewrite last_split_sep. unfold Path.basename.
  destruct (Py.contains "/" p) eqn:H; [reflexivity|].
  now apply after_last_sep_plain.
Qed.

Lemma push_name (abs : bool) (stack : list string) (nm : string) :
  Path.is_name nm = true -> Path.push abs stack nm = nm :: stack.
Proof.
  unfold Path.is_name, Path.push. intros H.
  apply andb_prop in H. destruct H as [_ H]. apply negb_true_iff in H.
  apply orb_false_elim in H. destruct H as [H H2].
  apply orb_false_elim in H. destruct H as [H0 H1].
  now rewrite H0, H1, H2.
Qed.

Lemma startswith_sep_app (x y : string) :
  x <> EmptyString -> Py.startswith "/" (x ++ y) = Py.startswith "/" x.
Proof.
  destruct x as [|c x]; [contradiction|]. intros _.
  change (String c x ++ y) with (String c (x ++ y)).
  now rewrite !startswith_sep.
Qed.

(** The file that a name joined to a directory names: the entry of
    that name in the directory. *)
Lemma key_of_join (loc nm : string) :
  loc <> EmptyString ->
  Path.is_name nm = true ->
  Path.key_of (Path.join loc nm)
  = (fst (Path.key_of loc), (snd (Path.key_of loc) ++ [nm])%list)
  /\ Path.names_directory (Path.join loc nm) = false.
Proof.
  intros Hloc Hname.
  assert (Hparts : Py.contains "/" nm = false
                   /\ (String.eqb nm EmptyString || String.eqb nm "."
                       || String.eqb nm "..") = false).
  { unfold Path.is_name in Hname. apply andb_prop in Hname.
    destruct Hname as [H1 H2].
    apply negb_true_iff in H1. apply negb_true_iff in H2. auto. }
  destruct Hparts as [Hsep Hdots].
  assert (Hstart : Py.startswith "/" nm = false).
  { destruct nm as [|c nm]; [reflexivity|].
    rewrite contains_cons in Hsep. now apply orb_false_elim in Hsep. }
  assert (Hsplit : exists xs tail,
             Path.join loc nm = loc ++ tail
             /\ Path.split_sep_from EmptyString (Path.join loc nm)
                = (xs ++ [nm])%list
             /\ fold_left (Path.push (Py.startswith "/" loc))
                          (Path.split_sep_from EmptyString loc) []
                = fold_left (Path.push (Py.startswith "/" loc)) xs []).
  { unfold Path.join. rewrite Hstart.
    destruct (String.eqb loc EmptyString) eqn:He;
      [apply String.eqb_eq in He; contradiction|].
    cbn [orb].
    destruct (Py.endswith "/" loc) eqn:Hend.
    - destruct (endswith_sep_split _ Hend) as [a Ha].
      exists (Path.split_sep_from EmptyString a), nm.
      split; [reflexivity|]. rewrite Ha.
      change (a ++ "/") with (a ++ String "/" EmptyString).
      rewrite append_assoc.
      change (String "/" EmptyString ++ nm) with (String "/" nm).
      rewrite !split_sep_app, (@split_sep_plain nm _ Hsep).
      split; [reflexivity|].
      cbn [Path.split_sep_from]. rewrite fold_left_app. reflexivity.
    - exists (Path.split_sep_from EmptyString loc), ("/" ++ nm).
      split; [reflexivity|].
      change ("/" ++ nm) with (String "/" nm).
      rewrite split_sep_app, (@split_sep_plain nm _ Hsep).
      split; reflexivity. }
  destruct Hsplit as (xs & tail & Hjoin & Hcomps & Hfold).
  split.
  - assert (Habs : Py.startswith "/" (Path.join loc nm)
                   = Py.startswith "/" loc)
      by (rewrite Hjoin; now apply startswith_sep_app).
    unfold Path.key_of. cbv zeta.
    rewrite Hcomps, !Habs. cbn [fst snd].
    rewrite fold_left_app. cbn [fold_left].
    rewrite (@push_name _ _ nm Hname). cbn [rev]. now rewrite Hfold.
  - unfold Path.names_directory. cbv zeta.
    rewrite Hcomps, last_last. exact Hdots.
Qed.



(** The base name of a path that need not name a directory is a
    name. *)
Lemma basename_is_name (p : string) :
  Path.names_directory p = false -> Path.is_name (Path.basename p) = true.
Proof.
  unfold Path.names_directory, Path.is_name. cbv zeta.
  rewrite <- basename_last. intros H. rewrite H.
  unfold Path.basename. now rewrite after_last_sep_no_sep.
Qed.

(** The single-character pattern: found in a concatenation when found
    in one of the two. *)
Lemma contains_sep_app (x y : string) :
  Py.contains "/" (x ++ y) = Py.contains "/" x || Py.contains "/" y.
Proof.
  induction x as [|c x IH].
  - simpl. now destruct y.
  - change (String c x ++ y) with (String c (x ++ y)).
    rewrite !contains_cons, !startswith_sep, IH. apply orb_assoc.
Qed.

Lemma split_sep_no_sep (s : string) :
  forall cur,
    Py.contains "/" cur = false ->
    Forall (fun c => Py.contains "/" c = false) (Path.split_sep_from cur s).
Proof.
  induction s as [|c s IH]; intros cur Hcur; cbn [Path.split_sep_from].
  - now constructor.
  - destruct (Ascii.eqb c Path.SEP) eqn:Hc.
    + constructor; [exact Hcur|]. now apply IH.
    + apply IH. rewrite contains_sep_app, Hcur.
      rewrite contains_cons, startswith_sep, Hc. reflexivity.
Qed.

(** The components of a key hold no separator and are neither empty
    nor [.]. *)
Lemma push_components (abs : bool) (stack : list string) (c : string) :
  Py.contains "/" c = false ->
  Forall (fun x => Py.contains "/" x = false
                   /\ (String.eqb x EmptyString || String.eqb x ".") = false)
         stack ->
  Forall (fun x => Py.contains "/" x = false
                   /\ (String.eqb x EmptyString || String.eqb x ".") = false)
         (Path.push abs stack c).
Proof.
  intros Hc Hstack. unfold Path.push.
  destruct (String.eqb c EmptyString || String.eqb c ".") eqn:Hdot;
    [exact Hstack|].
  destruct (String.eqb c "..").
  - destruct stack as [|top rest].
    + destruct abs; [constructor|]. constructor; [auto|constructor].
    + destruct (String.eqb top "..").
      * constructor; auto.
      * now inversion Hstack.
  - constructor; auto.
Qed.

Lemma key_components (p : string) :
  Forall (fun x => Py.contains "/" x = false
                   /\ (String.eqb x EmptyString || String.eqb x ".") = false)
         (snd (Path.key_of p)).
Proof.
  unfold Path.key_of. cbv zeta. cbn [snd].
  apply Forall_rev.
  assert (H : forall xs stack,
             Forall (fun c => Py.contains "/" c = false) xs ->
             Forall (fun x => Py.contains "/" x = false
                              /\ (String.eqb x EmptyString
                                  || String.eqb x ".") = false) stack ->
             Forall (fun x => Py.contains "/" x = false
                              /\ (String.eqb x EmptyString
                                  || String.eqb x ".") = false)
                    (fold_left (Path.push (Py.startswith "/" p)) xs stack)).
  { induction xs as [|x xs IH]; intros stack Hxs Hstack; [exact Hstack|].
    inversion Hxs; subst. cbn [fold_left]. apply IH; [assumption|].
    now apply push_components. }
  apply H; [|constructor].
  now apply split_sep_no_sep.
Qed.

Example key_of_spellings :
  Path.key_of "FV/./out//" = Path.key_of "FV/out"
  /\ Path.key_of "FV/sub/../out" = Path.key_of "FV/out"
  /\ Path.key_of "/../tmp" = Path.key_of "/tmp"
  /\ Path.key_of "FV/out" <> Path.key_of "/FV/out"
  /\ Path.names_directory "FV/out/" = true
  /\ Path.prefixes "FV//out/new" = ["FV"; "FV/"; "FV//out"; "FV//out/new"].
Proof. repeat split; try reflexivity. discriminate. Qed.

(** *** The directory of a joined path *)

Lemma substring_app (a b : string) :
  String.substring 0 (String.length a) (a ++ b) = a.
Proof.
  induction a as [|c a IH]; simpl.
  - now destruct b.
  - now rewrite IH.
Qed.

Lemma length_app_string (a b : string) :
  String.length (a ++ b) = (String.length a + String.length b)%nat.
Proof. induction a as [|c a IH]; simpl; [reflexivity|now rewrite IH]. Qed.

(** A separator at the end of a path changes nothing to the file that
    it names. *)
Lemma key_of_sep_end (s : string) :
  s <> EmptyString -> Path.key_of (s ++ "/") = Path.key_of s.
Proof.
  intros Hs. unfold Path.key_of. cbv zeta.
  rewrite (startswith_sep_app "/" Hs).
  rewrite (split_sep_app s EmptyString EmptyString).
  cbn [Path.split_sep_from]. now rewrite fold_left_app.
Qed.

(** What [rstrip('/')] takes away changes nothing to the file that a
    path names. *)
Lemma rstrip_sep_tail (s : string) :
  exists t,
    s = Path.rstrip_sep s ++ t
    /\ forall u, u <> EmptyString -> Path.key_of (u ++ t) = Path.key_of u.
Proof.
  induction s as [|c s (t & Hs & Ht)].
  - exists EmptyString. split; [reflexivity|].
    intros u _. now rewrite append_nil_r.
  - cbn [Path.rstrip_sep].
    destruct (Path.rstrip_sep s) as [|d r] eqn:Hr.
    + simpl in Hs. subst t.
      destruct (Ascii.eqb c Path.SEP) eqn:Hc.
      * apply Ascii.eqb_eq in Hc. subst c.
        exists (String Path.SEP s). split; [reflexivity|].
        intros u Hu.
        assert (E : u ++ String Path.SEP s = (u ++ "/") ++ s).
        { rewrite append_assoc. reflexivity. }
        rewrite E, Ht; [now apply key_of_sep_end|].
        now destruct u.
      * exists s. split; [reflexivity|exact Ht].
    + exists t. split; [|exact Ht].
      change (String c (String d r) ++ t) with (String c (String d r ++ t)).
      now rewrite <- Hs.
Qed.

(** The directory of a name joined to a path is that path, under
    another spelling at most. *)
Lemma key_of_dirname_join (loc nm : string) :
  loc <> EmptyString ->
  Py.contains "/" nm = false ->
  Path.dirname (Path.join loc nm) <> EmptyString
  /\ Path.key_of (Path.dirname (Path.join loc nm)) = Path.key_of loc.
Proof.
  intros Hloc Hnm.
  assert (Hpre : exists pre,
             Path.join loc nm = pre ++ nm
             /\ pre <> EmptyString
             /\ Path.key_of pre = Path.key_of loc).
  { unfold Path.join.
    assert (Hst : Py.startswith "/" nm = false).
    { destruct nm as [|c nm]; [reflexivity|].
      rewrite contains_cons in Hnm. apply orb_false_elim in Hnm.
      now destruct Hnm. }
    rewrite Hst. apply String.eqb_neq in Hloc. rewrite Hloc. cbn [orb].
    apply String.eqb_neq in Hloc.
    destruct (Py.endswith "/" loc).
    - exists loc. auto.
    - exists (loc ++ "/"). split; [now rewrite append_assoc|].
      split; [now destruct loc|]. now apply key_of_sep_end. }
  destruct Hpre as (pre & Hjoin & Hpre & Hkey).
  unfold Path.dirname. cbv zeta.
  assert (Hbase : Path.basename (Path.join loc nm) = nm).
  { rewrite basename_join. now apply after_last_sep_plain. }
  rewrite Hbase, Hjoin, length_app_string.
  replace (String.length pre + String.length nm - String.length nm)%nat
    with (String.length pre) by lia.
  rewrite substring_app.
  destruct (rstrip_sep_tail pre) as (t & Hs & Ht).
  destruct (Path.rstrip_sep pre) as [|d r] eqn:Hr.
  - split; [exact Hpre|exact Hkey].
  - split; [discriminate|].
    rewrite <- Hkey. rewrite Hs at 1. symmetry. apply Ht. discriminate.
Qed.
(** ** The file system *)

Lemma entry_store_same (f : filesystem) (p : string) (n : node) :
  FS.entry (FS.store f p n) (Path.key_of p) = Some n.
Proof.
  induction f as [|[q m] f IH]; cbn [FS.store FS.entry].
  - destruct (Path.key_eq_dec (Path.key_of p) (Path.key_of p));
      [reflexivity|contradiction].
  - destruct (Path.key_eq_dec (Path.key_of q) (Path.key_of p)) as [E|E];
      cbn [FS.entry];
      destruct (Path.key_eq_dec (Path.key_of q) (Path.key_of p));
      solve [reflexivity | contradiction | exact IH].
Qed.

Lemma entry_store_other (f : filesystem) (p : string) (n : node)
    (k : Path.key) :
  Path.key_of p <> k -> FS.entry (FS.store f p n) k = FS.entry f k.
Proof.
  intros H. induction f as [|[q m] f IH]; cbn [FS.store FS.entry].
  - destruct (Path.key_eq_dec (Path.key_of p) k); [contradiction|reflexivity].
  - destruct (Path.key_eq_dec (Path.key_of q) (Path.key_of p)) as [E|E];
      cbn [FS.entry];
      destruct (Path.key_eq_dec (Path.key_of q) k) as [E'|E'];
      solve [reflexivity | congruence | exact IH].
Qed.

Lemma node_at_store_other (f : filesystem) (p q : string) (n : node) :
  ~ same_path p q -> FS.node_at (FS.store f p n) q = FS.node_at f q.
Proof.
  intros H. unfold FS.node_at. now rewrite entry_store_other.
Qed.

(** A write leaves what every other file holds. *)
Lemma lookup_store_other (f : filesystem) (p q : string) (n : node) :
  ~ same_path p q -> FS.lookup (FS.store f p n) q = FS.lookup f q.
Proof.
  intros H. unfold FS.lookup. now rewrite node_at_store_other.
Qed.

Lemma node_at_store_same (f : filesystem) (p : string) (n : node) :
  p <> EmptyString -> FS.node_at (FS.store f p n) p = Some n.
Proof.
  intros H. unfold FS.node_at.
  apply String.eqb_neq in H. now rewrite H, entry_store_same.
Qed.

Lemma lookup_store_same (f : filesystem) (p : string) (n : node) :
  p <> EmptyString -> Path.names_directory p = false ->
  FS.lookup (FS.store f p n) p = Some n.
Proof.
  intros Hp Hd. unfold FS.lookup. now rewrite node_at_store_same, Hd.
Qed.

Lemma lookup_store_dir (f : filesystem) (p : string) (r : bool) (sz m : Z) :
  p <> EmptyString ->
  FS.lookup (FS.store f p (Dir r sz m)) p = Some (Dir r sz m).
Proof.
  intros Hp. unfold FS.lookup. rewrite node_at_store_same by exact Hp.
  now destruct (Path.names_directory p).
Qed.

Lemma lookup_node_at (f : filesystem) (p : string) (n : node) :
  FS.lookup f p = Some n -> FS.node_at f p = Some n.
Proof.
  unfold FS.lookup. destruct (FS.node_at f p) as [n'|]; [|discriminate].
  destruct (Path.names_directory p); [|auto].
  destruct n'; solve [discriminate | auto].
Qed.

Lemma lookup_nonempty (f : filesystem) (p : string) (n : node) :
  FS.lookup f p = Some n -> p <> EmptyString.
Proof. intros H ->. discriminate H. Qed.

(** A path that names something else than a directory need not name a
    directory. *)
Lemma lookup_plain (f : filesystem) (p : string) (n : node) :
  FS.lookup f p = Some n ->
  (forall r sz m, n <> Dir r sz m) ->
  Path.names_directory p = false.
Proof.
  unfold FS.lookup. destruct (FS.node_at f p) as [n'|]; [|discriminate].
  destruct (Path.names_directory p); [|reflexivity].
  destruct n'; try discriminate.
  intros H Hn. injection H as <-. now destruct (Hn accessible size mtime).
Qed.

(** Writing over what the path names. *)
Lemma lookup_store_over (f : filesystem) (p : string) (n n' : node) :
  FS.lookup f p = Some n ->
  (forall r sz m, n <> Dir r sz m) ->
  FS.lookup (FS.store f p n') p = Some n'.
Proof.
  intros H Hn. apply lookup_store_same.
  - exact (@lookup_nonempty f p n H).
  - exact (@lookup_plain f p n H Hn).
Qed.

Lemma read_store_other (f : filesystem) (p q : string) (n : node) :
  ~ same_path p q -> FS.read (FS.store f p n) q = FS.read f q.
Proof. intros H. unfold FS.read. now rewrite lookup_store_other. Qed.


Lemma exists_store_other (f : filesystem) (p q : string) (n : node) :
  ~ same_path p q -> FS.exists_ (FS.store f p n) q = FS.exists_ f q.
Proof. intros H. unfold FS.exists_. now rewrite lookup_store_other. Qed.

(** Two spellings of one path name the same thing, when neither or
    both can only name a directory. *)
Lemma lookup_same_path (f : filesystem) (p q : string) :
  same_path p q -> p <> EmptyString -> q <> EmptyString ->
  Path.names_directory p = Path.names_directory q ->
  FS.lookup f p = FS.lookup f q.
Proof.
  intros Hk Hp Hq Hd. unfold FS.lookup, FS.node_at.
  apply String.eqb_neq in Hp. apply String.eqb_neq in Hq.
  unfold same_path in Hk. now rewrite Hp, Hq, Hk, Hd.
Qed.

Lemma isdir_exists (f : filesystem) (p : string) :
  FS.isdir f p = true -> FS.exists_ f p = true.
Proof.
  unfold FS.isdir, FS.exists_.
  destruct (FS.lookup f p) as [[| | |]|]; solve [reflexivity | discriminate].
Qed.

Lemma exists_of_lookup (f f' : filesystem) (q : string) :
  FS.lookup f' q = FS.lookup f q -> FS.exists_ f' q = FS.exists_ f q.
Proof. intros H. unfold FS.exists_. now rewrite H. Qed.

Example lookup_spellings :
  FS.isdir [("FV", Dir true 4096 50)] "FV/" = true
  /\ FS.isdir [("FV", Dir true 4096 50)] "./FV/." = true
  /\ FS.isfile [("FV/foo.bin", File "image" 20)] "FV//foo.bin" = true
  /\ FS.exists_ [("FV/foo.bin", File "image" 20)] "FV/foo.bin/" = false
  /\ FS.exists_ [("FV/foo.bin", File "image" 20)] EmptyString = false
  /\ FS.isdir [] "." = true.
Proof. repeat split; reflexivity. Qed.

(** What [glob] returns for a pattern that ends in a star and a
    literal: entries of the directory of the pattern, not hidden, whose
    names end with the literal. *)
Lemma glob_matches (f : filesystem) (pattern lit p : string) :
  Path.basename pattern = String "*"%char lit ->
  In p (Glob.glob f pattern) ->
  exists nm,
    p = Path.join (Path.dirname pattern) nm
    /\ In nm (Glob.scandir f (Path.dirname pattern))
    /\ Py.startswith "." nm = false
    /\ Py.endswith lit nm = true.
Proof.
  intros Hbase. unfold Glob.glob. rewrite Hbase.
  destruct (Glob.has_magic (Path.dirname pattern) || Glob.has_magic lit
            || String.eqb (Path.dirname pattern) EmptyString);
    [contradiction|].
  rewrite in_map_iff. intros (nm & <- & Hin).
  apply filter_In in Hin. destruct Hin as [Hin Htest].
  apply andb_prop in Htest. destruct Htest as [Hhidden Hends].
  exists nm. repeat split; auto.
  now apply negb_true_iff in Hhidden.
Qed.

Example glob_build_output :
  Glob.glob [ ("FV", Dir true 4096 50);
              ("FV/Bpvt64.bin", File "old image" 10);
              ("FV/A32.bin", File "new image!" 20);
              ("FV/C64.BIN", File "other case" 40);
              ("FV/.D64.bin", File "hidden" 45);
              ("FV/sub/E64.bin", File "deeper" 45);
              ("FV/notes32.txt", File "notes" 30) ]
            (Path.join "FV" "*.bin")
  = ["FV/Bpvt64.bin"; "FV/A32.bin"].
Proof. reflexivity. Qed.

(** ** The hexadecimal codec *)

Lemma roundtrips_bytes :
  forallb (fun k => roundtrips (Z.of_nat k)) (seq 0 256) = true.
Proof. vm_compute. reflexivity. Qed.

Lemma roundtrips_in_range (n : Z) : 0 <= n <= 255 -> roundtrips n = true.
Proof.
  intros Hn.
  pose proof roundtrips_bytes as H.
  rewrite forallb_forall in H.
  specialize (H (Z.to_nat n)).
  rewrite Z2Nat.id in H by lia.
  apply H. apply in_seq. lia.
Qed.

Lemma format_hex_reverse (n : Z) (reverse : bool) :
  format_hex n reverse = format_02X n.
Proof. unfold format_hex. now destruct reverse. Qed.

(** What the test says of a value that passes it. *)
Lemma roundtrips_true (n : Z) :
  roundtrips n = true ->
  int_base16 (format_02X n) = Some n
  /\ String.length (format_02X n) = 2%nat
  /\ all_chars is_upper_hex_digit (format_02X n) = true.
Proof.
  unfold roundtrips.
  destruct (int_base16 (format_02X n)) as [m|]; [|discriminate].
  intros H. apply andb_prop in H. destruct H as [H Hup].
  apply andb_prop in H. destruct H as [Hm Hlen].
  apply Z.eqb_eq in Hm. apply Nat.eqb_eq in Hlen.
  subst m. auto.
Qed.

(** Decoding the text of a byte. *)
Lemma decode_of_format (n : Z) (reverse : bool) :
  0 <= n <= 255 -> decode_hex (format_hex n reverse) = inr n.
Proof.
  intros Hn. rewrite format_hex_reverse. unfold decode_hex.
  destruct (@roundtrips_true n (roundtrips_in_range Hn)) as (H & _).
  now rewrite H.
Qed.

(** C8: for every integer [n] in [0, 255], [format_hex] gives two
    upper-case hexadecimal characters, and [decode_hex] gives [n] back
    from them. *)
Theorem format_decode_roundtrip (n : Z) (reverse : bool) :
  0 <= n <= 255 ->
  decode_hex (format_hex n reverse) = inr n
  /\ String.length (format_hex n reverse) = 2%nat
  /\ all_chars is_upper_hex_digit (format_hex n reverse) = true.
Proof.
  intros Hn. split.
  - now apply decode_of_format.
  - rewrite format_hex_reverse.
    destruct (@roundtrips_true n (roundtrips_in_range Hn)) as (_ & Hlen & Hup).
    split; assumption.
Qed.

Lemma format_decode_roundtrip_witness :
  decode_hex (format_hex 171 false) = inr 171
  /\ String.length (format_hex 171 false) = 2%nat
  /\ all_chars is_upper_hex_digit (format_hex 171 false) = true.
Proof. apply (@format_decode_roundtrip 171 false). lia. Defined.

(** ** The hexadecimal codec on every integer *)

Lemma hex_digit_ok_all :
  forallb (fun k => hex_digit_ok (Z.of_nat k)) (seq 0 16) = true.
Proof. vm_compute. reflexivity. Qed.

Lemma hex_digit_facts (d : Z) :
  0 <= d < 16 ->
  hex_value (hex_digit d) = Some d
  /\ is_underscore (hex_digit d) = false
  /\ is_upper_hex_digit (hex_digit d) = true.
Proof.
  intros Hd.
  pose proof hex_digit_ok_all as H. rewrite forallb_forall in H.
  specialize (H (Z.to_nat d)). rewrite Z2Nat.id in H by lia.
  assert (Hok : hex_digit_ok d = true) by (apply H, in_seq; lia).
  unfold hex_digit_ok in Hok. cbv zeta in Hok.
  apply andb_prop in Hok. destruct Hok as [Hok Hup].
  apply andb_prop in Hok. destruct Hok as [Hval Hus].
  destruct (hex_value (hex_digit d)) as [v|]; [|discriminate].
  apply Z.eqb_eq in Hval. subst v.
  apply negb_true_iff in Hus. auto.
Qed.

(** The digits that [hex_upper] writes are never none. *)
Lemma hex_upper_nonempty (f : nat) :
  forall n acc, hex_upper (S f) n acc <> EmptyString.
Proof.
  induction f as [|f IH]; intros n acc.
  - simpl. destruct (n / 16 =? 0); discriminate.
  - change (hex_upper (S (S f)) n acc)
      with (if n / 16 =? 0 then String (hex_digit (n mod 16)) acc
            else hex_upper (S f) (n / 16) (String (hex_digit (n mod 16)) acc)).
    destruct (n / 16 =? 0); [discriminate|apply IH].
Qed.

Lemma hex_upper_all_digits (f : nat) :
  forall n acc,
    all_chars is_upper_hex_digit acc = true ->
    all_chars is_upper_hex_digit (hex_upper f n acc) = true.
Proof.
  induction f as [|f IH]; intros n acc Hacc; [exact Hacc|].
  assert (Hd : all_chars is_upper_hex_digit (String (hex_digit (n mod 16)) acc)
               = true).
  { simpl.
    destruct (@hex_digit_facts (n mod 16)) as (_ & _ & Hup);
      [apply Z.mod_pos_bound; lia|].
    now rewrite Hup. }
  simpl. destruct (n / 16 =? 0); [exact Hd|now apply IH].
Qed.

Lemma hex_upper_step (f : nat) (n : Z) (acc : string) :
  hex_upper (S f) n acc
  = if n / 16 =? 0 then String (hex_digit (n mod 16)) acc
    else hex_upper f (n / 16) (String (hex_digit (n mod 16)) acc).
Proof. reflexivity. Qed.

(** One digit under the scanner. *)
Lemma scan_hex_digit (a d : Z) (k : nat) (rest : string) :
  0 <= d < 16 ->
  scan_hex false a k (String (hex_digit d) rest)
  = scan_hex false (16 * a + d) (S k) rest.
Proof.
  intros Hd. destruct (hex_digit_facts Hd) as (Hval & Hus & _).
  cbn [scan_hex]. now rewrite Hus, Hval.
Qed.

(** Scanning the digits that [hex_upper] writes for [n] leaves the
    scanner at the value [n], with one digit read at least. *)
Lemma scan_hex_upper (f : nat) :
  forall n acc k,
    0 <= n < 16 ^ Z.of_nat (S f) ->
    exists k',
      scan_hex false 0 k (hex_upper (S f) n acc) = scan_hex false n (S k') acc.
Proof.
  induction f as [|f IH]; intros n acc k Hn;
    rewrite hex_upper_step;
    assert (Hmod : 0 <= n mod 16 < 16) by (apply Z.mod_pos_bound; lia);
    pose proof (Z.div_mod n 16 ltac:(lia)) as Hdm;
    destruct (n / 16 =? 0) eqn:Hq.
  - apply Z.eqb_eq in Hq. exists k. rewrite scan_hex_digit by exact Hmod.
    f_equal. lia.
  - change (16 ^ Z.of_nat 1) with 16 in Hn.
    apply Z.eqb_neq in Hq. exfalso. apply Hq. apply Z.div_small. lia.
  - apply Z.eqb_eq in Hq. exists k. rewrite scan_hex_digit by exact Hmod.
    f_equal. lia.
  - assert (Hdiv : 0 <= n / 16 < 16 ^ Z.of_nat (S f)).
    { split; [apply Z.div_pos; lia|].
      apply Z.div_lt_upper_bound; [lia|].
      replace (16 * 16 ^ Z.of_nat (S f)) with (16 ^ Z.of_nat (S (S f))); [lia|].
      rewrite (Nat2Z.inj_succ (S f)). rewrite Z.pow_succ_r by lia. reflexivity. }
    destruct (IH (n / 16) (String (hex_digit (n mod 16)) acc) k Hdiv)
      as (k' & Hscan).
    exists (S k'). rewrite Hscan. rewrite scan_hex_digit by exact Hmod.
    f_equal. lia.
Qed.

Lemma hex_upper_of_fuel (n : Z) :
  0 <= n -> n < 16 ^ Z.of_nat (S (Z.to_nat (Z.log2 n))).
Proof.
  intros Hn. rewrite Nat2Z.inj_succ, Z2Nat.id by apply Z.log2_nonneg.
  destruct (Z.eq_dec n 0) as [->|Hnz]; [reflexivity|].
  assert (Hlog : n < 2 ^ Z.succ (Z.log2 n)) by (apply Z.log2_spec; lia).
  apply (Z.lt_le_trans _ _ _ Hlog).
  change 16 with (2 ^ 4). rewrite <- Z.pow_mul_r by (pose proof (Z.log2_nonneg n); lia).
  apply Z.pow_le_mono_r; pose proof (Z.log2_nonneg n); lia.
Qed.

(** [int()] on a run of upper-case digits, with or without a minus
    sign before it: no white space, no prefix and no underscore is
    seen, and the scan of the digits decides. *)
Lemma int_base16_digits (negative : bool) (c : ascii) (r : string) :
  is_upper_hex_digit c = true ->
  all_chars is_upper_hex_digit r = true ->
  int_base16 (if negative then String "-"%char (String c r) else String c r)
  = match scan_hex false 0 0 (String c r) with
    | Some (v, S _, rest) =>
        match skip_int_space rest with
        | EmptyString => Some ((if negative then -1 else 1) * v)
        | _ => None
        end
    | _ => None
    end.
Proof.
  intros Hc Hr. unfold int_base16.
  destruct c as [[] [] [] [] [] [] [] []];
    try (vm_compute in Hc; discriminate Hc);
    destruct negative; try reflexivity;
    (destruct r as [|x r]; [reflexivity|]);
    simpl in Hr; apply andb_prop in Hr; destruct Hr as [Hx _];
    destruct x as [[] [] [] [] [] [] [] []];
    try (vm_compute in Hx; discriminate Hx); reflexivity.
Qed.

Lemma scan_hex_upper_of (n : Z) (k : nat) :
  0 <= n ->
  exists k', scan_hex false 0 k (hex_upper_of n) = Some (n, S k', EmptyString).
Proof.
  intros Hn. unfold hex_upper_of.
  destruct (@scan_hex_upper (Z.to_nat (Z.log2 n)) n EmptyString k) as (k' & H).
  { split; [exact Hn|now apply hex_upper_of_fuel]. }
  exists k'. rewrite H. reflexivity.
Qed.

Lemma hex_upper_of_shape (n : Z) :
  exists c r,
    hex_upper_of n = String c r
    /\ is_upper_hex_digit c = true
    /\ all_chars is_upper_hex_digit r = true.
Proof.
  unfold hex_upper_of.
  pose proof (@hex_upper_nonempty (Z.to_nat (Z.log2 n)) n EmptyString) as Hne.
  pose proof (@hex_upper_all_digits (S (Z.to_nat (Z.log2 n))) n EmptyString
                eq_refl) as Hall.
  destruct (hex_upper (S (Z.to_nat (Z.log2 n))) n EmptyString) as [|c r];
    [contradiction|].
  simpl in Hall. apply andb_prop in Hall. destruct Hall as [Hc Hr].
  exists c, r. auto.
Qed.

(** X1: [decode_hex] gives back every integer that [format_hex] has
    written, whatever its size and its sign, and whatever the [reverse]
    flag is. *)
Theorem format_decode_every_integer (n : Z) (reverse : bool) :
  decode_hex (format_hex n reverse) = inr n.
Proof.
  rewrite format_hex_reverse. unfold decode_hex, format_02X.
  destruct (n <? 0) eqn:Hsign.
  - apply Z.ltb_lt in Hsign.
    destruct (hex_upper_of_shape (- n)) as (c & r & Hshape & Hc & Hr).
    destruct (@scan_hex_upper_of (- n) 0) as (k' & Hscan); [lia|].
    rewrite Hshape in *.
    rewrite (@int_base16_digits true c r Hc Hr), Hscan. simpl skip_int_space.
    cbv iota. f_equal. lia.
  - apply Z.ltb_ge in Hsign. cbv zeta.
    destruct (hex_upper_of_shape n) as (c & r & Hshape & Hc & Hr).
    destruct (String.length (hex_upper_of n) <? 2)%nat.
    + destruct (@scan_hex_upper_of n 1 Hsign) as (k' & Hscan).
      assert (Hall : all_chars is_upper_hex_digit (hex_upper_of n) = true)
        by (rewrite Hshape; simpl; now rewrite Hc, Hr).
      rewrite (@int_base16_digits false "0"%char (hex_upper_of n) eq_refl Hall).
      change "0"%char with (hex_digit 0).
      rewrite scan_hex_digit by lia. change (16 * 0 + 0) with 0.
      rewrite Hscan. simpl skip_int_space. cbv iota. f_equal. lia.
    + destruct (@scan_hex_upper_of n 0 Hsign) as (k' & Hscan).
      rewrite Hshape in *.
      rewrite (@int_base16_digits false c r Hc Hr), Hscan.
      simpl skip_int_space. cbv iota. f_equal. lia.
Qed.

Example format_decode_large :
  format_hex 48879 false = "BEEF" /\ decode_hex "BEEF" = inr 48879.
Proof. split; reflexivity. Qed.

Example format_decode_negative :
  format_hex (-255) true = "-FF" /\ decode_hex "-FF" = inr (-255).
Proof. split; reflexivity. Qed.

(** ** Platform configuration *)

(** C10: for every tree override, and in every world, resolving the
    configuration without a platform gives what resolving it for
    [X60] gives: the same record or the same exception. When it
    succeeds, the code name is [Springs]. *)
Theorem get_config_default_is_X60 (tree : option string) (w : World) :
  get_config None tree w = get_config (Some "X60") tree w
  /\ (forall c w', get_config None tree w = (inr c, w') ->
        Config.name c = "Springs").
Proof.
  split; [reflexivity|].
  intros c w'. unfold get_config. simpl.
  unfold create_config, bind, get_fs, raise, ret.
  destruct (negb (FS.exists_ (fs w) (get_repo_loc tree "HpSpringsWks"))).
  - discriminate.
  - intros H. injection H as <- _. reflexivity.
Qed.

Lemma get_config_default_is_X60_witness :
  get_config None None (world_of springs_tree)
  = get_config (Some "X60") None (world_of springs_tree)
  /\ Config.name springs_config = "Springs".
Proof.
  destruct (get_config_default_is_X60 None (world_of springs_tree)) as [H1 H2].
  split; [exact H1|].
  apply (H2 _ (world_of springs_tree)). reflexivity.
Defined.

(** ** The outcome of the platform configuration *)

(** X3: a platform name other than the four that the script knows,
    compared as it is written, is refused with [ValueError] and its
    message; the tree is not looked at and the world is left as it
    is. *)
Theorem get_config_unknown_platform (p : string) (tree : option string)
    (w : World) :
  ~ In p ["U60"; "U61"; "U65"; "X60"] ->
  get_config (Some p) tree w
  = (inl (ValueError ("Unknown platform: " ++ p)), w).
Proof.
  intros Hp. unfold get_config, is_platform.
  destruct (String.eqb p "U60") eqn:E0;
    [apply String.eqb_eq in E0; exfalso; apply Hp; subst p; simpl; tauto|].
  destruct (String.eqb p "U61") eqn:E1;
    [apply String.eqb_eq in E1; exfalso; apply Hp; subst p; simpl; tauto|].
  destruct (String.eqb p "U65") eqn:E2;
    [apply String.eqb_eq in E2; exfalso; apply Hp; subst p; simpl; tauto|].
  destruct (String.eqb p "X60") eqn:E3;
    [apply String.eqb_eq in E3; exfalso; apply Hp; subst p; simpl; tauto|].
  reflexivity.
Qed.

Lemma get_config_unknown_platform_witness :
  get_config (Some "x60") None (world_of springs_tree)
  = (inl (ValueError "Unknown platform: x60"), world_of springs_tree).
Proof.
  apply (@get_config_unknown_platform "x60" None (world_of springs_tree)).
  intros [H|[H|[H|[H|[]]]]]; discriminate H.
Defined.

Lemma create_config_layout (name : string) (tree : option string)
    (default_tree biosid_loc : string) (w : World) (config : Config.t)
    (w' : World) :
  create_config name tree default_tree biosid_loc w = (inr config, w') ->
  w' = w
  /\ Config.name config = name
  /\ FS.exists_ (fs w) (Config.repo_loc config) = true
  /\ Config.repo_loc config
     = Path.join DEV_LOC (match tree with Some t => t | None => default_tree end)
  /\ Config.pltpkg_loc config = Path.join (Config.repo_loc config) "HpPlatformPkg"
  /\ Config.bld_path config = Path.join3 (Config.pltpkg_loc config) "BLD" "FV"
  /\ Config.bootleg_loc config = Path.join3 DEV_LOC "Bootlegs" name
  /\ Config.network_loc config = Path.join NET_LOC name
  /\ Config.biosid_loc config = Path.join (Config.pltpkg_loc config) biosid_loc.
Proof.
  unfold create_config, bind, get_fs, raise, ret.
  destruct (FS.exists_ (fs w) (get_repo_loc tree default_tree)) eqn:Hex;
    simpl; [|discriminate].
  intros H. injection H as <- <-. simpl.
  repeat split; try assumption. now destruct tree.
Qed.

(** X4: a configuration that [get_config] returns is laid out below a
    tree that exists: the name is the one of the platform, the tree is
    the given one or the default of the platform below [DEV_LOC], the
    package, the build output and the descriptor lie below the tree,
    the two archives are named after the platform, and the descriptor
    is a file called [BiosId.env]. Resolving the configuration leaves
    the world as it is. *)
Theorem get_config_layout (platform tree : option string) (w : World)
    (config : Config.t) (w' : World) :
  get_config platform tree w = (inr config, w') ->
  w' = w
  /\ In (platform, Config.name config)
        [ (Some "U60", "Glacier"); (Some "U61", "Winters");
          (Some "U65", "Avalanche"); (Some "X60", "Springs");
          (None, "Springs") ]
  /\ FS.exists_ (fs w) (Config.repo_loc config) = true
  /\ (forall t, tree = Some t -> Config.repo_loc config = Path.join DEV_LOC t)
  /\ Config.pltpkg_loc config = Path.join (Config.repo_loc config) "HpPlatformPkg"
  /\ Config.bld_path config = Path.join3 (Config.pltpkg_loc config) "BLD" "FV"
  /\ Config.bootleg_loc config
     = Path.join3 DEV_LOC "Bootlegs" (Config.name config)
  /\ Config.network_loc config = Path.join NET_LOC (Config.name config)
  /\ Path.basename (Config.biosid_loc config) = "BiosId.env".
Proof.
  unfold get_config, is_platform.
  destruct platform as [p|].
  - destruct (String.eqb p "U60") eqn:E0;
      [|destruct (String.eqb p "U61") eqn:E1;
          [|destruct (String.eqb p "U65") eqn:E2;
              [|destruct (String.eqb p "X60") eqn:E3]]];
      simpl; try discriminate;
      intros H; apply create_config_layout in H;
      destruct H as (Hw & Hn & Hex & Hrepo & Hpkg & Hbld & Hboot & Hnet & Hid);
      rewrite Hid, basename_join, Hn;
      (split; [exact Hw|]);
      (split; [first [apply String.eqb_eq in E0 | apply String.eqb_eq in E1
                     | apply String.eqb_eq in E2 | apply String.eqb_eq in E3];
               subst p; simpl; tauto|]);
      (split; [exact Hex|]);
      (split; [intros t ->; exact Hrepo|]);
      repeat split; solve [assumption | reflexivity].
  - simpl. intros H. apply create_config_layout in H.
    destruct H as (Hw & Hn & Hex & Hrepo & Hpkg & Hbld & Hboot & Hnet & Hid).
    rewrite Hid, basename_join, Hn.
    split; [exact Hw|]. split; [simpl; tauto|]. split; [exact Hex|].
    split; [intros t ->; exact Hrepo|].
    repeat split; solve [assumption | reflexivity].
Qed.

Lemma get_config_layout_witness :
  Config.bld_path springs_config
  = Path.join3 (Config.pltpkg_loc springs_config) "BLD" "FV"
  /\ Path.basename (Config.biosid_loc springs_config) = "BiosId.env".
Proof.
  destruct (@get_config_layout None None (world_of springs_tree)
              springs_config (world_of springs_tree) eq_refl)
    as (_ & _ & _ & _ & _ & Hbld & _ & _ & Hid).
  split; [exact Hbld|exact Hid].
Defined.

(** X5: the only errors of [get_config] on a platform that it knows
    are those of a missing tree: it raises [FileNotFoundError] with the
    path it looked for, which is the given tree joined to [DEV_LOC] when
    one is given, and leaves the world as it is. *)
Theorem get_config_missing_tree (platform tree : option string) (w : World)
    (e : exn) (w' : World) :
  In platform [Some "U60"; Some "U61"; Some "U65"; Some "X60"; None] ->
  get_config platform tree w = (inl e, w') ->
  w' = w
  /\ exists repo_loc,
       e = FileNotFoundError ("Repository tree not found: " ++ repo_loc)
       /\ FS.exists_ (fs w) repo_loc = false
       /\ (forall t, tree = Some t -> repo_loc = Path.join DEV_LOC t).
Proof.
  intros Hp.
  assert (Hcreate : forall name default_tree biosid_loc,
             create_config name tree default_tree biosid_loc w = (inl e, w') ->
             w' = w
             /\ exists repo_loc,
                  e = FileNotFoundError ("Repository tree not found: " ++ repo_loc)
                  /\ FS.exists_ (fs w) repo_loc = false
                  /\ (forall t, tree = Some t -> repo_loc = Path.join DEV_LOC t)).
  { intros name default_tree biosid_loc.
    unfold create_config, bind, get_fs, raise, ret.
    destruct (FS.exists_ (fs w) (get_repo_loc tree default_tree)) eqn:Hex;
      simpl; [discriminate|].
    intros H. injection H as <- <-. split; [reflexivity|].
    exists (get_repo_loc tree default_tree).
    split; [reflexivity|]. split; [exact Hex|].
    intros t ->. reflexivity. }
  simpl in Hp.
  destruct Hp as [<-|[<-|[<-|[<-|[<-|[]]]]]]; apply Hcreate.
Qed.

Lemma get_config_missing_tree_witness :
  exists repo_loc,
    fst (get_config (Some "U65") (Some "Scratch") (world_of springs_tree))
    = inl (FileNotFoundError ("Repository tree not found: " ++ repo_loc))
    /\ FS.exists_ springs_tree repo_loc = false.
Proof.
  destruct (@get_config_missing_tree (Some "U65") (Some "Scratch")
              (world_of springs_tree)
              (FileNotFoundError
                 ("Repository tree not found: " ++ Path.join DEV_LOC "Scratch"))
              (world_of springs_tree))
    as (_ & repo_loc & He & Hex & _).
  - simpl. tauto.
  - reflexivity.
  - exists repo_loc. split; [|exact Hex].
    rewrite <- He. reflexivity.
Defined.

Example get_config_absolute_tree :
  get_repo_loc (Some "/srv/trees/Springs") "HpSpringsWks" = "/srv/trees/Springs".
Proof. reflexivity. Qed.

(** ** Reading and writing the lines *)

Lemma concat_cons (x : string) (xs : list string) :
  String.concat EmptyString (x :: xs) = x ++ String.concat EmptyString xs.
Proof. destruct xs; simpl; [now rewrite append_nil_r|reflexivity]. Qed.

Lemma writelines_readlines_from (s : string) :
  forall cur, Py.writelines (Py.readlines_from cur s) = cur ++ s.
Proof.
  unfold Py.writelines.
  induction s as [|c s IH]; intros cur; cbn [Py.readlines_from].
  - destruct cur; [reflexivity|]. simpl. now rewrite append_nil_r.
  - destruct (Ascii.eqb c Py.LF).
    + rewrite concat_cons, IH. now rewrite append_assoc.
    + rewrite IH. now rewrite append_assoc.
Qed.

(** The lines that [readlines] gives, written one after the other, are
    the text. *)
Lemma writelines_readlines (text : string) :
  Py.writelines (Py.readlines text) = text.
Proof. apply writelines_readlines_from. Qed.

Lemma startswith_drop (p s : string) :
  Py.startswith p s = true -> s = p ++ Py.drop (String.length p) s.
Proof.
  revert s. induction p as [|a p IH]; intros s; [reflexivity|].
  destruct s as [|b s]; [discriminate|].
  cbn [Py.startswith]. intros H. apply andb_prop in H. destruct H as [Hab Hp].
  apply Ascii.eqb_eq in Hab. subst b. simpl. now rewrite <- IH.
Qed.

(** Replacing a text by itself: what is left of [s] after the
    characters still to be dropped. *)
Lemma replace_from_same (old : string) (s : string) :
  old <> EmptyString ->
  forall skip, Py.replace_from old old s skip = Py.drop skip s.
Proof.
  intros Hold. induction s as [|c s IH]; intros skip.
  - now destruct skip.
  - destruct skip as [|k]; cbn [Py.replace_from Py.drop]; [|apply IH].
    destruct (Py.startswith old (String c s)) eqn:Hs.
    + rewrite IH. destruct old as [|a old]; [contradiction|].
      rewrite (startswith_drop _ _ Hs) at 1.
      simpl. now rewrite Nat.sub_0_r.
    + rewrite IH. reflexivity.
Qed.

Lemma replace_same (old s : string) :
  old <> EmptyString -> Py.replace old old s = s.
Proof.
  intros Hold. unfold Py.replace.
  destruct old; [contradiction|]. now rewrite replace_from_same.
Qed.

(** A text without carriage return is read as it is. *)
Lemma universal_newlines_plain (s : string) :
  Py.contains (String Py.CR EmptyString) s = false ->
  Py.universal_newlines s = s.
Proof.
  induction s as [|c s IH]; [reflexivity|].
  rewrite contains_cons. intros H. apply orb_false_elim in H.
  destruct H as [Hc Hs].
  change (Py.startswith (String Py.CR EmptyString) (String c s))
    with (Ascii.eqb Py.CR c && true) in Hc.
  rewrite andb_true_r, Ascii.eqb_sym in Hc.
  cbn [Py.universal_newlines]. rewrite Hc. now rewrite IH.
Qed.

Example universal_newlines_mixed :
  Py.universal_newlines
    (String "a" (String Py.CR (String Py.LF (String "b" (String Py.CR
       (String "c" (String Py.LF EmptyString)))))))
  = String "a" (String Py.LF (String "b" (String Py.LF
      (String "c" (String Py.LF EmptyString))))).
Proof. reflexivity. Qed.

(** ** The version stamper *)

(** What [set_version] does on a descriptor that it can read and
    decode: it returns normally and leaves the rewritten text in the
    file. *)
Lemma set_version_run (w : World) (file_path : string) (version : option Z)
    (text : string) (mtime : Z) (curr_version_str : string) (current : Z) :
  FS.lookup (fs w) file_path = Some (File text mtime) ->
  find_version (Py.readlines (Py.universal_newlines text))
  = Some curr_version_str ->
  decode_hex curr_version_str = inr current ->
  exists w',
    set_version file_path version w = (inr tt, w')
    /\ FS.read (fs w') file_path
       = Some (Py.writelines
                 (update_lines curr_version_str (next_version current version)
                               (Py.readlines (Py.universal_newlines text))))
    /\ (forall q, ~ same_path file_path q ->
          FS.lookup (fs w') q = FS.lookup (fs w) q).
Proof.
  intros Hfile Hfind Hdec.
  unfold set_version, open_read, open_write, lift, log.
  unfold bind, get_fs, get_clock, put_fs, ret, raise, FS.exists_.
  cbn [fs stdin clock trace]. rewrite Hfile. cbn [negb fs].
  rewrite ?Hfile, Hfind, Hdec. cbn [fs]. rewrite ?Hfile.
  eexists. split; [reflexivity|]. cbn [fs]. split.
  - unfold FS.read. rewrite (@lookup_store_over _ _ _ _ Hfile); [reflexivity|].
    discriminate.
  - intros q Hq. now apply lookup_store_other.
Qed.

Lemma next_version_range (current : Z) (version : option Z) :
  0 <= next_version current version < 100.
Proof. unfold next_version. destruct version; apply Z.mod_pos_bound; lia. Qed.

(** The first loop stops at the first line that has the marker and
    the equals sign and that the pattern matches. *)
Lemma find_version_first (before after : list string) (line group : string) :
  Forall (fun l => Py.contains VERSION_FEATURE l && Py.contains "=" l = false)
         before ->
  Py.contains VERSION_FEATURE line && Py.contains "=" line = true ->
  re_search_version line = Some group ->
  find_version (before ++ line :: after)%list = Some (Py.strip group).
Proof.
  intros Hbefore Hline Hgroup.
  induction Hbefore as [|l before Hl _ IH]; simpl.
  - now rewrite Hline, Hgroup.
  - now rewrite Hl.
Qed.

(** C1: on a descriptor whose first line with the marker and the equals
    sign holds hexadecimal text that decodes to [current],
    [set_version] returns normally and writes, in place of that text,
    the two hexadecimal characters of [(current - 1) mod 100] when no
    version is given, and of [e mod 100] when the version [e] is given,
    whatever the sign of [e]. The value is in [0, 99] either way;
    without a version, 1..99 go to [current - 1] and 0 goes to 99. *)
Theorem set_version_value (w : World) (file_path : string) (version : option Z)
    (text : string) (mtime : Z) (before after : list string)
    (line group : string) (current : Z) :
  FS.lookup (fs w) file_path = Some (File text mtime) ->
  Py.readlines (Py.universal_newlines text) = (before ++ line :: after)%list ->
  Forall (fun l => Py.contains VERSION_FEATURE l && Py.contains "=" l = false)
         before ->
  Py.contains VERSION_FEATURE line && Py.contains "=" line = true ->
  re_search_version line = Some group ->
  decode_hex (Py.strip group) = inr current ->
  let new_version :=
    match version with
    | None => (current - 1) mod 100
    | Some e => e mod 100
    end in
  (exists w',
     set_version file_path version w = (inr tt, w')
     /\ FS.read (fs w') file_path
        = Some (Py.writelines
                  (map (fun l =>
                          if Py.contains VERSION_FEATURE l
                          then Py.replace (Py.strip group)
                                 (format_hex new_version true) l
                          else l)
                       (Py.readlines (Py.universal_newlines text)))))
  /\ 0 <= new_version < 100
  /\ decode_hex (format_hex new_version true) = inr new_version
  /\ (version = None -> 1 <= current <= 99 -> new_version = current - 1)
  /\ (version = None -> current = 0 -> new_version = 99).
Proof.
  intros Hfile Hlines Hbefore Hline Hgroup Hdec new_version.
  assert (Hfind : find_version (Py.readlines (Py.universal_newlines text))
                  = Some (Py.strip group))
    by (rewrite Hlines; now apply find_version_first).
  assert (Hnew : new_version = next_version current version) by reflexivity.
  assert (Hrange : 0 <= new_version < 100)
    by (rewrite Hnew; apply next_version_range).
  split; [|split; [exact Hrange|split; [|split]]].
  - destruct (set_version_run w file_path version Hfile Hfind Hdec)
      as (w' & Hrun & Hread & _).
    exists w'. split; [exact Hrun|]. rewrite Hread, Hnew. reflexivity.
  - apply decode_of_format. lia.
  - intros -> Hc. subst new_version. apply Z.mod_small. lia.
  - intros -> ->. reflexivity.
Qed.

Lemma set_version_value_witness :
  exists w',
    set_version "BiosId.env" None (descriptor_world "00") = (inr tt, w')
    /\ FS.read (fs w') "BiosId.env" = Some (descriptor_text "63").
Proof.
  destruct (@set_version_value (descriptor_world "00") "BiosId.env" None
              (descriptor_text "00") 5
              ["BOARD_ID = X60" ++ nl] ["BUILD_TYPE = D" ++ nl]
              ("VERSION_FEATURE = 00" ++ nl) " 00" 0)
    as [[w' [Hrun Hread]] _];
    [reflexivity|reflexivity|repeat constructor
    |reflexivity|reflexivity|reflexivity|].
  exists w'. split; [exact Hrun|exact Hread].
Defined.

Example set_version_explicit_negative :
  fst (set_version "BiosId.env" (Some (-1)) (descriptor_world "07")) = inr tt
  /\ FS.read (fs (snd (set_version "BiosId.env" (Some (-1)) (descriptor_world "07"))))
             "BiosId.env" = Some (descriptor_text "63").
Proof. split; reflexivity. Qed.

(** ** The failures of the version stamper *)

(** X6: [set_version] writes nothing before it is sure to succeed:
    whenever it raises, the world is the one it was called in, with
    the call added to the trace. On a path that does not exist it
    raises the [FileNotFoundError] of line 103; on a regular file that
    can be read, decoded and written it raises nothing but
    [ValueError]: the one of line 118 when no line gave a version
    text, the one of [decode_hex] otherwise. *)
Theorem set_version_failure (file_path : string) (version : option Z)
    (w : World) (e : exn) (w' : World) :
  set_version file_path version w = (inl e, w') ->
  w' = with_event w (CallSetVersion file_path version)
  /\ (FS.exists_ (fs w) file_path = false ->
      e = FileNotFoundError "BiosId.env file not found")
  /\ (forall text mtime,
        FS.lookup (fs w) file_path = Some (File text mtime) ->
        match find_version (Py.readlines (Py.universal_newlines text)) with
        | None => e = ValueError "VERSION_FEATURE not found in BiosId.env"
        | Some curr_version_str => decode_hex curr_version_str = inl e
        end).
Proof.
  unfold set_version, open_read, open_write, lift, log.
  unfold bind, get_fs, get_clock, put_fs, ret, raise, FS.exists_, with_event.
  cbn [fs stdin clock trace].
  destruct (FS.lookup (fs w) file_path) as [[text m|r sz m| |a text m]|] eqn:Hl;
    cbn [negb fs stdin clock trace].
  - rewrite ?Hl.
    destruct (find_version (Py.readlines (Py.universal_newlines text)))
      as [s|] eqn:Hfind.
    + destruct (decode_hex s) as [e'|current] eqn:Hdec.
      * intros H. injection H as <- <-. split; [reflexivity|].
        split; [discriminate|].
        intros text' mtime' H. injection H as <- <-. now rewrite Hfind.
      * cbn [fs]. rewrite ?Hl. discriminate.
    + intros H. injection H as <- <-. split; [reflexivity|].
      split; [discriminate|].
      intros text' mtime' H. injection H as <- <-. now rewrite Hfind.
  - rewrite ?Hl. intros H. injection H as <- <-.
    split; [reflexivity|]. split; discriminate.
  - intros H. injection H as <- <-.
    split; [reflexivity|]. split; [reflexivity|discriminate].
  - rewrite ?Hl.
    destruct (can_read a); cbn [negb];
      [|intros H; injection H as <- <-;
        split; [reflexivity|]; split; discriminate].
    destruct (decodes a); cbn [negb];
      [|intros H; injection H as <- <-;
        split; [reflexivity|]; split; discriminate].
    destruct (find_version (Py.readlines (Py.universal_newlines text)))
      as [s|];
      [|intros H; injection H as <- <-;
        split; [reflexivity|]; split; discriminate].
    destruct (decode_hex s) as [e'|current];
      [intros H; injection H as <- <-;
       split; [reflexivity|]; split; discriminate|].
    cbn [fs]. rewrite ?Hl.
    destruct (can_write a); [discriminate|].
    intros H. injection H as <- <-.
    split; [reflexivity|]. split; discriminate.
  - intros H. injection H as <- <-.
    split; [reflexivity|]. split; [reflexivity|discriminate].
Qed.

Lemma set_version_failure_witness :
  snd (set_version "BiosId.env" None (descriptor_world "0G"))
  = with_event (descriptor_world "0G") (CallSetVersion "BiosId.env" None)
  /\ decode_hex "0G"
     = inl (ValueError "invalid literal for int() with base 16").
Proof.
  destruct (@set_version_failure "BiosId.env" None (descriptor_world "0G")
              (ValueError "invalid literal for int() with base 16")
              (snd (set_version "BiosId.env" None (descriptor_world "0G")))
              eq_refl)
    as (Hw & _ & Hvalue).
  split; [exact Hw|].
  exact (Hvalue (descriptor_text "0G") 5 eq_refl).
Defined.

(** A descriptor that may be read but not written: the stamp is
    refused when the file is opened for writing, and the descriptor is
    left as it is. *)
Example set_version_read_only :
  set_version "BiosId.env" None
    (world_of [("BiosId.env",
                Guarded {| can_read := true; can_write := false;
                           decodes := true |} (descriptor_text "05") 5)])
  = (inl (OSError "Permission denied"),
     with_event
       (world_of [("BiosId.env",
                   Guarded {| can_read := true; can_write := false;
                              decodes := true |} (descriptor_text "05") 5)])
       (CallSetVersion "BiosId.env" None)).
Proof. reflexivity. Qed.

(** What is read of a text holds no more than the text: a pattern
    without line feed that is found in the text as it is read is found
    in the bytes. *)
Lemma startswith_universal_newlines (pat : string) :
  all_chars (fun c => negb (Ascii.eqb c Py.LF)) pat = true ->
  forall s,
    Py.startswith pat (Py.universal_newlines s) = true ->
    Py.startswith pat s = true.
Proof.
  induction pat as [|a pat IH]; [reflexivity|].
  cbn [all_chars]. intros Hpat. apply andb_prop in Hpat.
  destruct Hpat as [Ha Hpat]. apply negb_true_iff in Ha.
  intros [|c s]; [discriminate|].
  cbn [Py.universal_newlines].
  destruct (Ascii.eqb c Py.CR).
  - destruct s as [|d s]; [|destruct (Ascii.eqb d Py.LF)];
      cbn [Py.startswith]; rewrite Ha; discriminate.
  - cbn [Py.startswith]. intros H. apply andb_prop in H.
    destruct H as [Hac H]. rewrite Hac. now apply IH.
Qed.

Lemma contains_tail (pat : string) (c : ascii) (s : string) :
  Py.contains pat s = true -> Py.contains pat (String c s) = true.
Proof. intros H. rewrite contains_cons, H. apply orb_true_r. Qed.

Lemma contains_universal_newlines (pat : string) :
  all_chars (fun c => negb (Ascii.eqb c Py.LF)) pat = true ->
  forall n s,
    (String.length s <= n)%nat ->
    Py.contains pat (Py.universal_newlines s) = true ->
    Py.contains pat s = true.
Proof.
  intros Hpat.
  destruct pat as [|a pat].
  { intros _ s _ _. now destruct s. }
  assert (Ha : forall x, Py.startswith (String a pat) (String Py.LF x) = false).
  { intros x. cbn [all_chars] in Hpat. apply andb_prop in Hpat.
    destruct Hpat as [Ha _]. apply negb_true_iff in Ha.
    cbn [Py.startswith]. now rewrite Ha. }
  induction n as [|n IH]; intros s Hlen.
  - destruct s; [auto|simpl in Hlen; lia].
  - destruct s as [|c s]; [auto|].
    cbn [Py.universal_newlines].
    destruct (Ascii.eqb c Py.CR) eqn:Hc.
    + destruct s as [|d s].
      * rewrite contains_cons, Ha. discriminate.
      * simpl in Hlen.
        destruct (Ascii.eqb d Py.LF); rewrite contains_cons, Ha; cbn [orb];
          intros H; apply contains_tail.
        -- apply contains_tail. apply IH; [lia|exact H].
        -- apply IH; [simpl; lia|exact H].
    + rewrite contains_cons. intros H. apply orb_prop in H.
      destruct H as [H|H].
      * rewrite contains_cons.
        rewrite (@startswith_universal_newlines _ Hpat (String c s)); [reflexivity|].
        cbn [Py.universal_newlines]. rewrite Hc. exact H.
      * apply contains_tail. apply IH; [simpl in Hlen; lia|exact H].
Qed.

Lemma universal_newlines_without (pat s : string) :
  all_chars (fun c => negb (Ascii.eqb c Py.LF)) pat = true ->
  Py.contains pat s = false ->
  Py.contains pat (Py.universal_newlines s) = false.
Proof.
  intros Hpat Hs.
  destruct (Py.contains pat (Py.universal_newlines s)) eqn:H; [|reflexivity].
  rewrite (@contains_universal_newlines pat Hpat _ s (le_n _) H) in Hs.
  discriminate.
Qed.

(** Every line that [readlines] cuts is a part of the text. *)
Lemma readlines_from_part (s : string) :
  forall cur l,
    In l (Py.readlines_from cur s) -> exists a b, cur ++ s = a ++ l ++ b.
Proof.
  induction s as [|c s IH]; intros cur l; cbn [Py.readlines_from].
  - destruct cur as [|x cur]; [intros []|].
    intros [<-|[]]. exists EmptyString, EmptyString.
    simpl. now rewrite !append_nil_r.
  - assert (Hcur : cur ++ String c s = (cur ++ String c EmptyString) ++ s)
      by (now rewrite append_assoc).
    destruct (Ascii.eqb c Py.LF).
    + intros [<-|Hin].
      * exists EmptyString, s. now rewrite Hcur.
      * destruct (IH _ _ Hin) as (a & b & Hab).
        exists ((cur ++ String c EmptyString) ++ a), b.
        rewrite Hcur. simpl in Hab. rewrite Hab.
        symmetry. apply append_assoc.
    + intros Hin. destruct (IH _ _ Hin) as (a & b & Hab).
      exists a, b. now rewrite Hcur.
Qed.

Lemma readlines_without (sub text : string) :
  Py.contains sub text = false ->
  Forall (fun l => Py.contains sub l = false) (Py.readlines text).
Proof.
  intros Htext. apply Forall_forall. intros l Hin.
  destruct (readlines_from_part _ _ _ Hin) as (a & b & Hab).
  simpl in Hab. subst text.
  destruct (Py.contains sub l) eqn:Hl; [|reflexivity].
  rewrite (@contains_app_r sub a (l ++ b)) in Htext; [discriminate|].
  now apply contains_app_l.
Qed.

Lemma find_version_without (lines : list string) :
  Forall (fun l => Py.contains VERSION_FEATURE l = false) lines ->
  find_version lines = None.
Proof.
  induction 1 as [|l lines Hl _ IH]; [reflexivity|].
  cbn [find_version]. now rewrite Hl.
Qed.

(** X7: on a file whose text does not hold the marker anywhere,
    [set_version] raises [ValueError] with the message of line 118 and
    writes nothing, whatever version is asked for. *)
Theorem set_version_without_marker (file_path : string) (version : option Z)
    (w : World) (text : string) :
  FS.read (fs w) file_path = Some text ->
  Py.contains VERSION_FEATURE text = false ->
  set_version file_path version w
  = (inl (ValueError "VERSION_FEATURE not found in BiosId.env"),
     with_event w (CallSetVersion file_path version)).
Proof.
  intros Hread Htext.
  assert (Hfind : find_version (Py.readlines (Py.universal_newlines text))
                  = None).
  { apply find_version_without, readlines_without.
    now apply universal_newlines_without. }
  unfold FS.read in Hread.
  destruct (FS.lookup (fs w) file_path) as [[c m|r sz m| |a c m]|] eqn:Hl;
    try discriminate.
  injection Hread as ->.
  unfold set_version, open_read, log.
  unfold bind, get_fs, raise, ret, FS.exists_, with_event.
  cbn [fs stdin clock trace]. rewrite Hl. cbn [negb fs]. rewrite ?Hl.
  now rewrite Hfind.
Qed.

Lemma set_version_without_marker_witness :
  set_version "BiosId.env" (Some 7)
    (world_of [("BiosId.env", File ("BOARD_ID = X60" ++ nl) 5)])
  = (inl (ValueError "VERSION_FEATURE not found in BiosId.env"),
     with_event (world_of [("BiosId.env", File ("BOARD_ID = X60" ++ nl) 5)])
       (CallSetVersion "BiosId.env" (Some 7))).
Proof.
  apply (@set_version_without_marker "BiosId.env" (Some 7)
           (world_of [("BiosId.env", File ("BOARD_ID = X60" ++ nl) 5)])
           ("BOARD_ID = X60" ++ nl));
    reflexivity.
Defined.

Example set_version_marker_without_value :
  fst (set_version "BiosId.env" None
         (world_of [("BiosId.env", File ("VERSION_FEATURE =" ++ nl) 5)]))
  = inl (ValueError "VERSION_FEATURE not found in BiosId.env")
  /\ fst (set_version "BiosId.env" None
            (world_of [("BiosId.env", File ("VERSION_FEATURE = " ++ nl) 5)]))
     = inl (ValueError "invalid literal for int() with base 16").
Proof. split; reflexivity. Qed.

(** ** The rewrite of the descriptor *)

Lemma update_lines_length (curr_version_str : string) (new_version : Z)
    (lines : list string) :
  List.length (update_lines curr_version_str new_version lines)
  = List.length lines.
Proof. unfold update_lines. apply List.length_map. Qed.

(** A line without the marker is written back as it was read. *)
Lemma update_lines_frame (curr_version_str : string) (new_version : Z)
    (lines : list string) (i : nat) (line : string) :
  nth_error lines i = Some line ->
  Py.contains VERSION_FEATURE line = false ->
  nth_error (update_lines curr_version_str new_version lines) i = Some line.
Proof.
  intros Hnth Hmarker. unfold update_lines.
  rewrite nth_error_map, Hnth. simpl. now rewrite Hmarker.
Qed.

(** Replacing the one occurrence of a text. *)
Lemma startswith_append (s t : string) : Py.startswith s (s ++ t) = true.
Proof.
  induction s as [|c s IH]; simpl; [reflexivity|].
  now rewrite Ascii.eqb_refl.
Qed.

Lemma replace_from_skip (old new t post : string) :
  Py.replace_from old new (t ++ post) (String.length t)
  = Py.replace_from old new post 0.
Proof. induction t as [|c t IH]; simpl; auto. Qed.

Lemma replace_from_absent (old new post : string) :
  Py.contains old post = false -> Py.replace_from old new post 0 = post.
Proof.
  induction post as [|c post IH]; simpl; [reflexivity|].
  intros H. apply orb_false_elim in H. destruct H as [Hhead Htail].
  simpl in Hhead. rewrite Hhead. now rewrite IH.
Qed.

Lemma replace_once (old new pre post : string) :
  old <> EmptyString ->
  (forall k, (k < String.length pre)%nat ->
             Py.startswith old (Py.drop k (pre ++ old ++ post)) = false) ->
  Py.contains old post = false ->
  Py.replace old new (pre ++ old ++ post) = pre ++ new ++ post.
Proof.
  intros Hold Hpre Hpost.
  destruct old as [|a old']; [contradiction|]. unfold Py.replace.
  induction pre as [|c pre IH].
  - change (EmptyString ++ String a old' ++ post)
      with (String a (old' ++ post)).
    change (Py.replace_from (String a old') new (String a (old' ++ post)) 0)
      with (if Py.startswith (String a old') (String a (old' ++ post))
            then new ++ Py.replace_from (String a old') new (old' ++ post)
                          (String.length (String a old') - 1)
            else String a (Py.replace_from (String a old') new (old' ++ post) 0)).
    pose proof (startswith_append (String a old') post) as Hs.
    change (String a old' ++ post) with (String a (old' ++ post)) in Hs.
    rewrite Hs.
    replace (String.length (String a old') - 1)%nat with (String.length old')
      by (simpl; lia).
    now rewrite replace_from_skip, replace_from_absent.
  - pose proof (Hpre O (Nat.lt_0_succ _)) as H0.
    change (Py.drop 0 (String c pre ++ String a old' ++ post))
      with (String c (pre ++ String a old' ++ post)) in H0.
    change (String c pre ++ String a old' ++ post)
      with (String c (pre ++ String a old' ++ post)).
    change (Py.replace_from (String a old') new
              (String c (pre ++ String a old' ++ post)) 0)
      with (if Py.startswith (String a old')
                 (String c (pre ++ String a old' ++ post))
            then new ++ Py.replace_from (String a old') new
                          (pre ++ String a old' ++ post)
                          (String.length (String a old') - 1)
            else String c (Py.replace_from (String a old') new
                             (pre ++ String a old' ++ post) 0)).
    rewrite H0. rewrite IH; [reflexivity|].
    intros k Hk. apply (Hpre (S k)). simpl. lia.
Qed.

Lemma decode_hex_nonempty (s : string) (v : Z) :
  decode_hex s = inr v -> s <> EmptyString.
Proof. intros H ->. discriminate H. Qed.

(** On a descriptor with a comment line that names the marker, the
    line that [set_version] matches is the second one, and the rewrite
    changes the first one as well. *)
Example set_version_comment_line :
  let before := Py.readlines comment_descriptor in
  let run := set_version "BiosId.env" None
               (world_of [("BiosId.env", File comment_descriptor 5)]) in
  fst run = inr tt
  /\ find_version before = Some "05"
  /\ nth_error before 0 = Some ("# VERSION_FEATURE was 05, then 06" ++ nl)
  /\ nth_error before 1 = Some ("VERSION_FEATURE = 05" ++ nl)
  /\ FS.read (fs (snd run)) "BiosId.env"
     = Some ("# VERSION_FEATURE was 04, then 06" ++ nl
             ++ "VERSION_FEATURE = 04" ++ nl
             ++ "VERSION_MINOR = 05" ++ nl).
Proof. repeat split; reflexivity. Qed.

(** On the descriptor whose version line is [VERSION_FEATURE=FE], the
    rewrite replaces the [FE] inside the marker too. *)
Example set_version_marker_text :
  let before := Py.readlines marker_descriptor in
  let run := set_version "BiosId.env" None
               (world_of [("BiosId.env", File marker_descriptor 5)]) in
  fst run = inr tt
  /\ find_version before = Some "FE"
  /\ nth_error before 1 = Some ("VERSION_FEATURE=" ++ "FE" ++ nl)
  /\ FS.read (fs (snd run)) "BiosId.env"
     = Some ("BOARD_ID = X60" ++ nl ++ "VERSION_35ATURE=" ++ "35" ++ nl).
Proof. repeat split; reflexivity. Qed.

(** C2 as it is stated does not hold: a line that the pattern of the
    version line does not match, and which is therefore not the matched
    line, can come out of the rewrite changed, on a descriptor whose
    lines end with line feeds. *)
Lemma unmatched_line_rewritten :
  ~ (forall (w : World) (file_path : string) (version : option Z)
            (text : string) (mtime : Z) (curr_version_str : string)
            (current : Z) (w' : World) (text' : string),
        FS.lookup (fs w) file_path = Some (File text mtime) ->
        Py.contains (String Py.CR EmptyString) text = false ->
        find_version (Py.readlines text) = Some curr_version_str ->
        decode_hex curr_version_str = inr current ->
        set_version file_path version w = (inr tt, w') ->
        FS.read (fs w') file_path = Some text' ->
        forall j line,
          nth_error (Py.readlines text) j = Some line ->
          re_search_version line = None ->
          nth_error (Py.readlines text') j = Some line).
Proof.
  intros H.
  specialize (H (world_of [("BiosId.env", File comment_descriptor 5)])
                "BiosId.env" None comment_descriptor 5 "05" 5 _ _
                eq_refl eq_refl eq_refl eq_refl eq_refl eq_refl
                O ("# VERSION_FEATURE was 05, then 06" ++ nl)
                eq_refl eq_refl).
  vm_compute in H. discriminate H.
Qed.

(** A descriptor whose lines end with a carriage return and a line
    feed comes out of the rewrite with line feeds: the bytes of every
    line change, the text of the lines without the marker does not. *)
Example set_version_carriage_returns :
  let crlf := String Py.CR nl in
  let run := set_version "BiosId.env" None
               (world_of [("BiosId.env",
                           File ("BOARD_ID = X60" ++ crlf
                                 ++ "VERSION_FEATURE = 05" ++ crlf) 5)]) in
  fst run = inr tt
  /\ FS.read (fs (snd run)) "BiosId.env"
     = Some ("BOARD_ID = X60" ++ nl ++ "VERSION_FEATURE = 04" ++ nl).
Proof. split; reflexivity. Qed.

(** C2, as the code has it: when [set_version] rewrites a descriptor,
    it writes as many lines as it read; every line without the marker
    is written as it was read; and in a line with the marker in which
    the matched version text occurs once, only that text changes, into
    the new value. The lines are read in text mode: when the
    descriptor holds no carriage return they are the bytes of the
    file, cut after each line feed. *)
Theorem set_version_rewrite (w : World) (file_path : string)
    (version : option Z) (text : string) (mtime : Z)
    (curr_version_str : string) (current : Z) :
  FS.lookup (fs w) file_path = Some (File text mtime) ->
  find_version (Py.readlines (Py.universal_newlines text))
  = Some curr_version_str ->
  decode_hex curr_version_str = inr current ->
  let lines := Py.readlines (Py.universal_newlines text) in
  let value :=
    format_hex (match version with
                | None => (current - 1) mod 100
                | Some e => e mod 100
                end) true in
  exists w' new_lines,
    set_version file_path version w = (inr tt, w')
    /\ FS.read (fs w') file_path = Some (Py.writelines new_lines)
    /\ List.length new_lines = List.length lines
    /\ (forall i line,
          nth_error lines i = Some line ->
          Py.contains VERSION_FEATURE line = false ->
          nth_error new_lines i = Some line)
    /\ (forall i pre post,
          nth_error lines i = Some (pre ++ curr_version_str ++ post) ->
          Py.contains VERSION_FEATURE (pre ++ curr_version_str ++ post) = true ->
          (forall k, (k < String.length pre)%nat ->
                     Py.startswith curr_version_str
                       (Py.drop k (pre ++ curr_version_str ++ post)) = false) ->
          Py.contains curr_version_str post = false ->
          nth_error new_lines i = Some (pre ++ value ++ post))
    /\ (Py.contains (String Py.CR EmptyString) text = false ->
        lines = Py.readlines text /\ Py.writelines lines = text).
Proof.
  intros Hfile Hfind Hdec lines value.
  destruct (set_version_run w file_path version Hfile Hfind Hdec)
    as (w' & Hrun & Hread & _).
  exists w', (update_lines curr_version_str (next_version current version) lines).
  split; [exact Hrun|]. split; [exact Hread|].
  split; [apply update_lines_length|]. split; [|split].
  - intros i line. apply update_lines_frame.
  - intros i pre post Hnth Hmarker Hpre Hpost.
    unfold update_lines. rewrite nth_error_map, Hnth. simpl.
    rewrite Hmarker. f_equal.
    apply replace_once; eauto using decode_hex_nonempty.
  - intros Hcr. unfold lines.
    rewrite (universal_newlines_plain _ Hcr).
    split; [reflexivity|apply writelines_readlines].
Qed.

Lemma set_version_rewrite_witness :
  exists w' new_lines,
    set_version "BiosId.env" (Some 7) (descriptor_world "05") = (inr tt, w')
    /\ FS.read (fs w') "BiosId.env" = Some (Py.writelines new_lines)
    /\ nth_error new_lines 0 = Some ("BOARD_ID = X60" ++ nl)
    /\ nth_error new_lines 1 = Some ("VERSION_FEATURE = " ++ "07" ++ nl).
Proof.
  destruct (@set_version_rewrite (descriptor_world "05") "BiosId.env" (Some 7)
              (descriptor_text "05") 5 "05" 5 eq_refl eq_refl eq_refl)
    as (w' & new_lines & Hrun & Hread & _ & Hframe & Honce & _).
  exists w', new_lines.
  split; [exact Hrun|]. split; [exact Hread|]. split.
  - apply Hframe; reflexivity.
  - apply (Honce 1%nat "VERSION_FEATURE = " nl); try reflexivity.
    intros k Hk. simpl in Hk.
    do 18 (destruct k as [|k]; [reflexivity|]). lia.
Defined.

(** ** Stamping the value that is there *)

(** X8: asking for the version that the descriptor already has leaves
    the text of the descriptor as it is: [set_version] returns normally
    and the file holds the text that was read from it, which is what
    it held when its line endings are line feeds. *)
Theorem set_version_same_value (w : World) (file_path : string)
    (version : option Z) (text : string) (mtime : Z)
    (curr_version_str : string) (current : Z) :
  FS.lookup (fs w) file_path = Some (File text mtime) ->
  find_version (Py.readlines (Py.universal_newlines text))
  = Some curr_version_str ->
  decode_hex curr_version_str = inr current ->
  format_hex (next_version current version) true = curr_version_str ->
  exists w',
    set_version file_path version w = (inr tt, w')
    /\ FS.read (fs w') file_path = Some (Py.universal_newlines text)
    /\ (Py.contains (String Py.CR EmptyString) text = false ->
        FS.read (fs w') file_path = Some text)
    /\ (forall q, ~ same_path file_path q ->
          FS.lookup (fs w') q = FS.lookup (fs w) q).
Proof.
  intros Hfile Hfind Hdec Hsame.
  destruct (set_version_run w file_path version Hfile Hfind Hdec)
    as (w' & Hrun & Hread & Hframe).
  assert (Htext : FS.read (fs w') file_path
                  = Some (Py.universal_newlines text)).
  { rewrite Hread. f_equal.
    rewrite <- (writelines_readlines (Py.universal_newlines text)) at 2.
    f_equal. unfold update_lines. rewrite Hsame.
    rewrite <- (map_id (Py.readlines (Py.universal_newlines text))) at 2.
    apply map_ext. intros l.
    destruct (Py.contains VERSION_FEATURE l); [|reflexivity].
    apply replace_same. eauto using decode_hex_nonempty. }
  exists w'. split; [exact Hrun|]. split; [exact Htext|].
  split; [|exact Hframe].
  intros Hcr. now rewrite Htext, universal_newlines_plain.
Qed.

Lemma set_version_same_value_witness :
  exists w',
    set_version "BiosId.env" (Some 105) (descriptor_world "05") = (inr tt, w')
    /\ FS.read (fs w') "BiosId.env" = Some (descriptor_text "05").
Proof.
  destruct (@set_version_same_value (descriptor_world "05") "BiosId.env"
              (Some 105) (descriptor_text "05") 5 "05" 5)
    as (w' & Hrun & _ & Hread & _); try reflexivity.
  exists w'. split; [exact Hrun|]. apply Hread. reflexivity.
Defined.

(** ** The binary locator *)

Section LocatorProperties.

Variable os : OsView.

Lemma getmtime_stat (p : string) (k : Z) :
  getmtime os p = inr k <->
  exists st, os_stat os p = Some st /\ st_mtime st = k.
Proof.
  unfold getmtime, stat_or_raise.
  destruct (os_stat os p) as [st|]; split.
  - intros H. injection H as <-. eauto.
  - intros (st' & H & <-). now injection H as <-.
  - discriminate.
  - intros (st' & H & _). discriminate.
Qed.

Lemma getmtime_raises_OSError (p : string) (e : exn) :
  getmtime os p = inl e -> is_OSError e = true.
Proof.
  unfold getmtime, stat_or_raise.
  destruct (os_stat os p); [discriminate|].
  intros H. now injection H as <-.
Qed.

Lemma stat_or_raise_OSError (p : string) (e : exn) :
  stat_or_raise os p = inl e -> is_OSError e = true.
Proof.
  unfold stat_or_raise.
  destruct (os_stat os p); [discriminate|].
  intros H. now injection H as <-.
Qed.

(** The loop of [max] raises nothing but what [os.stat] raises. *)
Lemma max_loop_raises_OSError (items : list string) :
  forall best best_key e,
    max_loop os best best_key items = inl e -> is_OSError e = true.
Proof.
  induction items as [|x items IH]; intros best best_key e; simpl.
  - discriminate.
  - destruct (getmtime os x) as [e'|k] eqn:Hx.
    + intros H. injection H as <-. eauto using getmtime_raises_OSError.
    + destruct (best_key <? k); apply IH.
Qed.

(** The loop of [max] raises as soon as one item cannot be
    stat'ed. *)
Lemma max_loop_stat_failure (items : list string) :
  forall best best_key x,
    In x items -> os_stat os x = None ->
    exists e, max_loop os best best_key items = inl e.
Proof.
  induction items as [|y items IH]; intros best best_key x Hin Hx; simpl.
  - contradiction.
  - destruct (getmtime os y) as [e'|k] eqn:Hy; [eauto|].
    destruct Hin as [->|Hin].
    + apply getmtime_stat in Hy. destruct Hy as (st & Hst & _). congruence.
    + destruct (best_key <? k); eapply IH; eauto.
Qed.

(** When every item can be stat'ed, the loop of [max] returns an item
    whose modification time is the greatest. *)
Lemma max_loop_greatest (items : list string) :
  forall best best_key,
    getmtime os best = inr best_key ->
    (forall x, In x items -> os_stat os x <> None) ->
    exists r k,
      max_loop os best best_key items = inr r
      /\ In r (best :: items)
      /\ getmtime os r = inr k
      /\ best_key <= k
      /\ (forall x kx, In x items -> getmtime os x = inr kx -> kx <= k).
Proof.
  induction items as [|y items IH]; intros best best_key Hbest Hall; simpl.
  - exists best, best_key.
    split; [reflexivity|]. split; [now left|]. split; [exact Hbest|].
    split; [lia|]. intros x kx [].
  - destruct (getmtime os y) as [e|ky] eqn:Hy.
    + exfalso. apply (Hall y); [now left|].
      unfold getmtime, stat_or_raise in Hy.
      destruct (os_stat os y); [discriminate|reflexivity].
    + assert (Hall' : forall x, In x items -> os_stat os x <> None)
        by (intros x Hx; apply Hall; now right).
      destruct (best_key <? ky) eqn:Hlt.
      * apply Z.ltb_lt in Hlt.
        destruct (IH y ky Hy Hall') as (r & k & Hr & Hin & Hk & Hle & Hmax).
        exists r, k. split; [exact Hr|]. split; [now right|].
        split; [exact Hk|]. split; [lia|].
        intros x kx [<-|Hx] Hkx; [|eauto].
        rewrite Hy in Hkx. injection Hkx as <-. lia.
      * apply Z.ltb_ge in Hlt.
        destruct (IH best best_key Hbest Hall') as (r & k & Hr & Hin & Hk & Hle & Hmax).
        exists r, k. split; [exact Hr|].
        split; [destruct Hin as [<-|Hin]; [now left|right; now right]|].
        split; [exact Hk|]. split; [exact Hle|].
        intros x kx [<-|Hx] Hkx; [|eauto].
        rewrite Hy in Hkx. injection Hkx as <-. lia.
Qed.

End LocatorProperties.

Lemma get_binary_try_raises_OSError (os : OsView) (path : string) (e : exn) :
  get_binary_try os path = inl e -> is_OSError e = true.
Proof.
  unfold get_binary_try.
  destruct (os_isdir os path).
  - destruct (filter is_valid_file (os_glob os (Path.join path "*.bin")))
      as [|x items]; [discriminate|].
    unfold max_by_mtime.
    destruct (getmtime os x) as [e1|k] eqn:Hx.
    + intros H. injection H as <-. eauto using getmtime_raises_OSError.
    + destruct (max_loop os x k items) as [e2|latest] eqn:Hloop.
      * intros H. injection H as <-. eauto using max_loop_raises_OSError.
      * destruct (stat_or_raise os latest) as [e3|st] eqn:Hst; [|discriminate].
        intros H. injection H as <-. eauto using stat_or_raise_OSError.
  - destruct (os_isfile os path); [|discriminate].
    destruct (stat_or_raise os path) as [e3|st] eqn:Hst; [|discriminate].
    intros H. injection H as <-. eauto using stat_or_raise_OSError.
Qed.

Lemma get_binary_of_raise (os : OsView) (path : string) (e : exn) :
  get_binary_try os path = inl e -> get_binary os path = inr None.
Proof.
  intros H. unfold get_binary. rewrite H.
  now rewrite (get_binary_try_raises_OSError _ _ H).
Qed.

(** C3: on a directory, [get_binary] takes the entries that the scan of
    [*.bin] yields, keeps exactly those whose lower-cased base name has
    no [pvt] and has [32] or [64], and returns the one kept entry whose
    modification time is the latest, with the size and the time that
    [os.stat] gives for it; when no entry is kept it returns [None].
    The entries that are kept are taken to be ones that [os.stat]
    succeeds on. *)
Theorem get_binary_directory (os : OsView) (path : string) :
  os_isdir os path = true ->
  let entries := os_glob os (Path.join path "*.bin") in
  let survivors :=
    filter (fun f =>
              let basename := Py.lower (Path.basename f) in
              negb (Py.contains "pvt" basename)
              && (Py.contains "32" basename || Py.contains "64" basename))
           entries in
  (survivors = [] -> get_binary os path = inr None)
  /\ ((forall f, In f survivors -> os_stat os f <> None) ->
      survivors <> [] ->
      exists f st,
        get_binary os path
        = inr (Some {| Binary.name := f;
                       Binary.size := st_size st;
                       Binary.modified := st_mtime st |})
        /\ In f survivors
        /\ os_stat os f = Some st
        /\ (forall g st', In g survivors -> os_stat os g = Some st' ->
              st_mtime st' <= st_mtime st)).
Proof.
  intros Hdir entries survivors.
  assert (Hsurv : survivors = filter is_valid_file (os_glob os (Path.join path "*.bin")))
    by reflexivity.
  split.
  - intros Hnil. unfold get_binary, get_binary_try.
    rewrite Hdir, <- Hsurv, Hnil. reflexivity.
  - intros Hstat Hne.
    unfold get_binary, get_binary_try. rewrite Hdir, <- Hsurv.
    destruct survivors as [|x items] eqn:Hl; [contradiction|].
    unfold max_by_mtime.
    destruct (os_stat os x) as [stx|] eqn:Hx;
      [|exfalso; apply (Hstat x); [now left|exact Hx]].
    assert (Hkx : getmtime os x = inr (st_mtime stx))
      by (apply getmtime_stat; eauto).
    rewrite Hkx.
    destruct (@max_loop_greatest os items x (st_mtime stx) Hkx)
      as (r & k & Hr & Hin & Hk & Hle & Hmax).
    { intros y Hy. apply Hstat. now right. }
    rewrite Hr.
    apply getmtime_stat in Hk. destruct Hk as (st & Hst & <-).
    unfold stat_or_raise. rewrite Hst.
    exists r, st. split; [reflexivity|]. split; [exact Hin|].
    split; [exact Hst|].
    intros g st' [<-|Hg] Hg'.
    + rewrite Hx in Hg'. injection Hg' as <-. exact Hle.
    + apply (Hmax g); [exact Hg|]. apply getmtime_stat. eauto.
Qed.

Lemma get_binary_directory_witness :
  exists f st,
    get_binary (view build_output) "FV"
    = inr (Some {| Binary.name := f;
                   Binary.size := st_size st;
                   Binary.modified := st_mtime st |})
    /\ In f ["FV/A32.bin"]
    /\ FS.stat build_output f = Some st
    /\ (forall g st', In g ["FV/A32.bin"] -> FS.stat build_output g = Some st' ->
          st_mtime st' <= st_mtime st).
Proof.
  destruct (@get_binary_directory (view build_output) "FV" eq_refl) as [_ H].
  apply H.
  - intros f [<-|[]]. discriminate.
  - discriminate.
Defined.

Example get_binary_newer_production :
  get_binary (view build_output) "FV"
  = inr (Some {| Binary.name := "FV/A32.bin"; Binary.size := 10;
                 Binary.modified := 20 |}).
Proof. reflexivity. Qed.

Example get_binary_only_pvt :
  get_binary (view [("FV", Dir true 4096 50);
                    ("FV/Apvt32.bin", File "a" 10);
                    ("FV/BPVT64.bin", File "b" 20)]) "FV"
  = inr None.
Proof. reflexivity. Qed.

Example get_binary_first_of_equal_times :
  get_binary (view [("FV", Dir true 4096 50);
                    ("FV/A32.bin", File "a" 20);
                    ("FV/B64.bin", File "bb" 20)]) "FV"
  = inr (Some {| Binary.name := "FV/A32.bin"; Binary.size := 1;
                 Binary.modified := 20 |}).
Proof. reflexivity. Qed.

(** C7: [get_binary] returns an optional result on every path and
    never raises. It returns [None] when the path is neither a
    directory nor a regular file, when [os.stat] fails on the path,
    when the scan of a directory yields nothing (as it does when the
    directory cannot be scanned), and when [os.stat] fails on one of
    the entries that are kept. *)
Theorem get_binary_never_raises (os : OsView) (path : string) :
  (exists r, get_binary os path = inr r)
  /\ (os_isdir os path = false -> os_isfile os path = false ->
      get_binary os path = inr None)
  /\ (os_isdir os path = false -> os_stat os path = None ->
      get_binary os path = inr None)
  /\ (os_isdir os path = true -> os_glob os (Path.join path "*.bin") = [] ->
      get_binary os path = inr None)
  /\ (os_isdir os path = true ->
      (exists f, In f (filter is_valid_file (os_glob os (Path.join path "*.bin")))
                 /\ os_stat os f = None) ->
      get_binary os path = inr None).
Proof.
  split; [|split; [|split; [|split]]].
  - destruct (get_binary_try os path) as [e|r] eqn:H.
    + exists None. eauto using get_binary_of_raise.
    + exists r. unfold get_binary. now rewrite H.
  - intros Hdir Hfile. unfold get_binary, get_binary_try.
    now rewrite Hdir, Hfile.
  - intros Hdir Hstat. unfold get_binary, get_binary_try, stat_or_raise.
    rewrite Hdir, Hstat. now destruct (os_isfile os path).
  - intros Hdir Hglob. unfold get_binary, get_binary_try.
    now rewrite Hdir, Hglob.
  - intros Hdir (f & Hin & Hstat).
    destruct (get_binary_try os path) as [e|r] eqn:H;
      [eauto using get_binary_of_raise|].
    exfalso. revert H. unfold get_binary_try. rewrite Hdir.
    destruct (filter is_valid_file (os_glob os (Path.join path "*.bin")))
      as [|x items]; [contradiction|].
    unfold max_by_mtime.
    destruct (getmtime os x) as [e1|k] eqn:Hx; [discriminate|].
    destruct Hin as [->|Hin].
    + apply getmtime_stat in Hx. destruct Hx as (st & Hst & _). congruence.
    + destruct (@max_loop_stat_failure os items x k f Hin Hstat) as [e2 He2].
      rewrite He2. discriminate.
Qed.

Lemma get_binary_never_raises_witness :
  get_binary (view broken_output) "nowhere" = inr None
  /\ get_binary (view broken_output) "FV/B64.bin" = inr None
  /\ get_binary (view broken_output) "locked" = inr None
  /\ get_binary (view broken_output) "FV" = inr None.
Proof.
  split; [|split; [|split]].
  - destruct (get_binary_never_raises (view broken_output) "nowhere")
      as (_ & H & _).
    apply H; reflexivity.
  - destruct (get_binary_never_raises (view broken_output) "FV/B64.bin")
      as (_ & _ & H & _).
    apply H; reflexivity.
  - destruct (get_binary_never_raises (view broken_output) "locked")
      as (_ & _ & _ & H & _).
    apply H; reflexivity.
  - destruct (get_binary_never_raises (view broken_output) "FV")
      as (_ & _ & _ & _ & H).
    apply H; [reflexivity|].
    exists "FV/B64.bin". split; [right; now left|reflexivity].
Defined.

(** ** The validity test of the locator *)

(** X2: the test that keeps or drops an entry of the scan reads the
    base name alone: the directory that the entry is joined to plays
    no part, whether its own name holds [pvt], [32] or [64] or not. *)
Theorem is_valid_file_join (dir f : string) :
  is_valid_file (Path.join dir f) = is_valid_file f.
Proof. unfold is_valid_file. now rewrite basename_join. Qed.

Example is_valid_file_in_pvt_directory :
  is_valid_file (Path.join "pvt_builds" "A32.bin") = true
  /\ is_valid_file (Path.join "x64" "notes.bin") = false.
Proof. split; reflexivity. Qed.

(** ** The entry that the locator returns *)

(** The loop of [max] returns the first of the items whose modification
    time is the greatest: either the item it started from, when no
    later item is strictly newer, or an item that is strictly newer
    than all the items before it. *)
Lemma max_loop_first (os : OsView) (items : list string) :
  forall best best_key r,
    max_loop os best best_key items = inr r ->
    (r = best
     /\ forall x, In x items ->
          exists kx, getmtime os x = inr kx /\ kx <= best_key)
    \/ (exists before after k,
          items = (before ++ r :: after)%list
          /\ getmtime os r = inr k
          /\ best_key < k
          /\ (forall x, In x before ->
                exists kx, getmtime os x = inr kx /\ kx < k)
          /\ (forall x, In x after ->
                exists kx, getmtime os x = inr kx /\ kx <= k)).
Proof.
  induction items as [|y items IH]; intros best best_key r; cbn [max_loop].
  - intros H. injection H as <-. left. split; [reflexivity|]. intros x [].
  - destruct (getmtime os y) as [e|ky] eqn:Hy; [discriminate|].
    destruct (best_key <? ky) eqn:Hlt.
    + apply Z.ltb_lt in Hlt. intros H.
      destruct (IH _ _ _ H)
        as [[-> Hall]|(before & after & k & -> & Hk & Hky & Hb & Ha)].
      * right. exists [], items, ky.
        split; [reflexivity|]. split; [exact Hy|]. split; [exact Hlt|].
        split; [intros x []|exact Hall].
      * right. exists (y :: before), after, k.
        split; [reflexivity|]. split; [exact Hk|]. split; [lia|].
        split; [|exact Ha].
        intros x [<-|Hx]; [exists ky; split; [exact Hy|lia]|auto].
    + apply Z.ltb_ge in Hlt. intros H.
      destruct (IH _ _ _ H)
        as [[-> Hall]|(before & after & k & -> & Hk & Hky & Hb & Ha)].
      * left. split; [reflexivity|].
        intros x [<-|Hx]; [exists ky; split; [exact Hy|lia]|auto].
      * right. exists (y :: before), after, k.
        split; [reflexivity|]. split; [exact Hk|]. split; [exact Hky|].
        split; [|exact Ha].
        intros x [<-|Hx]; [exists ky; split; [exact Hy|lia]|auto].
Qed.

(** What [get_binary] has done when it returns a binary for a
    directory. *)
Lemma get_binary_directory_found (os : OsView) (path : string) (b : Binary.t) :
  os_isdir os path = true ->
  get_binary os path = inr (Some b) ->
  exists x items k st,
    filter is_valid_file (os_glob os (Path.join path "*.bin")) = x :: items
    /\ getmtime os x = inr k
    /\ max_loop os x k items = inr (Binary.name b)
    /\ os_stat os (Binary.name b) = Some st
    /\ Binary.size b = st_size st
    /\ Binary.modified b = st_mtime st.
Proof.
  intros Hdir. unfold get_binary.
  destruct (get_binary_try os path) as [e|r] eqn:Htry.
  { destruct (is_OSError e); discriminate. }
  intros H. injection H as ->.
  revert Htry. unfold get_binary_try. rewrite Hdir.
  destruct (filter is_valid_file (os_glob os (Path.join path "*.bin")))
    as [|x items]; [discriminate|].
  unfold max_by_mtime.
  destruct (getmtime os x) as [e|k] eqn:Hx; [discriminate|].
  destruct (max_loop os x k items) as [e|latest] eqn:Hloop; [discriminate|].
  unfold stat_or_raise.
  destruct (os_stat os latest) as [st|] eqn:Hst; [|discriminate].
  intros H. injection H as <-.
  exists x, items, k, st. simpl. repeat split; assumption.
Qed.

(** X9: among the kept entries of a directory, [get_binary] returns
    the first one, in the order of the scan, whose modification time
    is the greatest: every kept entry before it is strictly older, and
    every kept entry after it is not newer; the size and the time of
    the result are those that [os.stat] gives for it. *)
Theorem get_binary_first_latest (os : OsView) (path : string) (b : Binary.t) :
  os_isdir os path = true ->
  get_binary os path = inr (Some b) ->
  exists before after,
    filter is_valid_file (os_glob os (Path.join path "*.bin"))
    = (before ++ Binary.name b :: after)%list
    /\ os_stat os (Binary.name b)
       = Some {| st_size := Binary.size b; st_mtime := Binary.modified b |}
    /\ (forall x, In x before ->
          exists st, os_stat os x = Some st /\ st_mtime st < Binary.modified b)
    /\ (forall x, In x after ->
          exists st, os_stat os x = Some st /\ st_mtime st <= Binary.modified b).
Proof.
  intros Hdir Hget.
  destruct (get_binary_directory_found _ _ Hdir Hget)
    as (x & items & k & st & Hfilter & Hx & Hloop & Hst & Hsize & Hmod).
  assert (Hstat : os_stat os (Binary.name b)
                  = Some {| st_size := Binary.size b;
                            st_mtime := Binary.modified b |})
    by (rewrite Hst, Hsize, Hmod; now destruct st).
  assert (Hkey : forall y ky, getmtime os y = inr ky ->
                   exists sty, os_stat os y = Some sty /\ st_mtime sty = ky)
    by (intros y ky; apply getmtime_stat).
  destruct (max_loop_first _ _ _ _ Hloop)
    as [[Hname Hall]|(before & after & k' & -> & Hk' & Hlt & Hb & Ha)].
  - exists [], items. rewrite Hfilter, <- Hname.
    split; [reflexivity|]. split; [exact Hstat|]. split; [intros y []|].
    intros y Hy. destruct (Hall y Hy) as (ky & Hky & Hle).
    destruct (Hkey _ _ Hky) as (sty & Hsty & <-).
    exists sty. split; [exact Hsty|].
    rewrite <- Hname in Hx. destruct (Hkey _ _ Hx) as (st' & Hst' & <-).
    rewrite Hst in Hst'. injection Hst' as <-. lia.
  - destruct (Hkey _ _ Hk') as (st' & Hst' & <-).
    rewrite Hst in Hst'. injection Hst' as <-.
    exists (x :: before), after. rewrite Hfilter.
    split; [reflexivity|]. split; [exact Hstat|]. split.
    + intros y [<-|Hy].
      * destruct (Hkey _ _ Hx) as (stx & Hstx & <-).
        exists stx. split; [exact Hstx|lia].
      * destruct (Hb y Hy) as (ky & Hky & Hle).
        destruct (Hkey _ _ Hky) as (sty & Hsty & <-).
        exists sty. split; [exact Hsty|lia].
    + intros y Hy. destruct (Ha y Hy) as (ky & Hky & Hle).
      destruct (Hkey _ _ Hky) as (sty & Hsty & <-).
      exists sty. split; [exact Hsty|lia].
Qed.

Lemma get_binary_first_latest_witness :
  exists before after,
    ["FV/A32.bin"; "FV/B64.bin"; "FV/C32.bin"]
    = (before ++ "FV/B64.bin" :: after)%list
    /\ (forall x, In x before ->
          exists st,
            FS.stat [("FV", Dir true 4096 50); ("FV/A32.bin", File "a" 10);
                     ("FV/B64.bin", File "bb" 20); ("FV/C32.bin", File "ccc" 20)]
                    x = Some st
            /\ st_mtime st < 20).
Proof.
  destruct (@get_binary_first_latest
              (view [("FV", Dir true 4096 50); ("FV/A32.bin", File "a" 10);
                     ("FV/B64.bin", File "bb" 20); ("FV/C32.bin", File "ccc" 20)])
              "FV"
              {| Binary.name := "FV/B64.bin"; Binary.size := 2;
                 Binary.modified := 20 |} eq_refl eq_refl)
    as (before & after & Hsplit & _ & Hbefore & _).
  exists before, after. split; [exact Hsplit|exact Hbefore].
Defined.



(** The names that a scan of a directory yields are names of entries
    of the file system that lie in that directory. *)
Lemma scandir_entry (f : filesystem) (dir nm : string) :
  In nm (Glob.scandir f dir) ->
  Path.is_name nm = true
  /\ exists p n,
       In (p, n) f
       /\ Path.key_of p
          = (fst (Path.key_of dir), (snd (Path.key_of dir) ++ [nm])%list).
Proof.
  unfold Glob.scandir.
  destruct (FS.lookup f dir) as [[| [|] | |]|]; try (intros []).
  rewrite in_flat_map. intros ([p n] & Hin & Hnm).
  cbn [fst] in Hnm. unfold Glob.entry_name in Hnm. cbv zeta in Hnm.
  destruct (rev (snd (Path.key_of p))) as [|nm' rest] eqn:Hrev;
    [destruct Hnm|].
  destruct (String.eqb nm' "..") eqn:Hdots; [destruct Hnm|].
  destruct (Path.key_eq_dec (Path.parent (Path.key_of p)) (Path.key_of dir))
    as [Hparent|]; [|destruct Hnm].
  destruct Hnm as [<-|[]].
  assert (Hcomps : snd (Path.key_of p) = (rev rest ++ [nm'])%list).
  { rewrite <- (rev_involutive (snd (Path.key_of p))), Hrev. reflexivity. }
  split.
  - pose proof (key_components p) as Hall. rewrite Hcomps in Hall.
    apply Forall_app in Hall. destruct Hall as [_ Hall].
    inversion Hall as [|? ? [Hsep Hdot] _]; subst.
    unfold Path.is_name. rewrite Hsep, Hdots.
    apply orb_false_elim in Hdot. destruct Hdot as [H0 H1].
    now rewrite H0, H1.
  - exists p, n. split; [exact Hin|].
    rewrite <- Hparent. unfold Path.parent. cbn [fst snd].
    destruct (Path.key_of p) as [abs comps]. cbn [fst snd] in *.
    rewrite Hcomps at 2. now rewrite removelast_last, <- Hcomps.
Qed.

(** The binary found in a directory is an entry of the directory that
    the pattern of the scan names. *)
Lemma get_binary_in_directory (f : filesystem) (path : string) (b : Binary.t) :
  FS.isdir f path = true ->
  get_binary (view f) path = inr (Some b) ->
  exists nm,
    Binary.name b = Path.join (Path.dirname (Path.join path "*.bin")) nm
    /\ Path.is_name nm = true.
Proof.
  intros Hdir Hget.
  destruct (@get_binary_directory_found (view f) path b Hdir Hget)
    as (x & items & k & st & Hfilter & Hx & Hloop & _).
  assert (Hin : In (Binary.name b)
                   (filter is_valid_file
                      (os_glob (view f) (Path.join path "*.bin")))).
  { rewrite Hfilter.
    destruct (max_loop_first _ _ _ _ Hloop)
      as [[-> _]|(before & after & _ & -> & _)].
    - now left.
    - right. apply in_or_app. right. now left. }
  apply filter_In in Hin. destruct Hin as [Hglob _].
  cbn [view os_glob] in Hglob.
  destruct (@glob_matches f (Path.join path "*.bin") ".bin" _
              (basename_join path "*.bin") Hglob)
    as (nm & Hname & Hscan & _).
  exists nm. split; [exact Hname|].
  now destruct (scandir_entry _ _ _ Hscan).
Qed.

(** X11: in the file system, on a path that holds none of the wild
    cards of [glob], the binary that [get_binary] returns is a path
    that [os.stat] succeeds on, with the size and the time that it
    gives. For a directory it is an entry of the scan of that
    directory: a name without separator that does not begin with a
    dot, ends with [.bin] as it is written, and passes the test on the
    name; otherwise it is the path itself. *)
Theorem get_binary_found (f : filesystem) (path : string) (b : Binary.t) :
  Glob.has_magic path = false ->
  get_binary (view f) path = inr (Some b) ->
  FS.stat f (Binary.name b)
  = Some {| st_size := Binary.size b; st_mtime := Binary.modified b |}
  /\ if FS.isdir f path then
       let dir := Path.dirname (Path.join path "*.bin") in
       exists nm,
         Binary.name b = Path.join dir nm
         /\ In nm (Glob.scandir f dir)
         /\ Path.is_name nm = true
         /\ Py.startswith "." nm = false
         /\ Py.endswith ".bin" nm = true
         /\ is_valid_file nm = true
     else Binary.name b = path /\ FS.isfile f path = true.
Proof.
  intros _ Hget.
  destruct (FS.isdir f path) eqn:Hdir.
  - destruct (@get_binary_directory_found (view f) path b Hdir Hget)
      as (x & items & k & st & Hfilter & Hx & Hloop & Hst & Hsize & Hmod).
    split.
    { cbn [view os_stat] in Hst. rewrite Hst, Hsize, Hmod. now destruct st. }
    assert (Hin : In (Binary.name b)
                     (filter is_valid_file
                        (os_glob (view f) (Path.join path "*.bin")))).
    { rewrite Hfilter.
      destruct (max_loop_first _ _ _ _ Hloop)
        as [[-> _]|(before & after & _ & -> & _)].
      - now left.
      - right. apply in_or_app. right. now left. }
    apply filter_In in Hin. destruct Hin as [Hglob Hvalid].
    cbn [view os_glob] in Hglob.
    destruct (@glob_matches f (Path.join path "*.bin") ".bin" _
                (basename_join path "*.bin") Hglob)
      as (nm & Hname & Hscan & Hhidden & Hends).
    cbv zeta. exists nm. split; [exact Hname|]. split; [exact Hscan|].
    destruct (scandir_entry _ _ _ Hscan) as (Hnm & _).
    split; [exact Hnm|]. split; [exact Hhidden|]. split; [exact Hends|].
    rewrite Hname in Hvalid. unfold is_valid_file in *.
    now rewrite basename_join in Hvalid.
  - revert Hget. unfold get_binary, get_binary_try.
    cbn [view os_isdir os_isfile]. rewrite Hdir.
    destruct (FS.isfile f path); [|discriminate].
    unfold stat_or_raise. cbn [view os_stat].
    destruct (FS.stat f path) as [st|] eqn:Hst; [|simpl; discriminate].
    intros H. injection H as <-.
    cbn [binary_of Binary.name Binary.size Binary.modified].
    split; [rewrite Hst; now destruct st|]. split; reflexivity.
Qed.

Lemma get_binary_found_witness :
  FS.stat build_output "FV/A32.bin" = Some {| st_size := 10; st_mtime := 20 |}
  /\ exists nm,
       "FV/A32.bin" = Path.join "FV" nm
       /\ Py.endswith ".bin" nm = true
       /\ is_valid_file nm = true.
Proof.
  destruct (@get_binary_found build_output "FV"
              {| Binary.name := "FV/A32.bin"; Binary.size := 10;
                 Binary.modified := 20 |} eq_refl eq_refl)
    as (Hstat & nm & Hname & _ & _ & _ & Hends & Hvalid).
  split; [exact Hstat|]. exists nm. split; [exact Hname|].
  split; [exact Hends|exact Hvalid].
Defined.

(** ** The archiver *)

(** [save_bootleg], one step after the other. *)
Lemma save_bootleg_steps (bootleg_loc binary_path : string)
    (append : option string) (w : World) :
  save_bootleg bootleg_loc binary_path append w
  = let w0 := with_event w (CallSaveBootleg bootleg_loc binary_path append) in
    match (if negb (FS.exists_ (fs w) bootleg_loc)
           then makedirs bootleg_loc else ret tt) w0 with
    | (inr _, w1) =>
        copy2 binary_path
          (Path.join bootleg_loc (bootleg_basename binary_path append)) w1
    | (inl e, w1) => (inl e, w1)
    end.
Proof. reflexivity. Qed.

(** *** Creating the directories *)

Lemma lookup_of_node_at (f f' : filesystem) (q : string) :
  FS.node_at f' q = FS.node_at f q -> FS.lookup f' q = FS.lookup f q.
Proof. intros H. unfold FS.lookup. now rewrite H. Qed.

(** A node stored where nothing was leaves what there was. *)
Lemma store_absent_keeps (f : filesystem) (p q : string) (n n' : node) :
  p <> EmptyString ->
  FS.node_at f p = None ->
  FS.node_at f q = Some n ->
  FS.node_at (FS.store f p n') q = Some n.
Proof.
  intros Hp Habsent Hq.
  destruct (Path.key_eq_dec (Path.key_of p) (Path.key_of q)) as [E|E].
  - exfalso. revert Habsent Hq. unfold FS.node_at.
    apply String.eqb_neq in Hp. rewrite Hp, E.
    destruct (String.eqb q EmptyString); [discriminate|].
    destruct (FS.entry f (Path.key_of q)); [discriminate|].
    destruct (snd (Path.key_of q)); discriminate.
  - now rewrite node_at_store_other.
Qed.

Lemma prefixes_from_last (s : string) :
  forall cur, In (cur ++ s) (Path.prefixes_from cur s).
Proof.
  induction s as [|c s IH]; intros cur; cbn [Path.prefixes_from].
  - left. now rewrite append_nil_r.
  - assert (H : cur ++ String c s = (cur ++ String c EmptyString) ++ s)
      by (now rewrite append_assoc).
    rewrite H.
    destruct (Ascii.eqb c Path.SEP); [right|]; apply IH.
Qed.

(** The path itself is the last of the directories on its way. *)
Lemma prefixes_self (p : string) :
  p <> EmptyString -> In p (Path.prefixes p).
Proof.
  intros Hp. unfold Path.prefixes. apply filter_In. split.
  - exact (prefixes_from_last p EmptyString).
  - apply negb_true_iff. now apply String.eqb_neq.
Qed.

Lemma prefixes_nonempty (p q : string) :
  In q (Path.prefixes p) -> q <> EmptyString.
Proof.
  unfold Path.prefixes. intros H. apply filter_In in H.
  destruct H as [_ H]. apply negb_true_iff in H. now apply String.eqb_neq.
Qed.

(** What the loop of [os.makedirs] leaves: what there was is as it
    was, what is new is a directory made by the loop, and nothing
    changes at a path that is none of those of the loop. When the loop
    ends normally every path of the loop is a directory; it stops on
    an [OSError] only. *)
Lemma mkdirs_outcome (now : Z) (dirs : list string) :
  forall ok f e f',
    (forall q, In q dirs -> q <> EmptyString) ->
    mkdirs now ok f dirs = (e, f') ->
    (forall q n, FS.node_at f q = Some n -> FS.node_at f' q = Some n)
    /\ (forall q n, FS.node_at f' q = Some n ->
          FS.node_at f q = Some n \/ n = Dir true 0 now)
    /\ (forall q, (forall p, In p dirs -> ~ same_path p q) ->
          FS.node_at f' q = FS.node_at f q)
    /\ match e with
       | None => forall p, In p dirs -> FS.isdir f' p = true
       | Some x => is_OSError x = true
       end.
Proof.
  induction dirs as [|d dirs IH]; intros ok f e f' Hne; cbn [mkdirs].
  - intros H. injection H as <- <-.
    split; [auto|]. split; [auto|]. split; [auto|]. intros p [].
  - assert (Hd : d <> EmptyString) by (apply Hne; now left).
    assert (Hne' : forall q, In q dirs -> q <> EmptyString)
      by (intros q Hq; apply Hne; now right).
    destruct (FS.node_at f d) as [[| r sz m | |]|] eqn:Hnode;
      try (intros H; injection H as <- <-;
           split; [auto|]; split; [auto|]; split; [auto|]; reflexivity).
    + (* a directory is there *)
      intros H. destruct (IH _ _ _ _ Hne' H) as (Hkeep & Hnew & Hother & Hend).
      split; [exact Hkeep|]. split; [exact Hnew|].
      split; [intros q Hq; apply Hother; intros p Hp; apply Hq; now right|].
      destruct e as [x|]; [exact Hend|].
      intros p [<-|Hp]; [|now apply Hend].
      unfold FS.isdir, FS.lookup. rewrite (Hkeep _ _ Hnode).
      now destruct (Path.names_directory d).
    + (* nothing is there *)
      destruct ok;
        [|intros H; injection H as <- <-;
          split; [auto|]; split; [auto|]; split; [auto|]; reflexivity].
      intros H. destruct (IH _ _ _ _ Hne' H) as (Hkeep & Hnew & Hother & Hend).
      split; [|split; [|split]].
      * intros q n Hq. apply Hkeep. now apply store_absent_keeps.
      * intros q n Hq. destruct (Hnew _ _ Hq) as [Hold|Hdir]; [|now right].
        destruct (Path.key_eq_dec (Path.key_of d) (Path.key_of q)) as [E|E].
        -- right. revert Hold. unfold FS.node_at.
           destruct (String.eqb q EmptyString); [discriminate|].
           rewrite <- E, entry_store_same. now intros [= <-].
        -- left. now rewrite node_at_store_other in Hold.
      * intros q Hq. rewrite Hother.
        -- apply node_at_store_other. apply Hq. now left.
        -- intros p Hp. apply Hq. now right.
      * destruct e as [x|]; [exact Hend|].
        intros p [<-|Hp]; [|now apply Hend].
        unfold FS.isdir, FS.lookup.
        rewrite (Hkeep d (Dir true 0 now)).
        -- now destruct (Path.names_directory d).
        -- now apply node_at_store_same.
Qed.

(** [os.makedirs] leaves what there was as it was, and the bytes of
    every file; it raises nothing but [OSError]. *)
Lemma makedirs_outcome (p : string) (w : World) (r : exn + unit) (w' : World) :
  makedirs p w = (r, w') ->
  trace w' = trace w /\ stdin w' = stdin w /\ clock w' = clock w
  /\ (forall q n, FS.lookup (fs w) q = Some n -> FS.lookup (fs w') q = Some n)
  /\ (forall q, FS.read (fs w') q = FS.read (fs w) q)
  /\ (forall q, (forall x, In x (Path.prefixes p) -> ~ same_path x q) ->
        FS.lookup (fs w') q = FS.lookup (fs w) q)
  /\ match r with
     | inr _ => FS.isdir (fs w') p = true
     | inl e => is_OSError e = true
     end.
Proof.
  unfold makedirs.
  destruct (String.eqb p EmptyString) eqn:Hp.
  { intros H. injection H as <- <-. repeat split; auto. }
  apply String.eqb_neq in Hp.
  unfold bind, get_fs, get_clock, put_fs, raise. cbv zeta.
  destruct (mkdirs (clock w) _ (fs w) (Path.prefixes p)) as [e f'] eqn:Hmk.
  destruct (@mkdirs_outcome (clock w) (Path.prefixes p) _ (fs w) e f'
              (@prefixes_nonempty p) Hmk)
    as (Hkeep & Hnew & Hother & Hend).
  assert (Hlookup : forall q n,
             FS.lookup (fs w) q = Some n -> FS.lookup f' q = Some n).
  { intros q n Hq. rewrite <- Hq. apply lookup_of_node_at.
    rewrite (Hkeep _ _ (@lookup_node_at _ _ _ Hq)).
    symmetry. exact (@lookup_node_at _ _ _ Hq). }
  assert (Hread : forall q, FS.read f' q = FS.read (fs w) q).
  { intros q. unfold FS.read, FS.lookup.
    destruct (FS.node_at (fs w) q) as [n|] eqn:Hq.
    - now rewrite (Hkeep _ _ Hq).
    - destruct (FS.node_at f' q) as [n|] eqn:Hq'; [|reflexivity].
      destruct (Hnew _ _ Hq') as [Hold | ->]; [congruence|].
      now destruct (Path.names_directory q). }
  assert (Hframe : forall q,
             (forall x, In x (Path.prefixes p) -> ~ same_path x q) ->
             FS.lookup f' q = FS.lookup (fs w) q).
  { intros q Hq. apply lookup_of_node_at. now apply Hother. }
  destruct e as [x|]; intros H; injection H as <- <-; cbn [fs trace stdin clock];
    repeat split; auto.
  apply Hend. now apply prefixes_self.
Qed.

(** [makedirs] leaves the text of every file. *)
Lemma makedirs_frame (p q : string) (w : World) (r : exn + unit) (w' : World) :
  makedirs p w = (r, w') ->
  trace w' = trace w /\ FS.read (fs w') q = FS.read (fs w) q.
Proof.
  intros H. destruct (@makedirs_outcome _ _ _ _ H) as (Ht & _ & _ & _ & Hr & _).
  auto.
Qed.



(** *** Copying *)

Lemma write_node_outcome (dst : string) (n : node) (w : World)
    (r : exn + unit) (w' : World) :
  write_node (fs w) dst n w = (r, w') ->
  match r with
  | inr _ =>
      w' = with_fs w (FS.store (fs w) dst n)
      /\ dst <> EmptyString
      /\ Path.names_directory dst = false
      /\ FS.isdir (fs w) dst = false
  | inl e => w' = w /\ is_OSError e = true
  end.
Proof.
  unfold write_node, put_fs, raise, FS.isdir, create_error, open_error.
  destruct (FS.lookup (fs w) dst) as [[c m| r0 sz m | |a c m]|] eqn:Hl.
  - intros H. injection H as <- <-.
    split; [reflexivity|]. split; [exact (@lookup_nonempty _ _ _ Hl)|].
    split; [|reflexivity]. apply (@lookup_plain _ _ _ Hl). discriminate.
  - intros H. injection H as <- <-. auto.
  - destruct (FS.creatable (fs w) dst) eqn:Hc.
    + intros H. injection H as <- <-. split; [reflexivity|].
      unfold FS.creatable in Hc.
      apply andb_prop in Hc. destruct Hc as [Hc _].
      apply andb_prop in Hc. destruct Hc as [H1 H2].
      apply negb_true_iff in H1. apply negb_true_iff in H2.
      split; [now apply String.eqb_neq|]. split; [exact H2|reflexivity].
    + intros H. injection H as <- <-. split; [reflexivity|].
      destruct (FS.entry (fs w) (Path.parent (Path.key_of dst)))
        as [[| [|] | |]|];
        now destruct (FS.node_at (fs w) dst) as [[| | |]|].
  - destruct (can_write a).
    + intros H. injection H as <- <-.
      split; [reflexivity|]. split; [exact (@lookup_nonempty _ _ _ Hl)|].
      split; [|reflexivity]. apply (@lookup_plain _ _ _ Hl). discriminate.
    + intros H. injection H as <- <-. auto.
  - destruct (FS.creatable (fs w) dst) eqn:Hc.
    + intros H. injection H as <- <-. split; [reflexivity|].
      unfold FS.creatable in Hc.
      apply andb_prop in Hc. destruct Hc as [Hc _].
      apply andb_prop in Hc. destruct Hc as [H1 H2].
      apply negb_true_iff in H1. apply negb_true_iff in H2.
      split; [now apply String.eqb_neq|]. split; [exact H2|reflexivity].
    + intros H. injection H as <- <-. split; [reflexivity|].
      destruct (FS.entry (fs w) (Path.parent (Path.key_of dst)))
        as [[| [|] | |]|];
        now destruct (FS.node_at (fs w) dst) as [[| | |]|].
Qed.

(** What [copy2] has done when it ends: on a normal return the source
    is a regular file, and its node is at the destination, or at the
    entry of its name in the destination when that is a directory,
    which is not the source; when it raises, it raises an [OSError]
    and the world is as it was. *)
Lemma copy2_outcome (src dst : string) (w : World) (r : exn + unit)
    (w' : World) :
  copy2 src dst w = (r, w') ->
  let target := if FS.isdir (fs w) dst
                then Path.join dst (Path.basename src) else dst in
  match r with
  | inr _ =>
      exists n,
        FS.lookup (fs w) src = Some n
        /\ FS.isfile (fs w) src = true
        /\ ~ same_path target src
        /\ FS.isdir (fs w) target = false
        /\ w' = with_fs w (FS.store (fs w) target n)
        /\ FS.lookup (fs w') target = Some n
  | inl e => w' = w /\ is_OSError e = true
  end.
Proof.
  unfold copy2, bind, get_fs. cbv zeta.
  set (target := if FS.isdir (fs w) dst
                 then Path.join dst (Path.basename src) else dst).
  destruct (FS.samefile (fs w) src target) eqn:Hsame.
  { intros H. injection H as <- <-. auto. }
  assert (Hdone : forall n,
             FS.lookup (fs w) src = Some n ->
             FS.isfile (fs w) src = true ->
             write_node (fs w) target n w = (r, w') ->
             match r with
             | inr _ =>
                 exists n,
                   FS.lookup (fs w) src = Some n
                   /\ FS.isfile (fs w) src = true
                   /\ ~ same_path target src
                   /\ FS.isdir (fs w) target = false
                   /\ w' = with_fs w (FS.store (fs w) target n)
                   /\ FS.lookup (fs w') target = Some n
             | inl e => w' = w /\ is_OSError e = true
             end).
  { intros n Hsrc Hfile Hwrite.
    pose proof (@write_node_outcome _ _ _ _ _ Hwrite) as Hout.
    destruct r as [e|u]; [exact Hout|].
    destruct Hout as (-> & Hne & Hplain & Hnodir).
    exists n. split; [exact Hsrc|]. split; [exact Hfile|].
    split; [|split; [exact Hnodir|split; [reflexivity|]]].
    - intros Hkey.
      assert (Hplain_src : Path.names_directory src = false).
      { apply (@lookup_plain _ _ _ Hsrc). intros r0 sz m ->.
        unfold FS.isfile in Hfile. now rewrite Hsrc in Hfile. }
      assert (Hl : FS.lookup (fs w) target = FS.lookup (fs w) src).
      { apply lookup_same_path; auto.
        - exact (@lookup_nonempty _ _ _ Hsrc).
        - now rewrite Hplain, Hplain_src. }
      unfold FS.samefile in Hsame.
      assert (Hex : FS.exists_ (fs w) src = true).
      { unfold FS.exists_. unfold FS.isfile in Hfile.
        destruct (FS.lookup (fs w) src) as [[| | |]|];
          solve [reflexivity | discriminate]. }
      assert (Hex' : FS.exists_ (fs w) target = true)
        by (unfold FS.exists_ in *; now rewrite Hl).
      rewrite Hex', Hex in Hsame.
      unfold same_path in Hkey. rewrite Hkey in Hsame.
      now destruct (Path.key_eq_dec (Path.key_of src) (Path.key_of src)).
    - cbn [with_fs fs]. now apply lookup_store_same. }
  destruct (FS.lookup (fs w) src) as [[c m| r0 sz m | |a c m]|] eqn:Hsrc.
  - apply (Hdone _ eq_refl). unfold FS.isfile. now rewrite Hsrc.
  - intros H. injection H as <- <-. auto.
  - intros H. injection H as <- <-. split; [reflexivity|].
    unfold open_error. now destruct (FS.node_at (fs w) src) as [[| | |]|].
  - destruct (can_read a).
    + apply (Hdone _ eq_refl). unfold FS.isfile. now rewrite Hsrc.
    + intros H. injection H as <- <-. auto.
  - intros H. injection H as <- <-. split; [reflexivity|].
    unfold open_error. now destruct (FS.node_at (fs w) src) as [[| | |]|].
Qed.

(** [copy2] writes its destination, or the entry of the source's name
    in it, and nothing else. *)
Lemma copy2_frame (src dst q : string) (w : World) (r : exn + unit) (w' : World) :
  copy2 src dst w = (r, w') ->
  trace w' = trace w
  /\ (~ same_path dst q -> ~ same_path (Path.join dst (Path.basename src)) q ->
      FS.lookup (fs w') q = FS.lookup (fs w) q).
Proof.
  intros H. pose proof (@copy2_outcome _ _ _ _ _ H) as Hout. cbv zeta in Hout.
  destruct r as [e|u].
  - destruct Hout as (-> & _). auto.
  - destruct Hout as (n & _ & _ & _ & _ & -> & _). cbn [with_fs fs trace].
    split; [reflexivity|]. intros H1 H2. apply lookup_store_other.
    destruct (FS.isdir (fs w) dst); assumption.
Qed.



(** *** The copy and its name *)





(** The base name of a regular file is a single component: without a
    suffix the name of the copy is one. *)
Lemma file_basename_is_name (f : filesystem) (p content : string) (mtime : Z) :
  FS.lookup f p = Some (File content mtime) ->
  Path.is_name (Path.basename p) = true.
Proof.
  intros H. apply basename_is_name. apply (@lookup_plain _ _ _ H). discriminate.
Qed.

Example save_bootleg_plain_name :
  FS.read (fs (snd (save_bootleg "FV/saved" "FV/foo.bin" None archive_world)))
          "FV/saved/foo.bin" = Some "image bytes".
Proof. reflexivity. Qed.

(** The destination directory under another spelling, and the
    directories on the way to it. *)
Example save_bootleg_trailing_separator :
  let w' := snd (save_bootleg "out/new/" "FV/foo.bin" None archive_world) in
  FS.read (fs w') "out/new/foo.bin" = Some "image bytes"
  /\ FS.isdir (fs w') "out" = true
  /\ FS.isdir (fs w') "out/new" = true.
Proof. repeat split; reflexivity. Qed.

(** The source under another spelling of the destination, and the
    empty path. *)
Example save_bootleg_alias :
  fst (save_bootleg "FV/." "FV/foo.bin" None archive_world)
  = inl (SameFileError "source and destination are the same file")
  /\ fst (save_bootleg EmptyString "FV/foo.bin" None archive_world)
     = inl (FileNotFoundError "No such file or directory").
Proof. split; reflexivity. Qed.

(** A destination directory that the process has no access to. *)
Example save_bootleg_locked_directory :
  fst (save_bootleg "locked" "FV/A32.bin" (Some "x") (world_of broken_output))
  = inl (OSError "Permission denied")
  /\ fst (makedirs "locked/new" (world_of broken_output))
     = inl (OSError "Permission denied").
Proof. split; reflexivity. Qed.
(** ** The outcome of the archiver *)

(** What is new after [os.makedirs] is a directory that it made. *)
Lemma makedirs_new (p : string) (w : World) (r : exn + unit) (w' : World) :
  makedirs p w = (r, w') ->
  forall q n,
    FS.lookup (fs w') q = Some n ->
    FS.lookup (fs w) q = Some n \/ n = Dir true 0 (clock w).
Proof.
  unfold makedirs.
  destruct (String.eqb p EmptyString) eqn:Hp.
  { intros H. injection H as <- <-. auto. }
  unfold bind, get_fs, get_clock, put_fs, raise. cbv zeta.
  destruct (mkdirs (clock w) _ (fs w) (Path.prefixes p)) as [e f'] eqn:Hmk.
  destruct (@mkdirs_outcome (clock w) (Path.prefixes p) _ (fs w) e f'
              (@prefixes_nonempty p) Hmk)
    as (Hkeep & Hnew & _ & _).
  assert (Hall : forall q n,
             FS.lookup f' q = Some n ->
             FS.lookup (fs w) q = Some n \/ n = Dir true 0 (clock w)).
  { intros q n Hq.
    destruct (Hnew _ _ (@lookup_node_at _ _ _ Hq)) as [Hold|Hdir];
      [left|now right].
    rewrite <- Hq. symmetry. apply lookup_of_node_at.
    rewrite Hold. exact (@lookup_node_at _ _ _ Hq). }
  destruct e as [x|]; intros H; injection H as <- <-; exact Hall.
Qed.

(** X12: whenever [save_bootleg] returns, the source is a regular file
    that is left as it was, and its bytes and its modification time
    are at one of the two paths that the call may write, which is not
    the source under any spelling; whatever there was at a path other
    than the one written is still there; every path that is neither
    the one written nor on the way to the destination directory is as
    it was; and the call is the one event added to the trace. *)
Theorem save_bootleg_returns (bootleg_loc binary_path : string)
    (append : option string) (w w' : World) :
  save_bootleg bootleg_loc binary_path append w = (inr tt, w') ->
  exists n target,
    FS.lookup (fs w) binary_path = Some n
    /\ FS.isfile (fs w) binary_path = true
    /\ In target (save_targets bootleg_loc binary_path append)
    /\ ~ same_path target binary_path
    /\ FS.lookup (fs w') target = Some n
    /\ FS.lookup (fs w') binary_path = Some n
    /\ (forall q m, ~ same_path target q ->
          FS.lookup (fs w) q = Some m -> FS.lookup (fs w') q = Some m)
    /\ (forall q, ~ same_path target q ->
          (forall x, In x (Path.prefixes bootleg_loc) -> ~ same_path x q) ->
          FS.lookup (fs w') q = FS.lookup (fs w) q)
    /\ trace w'
       = (trace w ++ [CallSaveBootleg bootleg_loc binary_path append])%list.
Proof.
  rewrite save_bootleg_steps. cbv zeta.
  set (ev := CallSaveBootleg bootleg_loc binary_path append).
  set (dst := Path.join bootleg_loc (bootleg_basename binary_path append)).
  assert (Htargets : forall f,
             In (if FS.isdir f dst
                 then Path.join dst (Path.basename binary_path) else dst)
                (save_targets bootleg_loc binary_path append)).
  { intros f. unfold save_targets. fold dst.
    destruct (FS.isdir f dst); simpl; auto. }
  destruct (negb (FS.exists_ (fs w) bootleg_loc)) eqn:Hex.
  - destruct (makedirs bootleg_loc (with_event w ev)) as [[e|[]] w1] eqn:Hmk;
      [discriminate|].
    destruct (@makedirs_outcome _ _ _ _ Hmk)
      as (Ht1 & _ & _ & Hkeep & _ & Hframe & _).
    pose proof (@makedirs_new _ _ _ _ Hmk) as Hnew.
    cbn [with_event fs trace clock] in Ht1, Hkeep, Hframe, Hnew.
    intros Hcopy. pose proof (@copy2_outcome _ _ _ _ _ Hcopy) as Hout.
    cbv zeta in Hout.
    destruct Hout as (n & Hsrc & Hfile & Hother & _ & -> & Hdone).
    cbn [with_fs fs trace] in *.
    assert (Hsrc0 : FS.lookup (fs w) binary_path = Some n).
    { destruct (Hnew _ _ Hsrc) as [H|H]; [exact H|].
      unfold FS.isfile in Hfile. rewrite Hsrc, H in Hfile. discriminate. }
    exists n, (if FS.isdir (fs w1) dst
               then Path.join dst (Path.basename binary_path) else dst).
    split; [exact Hsrc0|].
    split; [unfold FS.isfile; now rewrite Hsrc0; unfold FS.isfile in Hfile;
            rewrite Hsrc in Hfile|].
    split; [apply Htargets|]. split; [exact Hother|].
    split; [exact Hdone|].
    split; [now rewrite lookup_store_other|].
    split; [|split; [|exact Ht1]].
    + intros q m Hq Hm. rewrite lookup_store_other by exact Hq.
      now apply Hkeep.
    + intros q Hq Hway. rewrite lookup_store_other by exact Hq.
      now apply Hframe.
  - unfold ret at 1. intros Hcopy.
    pose proof (@copy2_outcome _ _ _ _ _ Hcopy) as Hout. cbv zeta in Hout.
    destruct Hout as (n & Hsrc & Hfile & Hother & _ & -> & Hdone).
    cbn [with_event with_fs fs trace] in *.
    exists n, (if FS.isdir (fs w) dst
               then Path.join dst (Path.basename binary_path) else dst).
    split; [exact Hsrc|]. split; [exact Hfile|].
    split; [apply Htargets|]. split; [exact Hother|].
    split; [exact Hdone|].
    split; [now rewrite lookup_store_other|].
    split; [|split; [|reflexivity]].
    + intros q m Hq Hm. now rewrite lookup_store_other.
    + intros q Hq _. now apply lookup_store_other.
Qed.

Lemma save_bootleg_returns_witness :
  exists n target,
    FS.lookup (fs archive_world) "FV/foo.bin" = Some n
    /\ In target (save_targets "Bootlegs" "FV/foo.bin" (Some "test"))
    /\ FS.lookup
         (fs (snd (save_bootleg "Bootlegs" "FV/foo.bin" (Some "test")
                     archive_world)))
         target
       = Some n.
Proof.
  destruct (@save_bootleg_returns "Bootlegs" "FV/foo.bin" (Some "test")
              archive_world
              (snd (save_bootleg "Bootlegs" "FV/foo.bin" (Some "test")
                      archive_world))
              eq_refl)
    as (n & target & Hsrc & _ & Hin & _ & Hdst & _).
  exists n, target. split; [exact Hsrc|]. split; [exact Hin|exact Hdst].
Defined.



(** X14: archiving, under its own name, a file that lies in the
    destination directory is refused, under whichever spelling the
    directory is given: [save_bootleg] raises [SameFileError] and
    leaves the file system as it is. *)
Theorem save_bootleg_own_directory (bootleg_loc binary_path : string)
    (w : World) :
  FS.isdir (fs w) bootleg_loc = true ->
  FS.isfile (fs w) binary_path = true ->
  same_path (Path.join bootleg_loc (Path.basename binary_path)) binary_path ->
  save_bootleg bootleg_loc binary_path None w
  = (inl (SameFileError "source and destination are the same file"),
     with_event w (CallSaveBootleg bootleg_loc binary_path None)).
Proof.
  intros Hdir Hfile Hsame.
  rewrite save_bootleg_steps. cbv zeta.
  rewrite (@isdir_exists _ _ Hdir). cbn [negb]. unfold ret at 1.
  unfold bootleg_basename.
  set (dst := Path.join bootleg_loc (Path.basename binary_path)) in *.
  assert (Hloc : bootleg_loc <> EmptyString).
  { intros E. rewrite E in Hdir. discriminate Hdir. }
  assert (Hsrc : exists n, FS.lookup (fs w) binary_path = Some n
                           /\ forall r sz m, n <> Dir r sz m).
  { unfold FS.isfile in Hfile.
    destruct (FS.lookup (fs w) binary_path) as [[| | |]|]; try discriminate;
      eexists; split; try reflexivity; discriminate. }
  destruct Hsrc as (n & Hsrc & Hn).
  pose proof (@lookup_plain _ _ _ Hsrc Hn) as Hplain.
  destruct (@key_of_join bootleg_loc (Path.basename binary_path) Hloc
              (basename_is_name _ Hplain)) as [Hkey Hplain'].
  fold dst in Hkey, Hplain'.
  assert (Hdst_ne : dst <> EmptyString).
  { intros E. rewrite E in Hkey.
    apply (f_equal (fun k => List.length (snd k))) in Hkey.
    cbn [snd] in Hkey. rewrite length_app in Hkey. simpl in Hkey. lia. }
  assert (Hl : FS.lookup (fs w) dst = FS.lookup (fs w) binary_path).
  { apply lookup_same_path; auto.
    - exact (@lookup_nonempty _ _ _ Hsrc).
    - now rewrite Hplain, Hplain'. }
  unfold copy2, bind, get_fs, raise. cbn [with_event fs].
  assert (Hnodir : FS.isdir (fs w) dst = false).
  { unfold FS.isdir. rewrite Hl, Hsrc.
    destruct n; try reflexivity. now destruct (Hn accessible size mtime). }
  rewrite Hnodir. unfold FS.samefile, FS.exists_. rewrite Hl.
  unfold FS.isfile in Hfile. unfold same_path in Hsame. rewrite Hsame.
  destruct (FS.lookup (fs w) binary_path) as [[| | |]|]; try discriminate;
    now destruct (Path.key_eq_dec (Path.key_of binary_path)
                    (Path.key_of binary_path)).
Qed.

Lemma save_bootleg_own_directory_witness :
  save_bootleg "FV/." "FV/foo.bin" None archive_world
  = (inl (SameFileError "source and destination are the same file"),
     with_event archive_world (CallSaveBootleg "FV/." "FV/foo.bin" None)).
Proof.
  apply (@save_bootleg_own_directory "FV/." "FV/foo.bin" archive_world);
    reflexivity.
Defined.
(** ** The directory check *)

(** One round of the loop of the directory check. *)
Lemma check_directories_cons (dir_type dir_path : string)
    (dirs : list (string * string)) (a : Args.t) (w : World) :
  check_directories ((dir_type, dir_path) :: dirs) a w
  = if negb (FS.exists_ (fs w) dir_path) then
      match input w with
      | (inl e, w1) => (inl e, w1)
      | (inr line, w1) =>
          let response := Py.lower (Py.strip line) in
          if negb (String.eqb response "y" || String.eqb response "yes") then
            check_directories dirs (skip_save dir_type a) w1
          else
            match try_except_OSError (makedirs dir_path)
                    (fun _ => raise (RuntimeError
                                       ("Could not create " ++ dir_type
                                        ++ " directory: " ++ dir_path))) w1 with
            | (inl e, w2) => (inl e, w2)
            | (inr _, w2) => check_directories dirs a w2
            end
      end
    else check_directories dirs a w.
Proof.
  simpl. unfold bind at 1, get_fs.
  destruct (negb (FS.exists_ (fs w) dir_path)); [|reflexivity].
  unfold bind at 1.
  destruct (input w) as [[e|line] w1]; [reflexivity|].
  cbv zeta. destruct (negb _); reflexivity.
Qed.

(** Declining a directory clears the flag of its save and leaves the
    other options. *)
Lemma skip_save_shape (dir_type : string) (a : Args.t) :
  skip_save dir_type a
  = with_saves (Args.save (skip_save dir_type a))
               (Args.network (skip_save dir_type a))
               (Args.output (skip_save dir_type a)) a.
Proof.
  unfold skip_save.
  destruct (String.eqb dir_type "local bootlegs"); [reflexivity|].
  destruct (String.eqb dir_type "network bootlegs"); [reflexivity|].
  destruct (String.eqb dir_type "custom output"); [reflexivity|].
  now destruct a.
Qed.

Lemma skip_save_disables (dir_type : string) (a : Args.t) :
  save_enabled dir_type (skip_save dir_type a) = false.
Proof.
  unfold skip_save, save_enabled.
  destruct (String.eqb dir_type "local bootlegs") eqn:E1; [reflexivity|].
  destruct (String.eqb dir_type "network bootlegs") eqn:E2; [reflexivity|].
  destruct (String.eqb dir_type "custom output") eqn:E3; reflexivity.
Qed.

(** It sets no flag. *)
Lemma skip_save_enabled (dir_type t : string) (a : Args.t) :
  save_enabled t (skip_save dir_type a) = true -> save_enabled t a = true.
Proof.
  unfold skip_save, save_enabled.
  destruct (String.eqb dir_type "local bootlegs");
    [|destruct (String.eqb dir_type "network bootlegs");
      [|destruct (String.eqb dir_type "custom output")]];
    cbn [Args.save Args.network Args.output truthy];
    destruct (String.eqb t "local bootlegs");
    destruct (String.eqb t "network bootlegs");
    destruct (String.eqb t "custom output");
    auto; discriminate.
Qed.

Lemma with_saves_twice (s n s' n' : bool) (o o' : option string) (a : Args.t) :
  with_saves s n o (with_saves s' n' o' a) = with_saves s n o a.
Proof. reflexivity. Qed.

(** The call of [os.makedirs] in the loop, when the loop goes on. *)
Lemma try_makedirs_returns (dir_type dir_path : string) (w w' : World) :
  try_except_OSError (makedirs dir_path)
    (fun _ => raise (RuntimeError ("Could not create " ++ dir_type
                                   ++ " directory: " ++ dir_path))) w
  = (inr tt, w') ->
  makedirs dir_path w = (inr tt, w').
Proof.
  unfold try_except_OSError.
  destruct (makedirs dir_path w) as [[e|[]] w1]; [|auto].
  destruct (is_OSError e); discriminate.
Qed.

Lemma try_makedirs_raises (dir_type dir_path : string) (w : World)
    (e : exn) (w' : World) :
  try_except_OSError (makedirs dir_path)
    (fun _ => raise (RuntimeError ("Could not create " ++ dir_type
                                   ++ " directory: " ++ dir_path))) w
  = (inl e, w') ->
  e = RuntimeError ("Could not create " ++ dir_type
                    ++ " directory: " ++ dir_path)
  /\ exists e0, makedirs dir_path w = (inl e0, w').
Proof.
  unfold try_except_OSError.
  destruct (makedirs dir_path w) as [[e0|[]] w1] eqn:Hmk; [|discriminate].
  pose proof (@makedirs_outcome _ _ _ _ Hmk) as (_ & _ & _ & _ & _ & _ & He).
  rewrite He. unfold raise. intros H. injection H as <- <-. eauto.
Qed.

Lemma input_world (w : World) (line : string) (w1 : World) :
  input w = (inr line, w1) ->
  fs w1 = fs w /\ trace w1 = trace w /\ stdin w = line :: stdin w1.
Proof.
  unfold input. destruct (stdin w) as [|l rest]; [discriminate|].
  intros H. injection H as <- <-. auto.
Qed.

Lemma exists_kept (f f' : filesystem) (p : string) :
  (forall q n, FS.lookup f q = Some n -> FS.lookup f' q = Some n) ->
  FS.exists_ f p = true -> FS.exists_ f' p = true.
Proof.
  intros Hkeep. unfold FS.exists_.
  destruct (FS.lookup f p) as [n|] eqn:E; [|discriminate].
  now rewrite (Hkeep _ _ E).
Qed.

(** What the loop leaves when it ends normally. *)
Lemma check_directories_outcome (dirs : list (string * string)) :
  forall args w args' w',
    check_directories dirs args w = (inr args', w') ->
    args' = with_saves (Args.save args') (Args.network args')
                       (Args.output args') args
    /\ (forall t, save_enabled t args' = true -> save_enabled t args = true)
    /\ (forall t p, In (t, p) dirs -> save_enabled t args' = true ->
          FS.exists_ (fs w') p = true)
    /\ trace w' = trace w
    /\ (forall q n, FS.lookup (fs w) q = Some n -> FS.lookup (fs w') q = Some n)
    /\ (forall q, FS.read (fs w') q = FS.read (fs w) q).
Proof.
  induction dirs as [|[dir_type dir_path] dirs IH]; intros args w args' w'.
  - intros H. injection H as <- <-.
    split; [now destruct args|]. split; [auto|].
    split; [intros t p []|]. auto.
  - rewrite check_directories_cons.
    destruct (negb (FS.exists_ (fs w) dir_path)) eqn:Hex.
    + destruct (input w) as [[e|line] w1] eqn:Hin; [discriminate|].
      destruct (@input_world _ _ _ Hin) as (Hf1 & Ht1 & _).
      cbv zeta. destruct (negb (String.eqb _ _ || _)) eqn:Hans.
      * (* declined *)
        intros H. destruct (IH _ _ _ _ H) as (Hshape & Hflag & Hdirs & Ht & Hk & Hr).
        split; [rewrite Hshape at 1; rewrite (skip_save_shape dir_type args);
                apply with_saves_twice|].
        split; [intros t Ht'; exact (@skip_save_enabled _ _ _ (Hflag t Ht'))|].
        split; [|split; [congruence|split]].
        -- intros t p [E|Hin'] Hon; [|now apply (Hdirs t p)].
           injection E as <- <-. apply Hflag in Hon.
           now rewrite skip_save_disables in Hon.
        -- intros q n. rewrite <- Hf1. apply Hk.
        -- intros q. now rewrite Hr, Hf1.
      * (* accepted *)
        destruct (try_except_OSError _ _ w1) as [[e|[]] w2] eqn:Htry;
          [discriminate|].
        apply try_makedirs_returns in Htry.
        destruct (@makedirs_outcome _ _ _ _ Htry)
          as (Ht2 & _ & _ & Hk2 & Hr2 & _ & Hdir).
        intros H. destruct (IH _ _ _ _ H) as (Hshape & Hflag & Hdirs & Ht & Hk & Hr).
        split; [exact Hshape|]. split; [exact Hflag|].
        split; [|split; [congruence|split]].
        -- intros t p [E|Hin'] Hon; [|now apply (Hdirs t p)].
           injection E as <- <-.
           apply (@exists_kept _ _ _ Hk). now apply isdir_exists.
        -- intros q n Hq. apply Hk, Hk2. now rewrite Hf1.
        -- intros q. now rewrite Hr, Hr2, Hf1.
    + apply negb_false_iff in Hex.
      intros H. destruct (IH _ _ _ _ H) as (Hshape & Hflag & Hdirs & Ht & Hk & Hr).
      split; [exact Hshape|]. split; [exact Hflag|].
      split; [|auto].
      intros t p [E|Hin'] Hon; [|now apply (Hdirs t p)].
      injection E as <- <-. exact (@exists_kept _ _ _ Hk Hex).
Qed.

(** X15: whenever the directory check returns, the arguments that it
    leaves differ from the given ones by the three options that ask
    for a save at most, and no save is asked for that was not; the
    directory of every save that is still asked for exists; no call is
    recorded, whatever there was in the file system is still there,
    and the bytes of every file are as they were. *)
Theorem check_and_create_directories_outcome (config : Config.t)
    (args : Args.t) (w : World) (args' : Args.t) (w' : World) :
  check_and_create_directories config args w = (inr args', w') ->
  args' = with_saves (Args.save args') (Args.network args')
                     (Args.output args') args
  /\ (Args.save args' = true -> Args.save args = true)
  /\ (Args.network args' = true -> Args.network args = true)
  /\ (truthy (Args.output args') = true -> Args.output args' = Args.output args)
  /\ (Args.save args' = true ->
      FS.exists_ (fs w') (Config.bootleg_loc config) = true)
  /\ (Args.network args' = true ->
      FS.exists_ (fs w') (Config.network_loc config) = true)
  /\ (forall o, Args.output args' = Some o -> o <> EmptyString ->
      FS.exists_ (fs w') o = true)
  /\ trace w' = trace w
  /\ (forall q n, FS.lookup (fs w) q = Some n -> FS.lookup (fs w') q = Some n)
  /\ (forall q, FS.read (fs w') q = FS.read (fs w) q).
Proof.
  unfold check_and_create_directories. intros H.
  destruct (@check_directories_outcome _ _ _ _ _ H)
    as (Hshape & Hflag & Hdirs & Ht & Hk & Hr).
  assert (Houtput : truthy (Args.output args') = true ->
                    Args.output args' = Args.output args).
  { clear - H. revert args' w' H.
    generalize (directories_to_check config args) as dirs.
    intros dirs. revert args w.
    induction dirs as [|[dir_type dir_path] dirs IH]; intros args w args' w'.
    - intros H. now injection H as <- <-.
    - rewrite check_directories_cons.
      destruct (negb (FS.exists_ (fs w) dir_path)); [|apply IH].
      destruct (input w) as [[e|line] w1]; [discriminate|].
      cbv zeta. destruct (negb _).
      + intros H Hon. pose proof (IH _ _ _ _ H Hon) as E. rewrite E.
        rewrite E in Hon. revert Hon. unfold skip_save.
        destruct (String.eqb dir_type "local bootlegs"); [reflexivity|].
        destruct (String.eqb dir_type "network bootlegs"); [reflexivity|].
        destruct (String.eqb dir_type "custom output"); [discriminate|].
        reflexivity.
      + destruct (try_except_OSError _ _ w1) as [[e|[]] w2]; [discriminate|].
        apply IH. }
  split; [exact Hshape|].
  split; [exact (Hflag "local bootlegs")|].
  split; [exact (Hflag "network bootlegs")|].
  split; [exact Houtput|].
  split; [|split; [|split; [|auto]]].
  - intros Hsave. apply (Hdirs "local bootlegs"); [|exact Hsave].
    assert (Hs : Args.save args = true) by exact (Hflag "local bootlegs" Hsave).
    unfold directories_to_check. rewrite Hs. now left.
  - intros Hnet. apply (Hdirs "network bootlegs"); [|exact Hnet].
    assert (Hn : Args.network args = true)
      by exact (Hflag "network bootlegs" Hnet).
    unfold directories_to_check. rewrite Hn.
    apply in_or_app. right. apply in_or_app. now left; left.
  - intros o Ho Hne.
    assert (Hon : truthy (Args.output args') = true).
    { rewrite Ho. cbn [truthy]. apply negb_true_iff. now apply String.eqb_neq. }
    apply (Hdirs "custom output"); [|exact Hon].
    unfold directories_to_check. rewrite <- (Houtput Hon), Ho.
    rewrite Ho in Hon. rewrite Hon.
    apply in_or_app. right. apply in_or_app. right. now left.
Qed.

Lemma check_and_create_directories_outcome_witness :
  FS.exists_
    (fs (snd (check_and_create_directories springs_config save_args
                {| fs := []; stdin := ["y"]; clock := 7; trace := [] |})))
    (Config.bootleg_loc springs_config)
  = true.
Proof.
  destruct (check_and_create_directories springs_config save_args
              {| fs := []; stdin := ["y"]; clock := 7; trace := [] |})
    as [[e|args'] w'] eqn:Hrun.
  - vm_compute in Hrun. discriminate Hrun.
  - cbn [snd].
    destruct (@check_and_create_directories_outcome _ _ _ _ _ Hrun)
      as (_ & _ & _ & _ & Hex & _).
    apply Hex. apply (f_equal fst) in Hrun. vm_compute in Hrun.
    injection Hrun as <-. reflexivity.
Defined.

(** X16: when every directory of a save that is asked for exists, the
    directory check asks nothing and changes nothing: it returns the
    arguments as they are and leaves the world as it is. *)
Theorem check_and_create_directories_silent (config : Config.t)
    (args : Args.t) (w : World) :
  (Args.save args = true ->
   FS.exists_ (fs w) (Config.bootleg_loc config) = true) ->
  (Args.network args = true ->
   FS.exists_ (fs w) (Config.network_loc config) = true) ->
  (forall o, Args.output args = Some o -> o <> EmptyString ->
   FS.exists_ (fs w) o = true) ->
  check_and_create_directories config args w = (inr args, w).
Proof.
  intros Hsave Hnet Hout. unfold check_and_create_directories.
  assert (Hall : forall t p, In (t, p) (directories_to_check config args) ->
                             FS.exists_ (fs w) p = true).
  { unfold directories_to_check. intros t p Hin.
    apply in_app_or in Hin. destruct Hin as [Hin|Hin].
    - destruct (Args.save args); [|destruct Hin].
      destruct Hin as [E|[]]. injection E as _ <-. now apply Hsave.
    - apply in_app_or in Hin. destruct Hin as [Hin|Hin].
      + destruct (Args.network args); [|destruct Hin].
        destruct Hin as [E|[]]. injection E as _ <-. now apply Hnet.
      + destruct (Args.output args) as [o|]; [|destruct Hin].
        destruct (truthy (Some o)) eqn:Ho; [|destruct Hin].
        destruct Hin as [E|[]]. injection E as _ <-.
        apply Hout; [reflexivity|].
        cbn [truthy] in Ho. apply negb_true_iff in Ho.
        now apply String.eqb_neq. }
  revert Hall. generalize (directories_to_check config args) as dirs.
  induction dirs as [|[dir_type dir_path] dirs IH]; intros Hall;
    [reflexivity|].
  rewrite check_directories_cons.
  rewrite (Hall dir_type dir_path (or_introl eq_refl)). cbn [negb].
  apply IH. intros t p Hin. apply (Hall t p). now right.
Qed.

Lemma check_and_create_directories_silent_witness :
  check_and_create_directories springs_config
    (with_saves false false (Some "FV") default_args) archive_world
  = (inr (with_saves false false (Some "FV") default_args), archive_world).
Proof.
  apply check_and_create_directories_silent;
    [discriminate|discriminate|].
  intros o Ho _. injection Ho as <-. reflexivity.
Defined.

(** What the loop leaves when every answer is a refusal. *)
Lemma check_directories_declined (dirs : list (string * string)) :
  forall args w r w',
    Forall (fun line => accepts line = false) (stdin w) ->
    check_directories dirs args w = (r, w') ->
    fs w' = fs w /\ trace w' = trace w
    /\ match r with
       | inr args' =>
           forall t p, In (t, p) dirs -> FS.exists_ (fs w) p = false ->
                       save_enabled t args' = false
       | inl e => e = EOFError
       end.
Proof.
  induction dirs as [|[dir_type dir_path] dirs IH]; intros args w r w' Hno.
  - intros H. injection H as <- <-. split; [reflexivity|].
    split; [reflexivity|]. intros t p [].
  - rewrite check_directories_cons.
    destruct (negb (FS.exists_ (fs w) dir_path)) eqn:Hex.
    + unfold input. destruct (stdin w) as [|line rest] eqn:Hin.
      { intros H. injection H as <- <-. auto. }
      inversion Hno as [|? ? Hline Hrest]; subst.
      cbv zeta. unfold accepts in Hline. cbv zeta in Hline.
      rewrite Hline. cbn [negb].
      intros H.
      destruct (IH _ {| fs := fs w; stdin := rest; clock := clock w;
                        trace := trace w |} _ _ Hrest H) as (Hf & Ht & Hr).
      cbn [fs trace] in Hf, Ht, Hr.
      split; [exact Hf|]. split; [exact Ht|].
      destruct r as [e|args']; [exact Hr|].
      intros t p [E|Hin'] Hmissing; [|now apply (Hr t p)].
      injection E as <- <-.
      destruct (@check_directories_outcome _ _ _ _ _ H) as (_ & Hflag & _).
      destruct (save_enabled dir_type args') eqn:Hon; [|reflexivity].
      apply Hflag in Hon. now rewrite skip_save_disables in Hon.
    + apply negb_false_iff in Hex. intros H.
      destruct (IH _ _ _ _ Hno H) as (Hf & Ht & Hr).
      split; [exact Hf|]. split; [exact Ht|].
      destruct r as [e|args']; [exact Hr|].
      intros t p [E|Hin'] Hmissing; [|now apply (Hr t p)].
      injection E as <- <-. congruence.
Qed.

(** X17: when every answer that can be read is a refusal, the
    directory check creates nothing and records nothing; it clears the
    flag of every save whose directory is missing, so that this save is
    skipped, and when the answers run out before the directories it
    stops on [EOFError]. *)
Theorem check_and_create_directories_declined (config : Config.t)
    (args : Args.t) (w : World) (r : exn + Args.t) (w' : World) :
  Forall (fun line => accepts line = false) (stdin w) ->
  check_and_create_directories config args w = (r, w') ->
  fs w' = fs w /\ trace w' = trace w
  /\ match r with
     | inr args' =>
         (Args.save args = true ->
          FS.exists_ (fs w) (Config.bootleg_loc config) = false ->
          Args.save args' = false)
         /\ (Args.network args = true ->
             FS.exists_ (fs w) (Config.network_loc config) = false ->
             Args.network args' = false)
         /\ (forall o, Args.output args = Some o -> o <> EmptyString ->
             FS.exists_ (fs w) o = false ->
             truthy (Args.output args') = false)
     | inl e => e = EOFError
     end.
Proof.
  unfold check_and_create_directories. intros Hno H.
  destruct (@check_directories_declined _ _ _ _ _ Hno H) as (Hf & Ht & Hr).
  split; [exact Hf|]. split; [exact Ht|].
  destruct r as [e|args']; [exact Hr|].
  split; [|split].
  - intros Hsave Hmissing.
    apply (Hr "local bootlegs" (Config.bootleg_loc config)); [|exact Hmissing].
    unfold directories_to_check. rewrite Hsave. now left.
  - intros Hnet Hmissing.
    apply (Hr "network bootlegs" (Config.network_loc config)); [|exact Hmissing].
    unfold directories_to_check. rewrite Hnet.
    apply in_or_app. right. apply in_or_app. now left; left.
  - intros o Ho Hne Hmissing.
    apply (Hr "custom output" o); [|exact Hmissing].
    unfold directories_to_check. rewrite Ho.
    assert (Hon : truthy (Some o) = true).
    { cbn [truthy]. apply negb_true_iff. now apply String.eqb_neq. }
    rewrite Hon. apply in_or_app. right. apply in_or_app. right. now left.
Qed.

Lemma check_and_create_directories_declined_witness :
  fs (snd (check_and_create_directories springs_config save_args
             {| fs := []; stdin := ["n"]; clock := 7; trace := [] |}))
  = []
  /\ Args.save
       match fst (check_and_create_directories springs_config save_args
                    {| fs := []; stdin := ["n"]; clock := 7; trace := [] |}) with
       | inr args' => args'
       | inl _ => save_args
       end
     = false.
Proof.
  destruct (check_and_create_directories springs_config save_args
              {| fs := []; stdin := ["n"]; clock := 7; trace := [] |})
    as [r w'] eqn:Hrun.
  destruct (@check_and_create_directories_declined springs_config save_args
              {| fs := []; stdin := ["n"]; clock := 7; trace := [] |} r w')
    as (Hf & _ & Hr).
  - repeat constructor.
  - exact Hrun.
  - split; [exact Hf|]. cbn [fst].
    destruct r as [e|args']; [vm_compute in Hrun; discriminate Hrun|].
    destruct Hr as (Hsave & _). now apply Hsave.
Defined.
(** ** The effect of the monad

    The lemmas on [effect P R] take [R] to hold between worlds with the
    same file system and to compose along the trace. *)

Section Effects.

Variable P : event -> Prop.
Variable R : list event -> World -> World -> Prop.

Hypothesis R_same : forall evs w w', fs w' = fs w -> R evs w w'.
Hypothesis R_app :
  forall evs1 evs2 w1 w2 w3,
    R evs1 w1 w2 -> R evs2 w2 w3 -> R (evs1 ++ evs2)%list w1 w3.

(** A computation that leaves the world as it is. *)
Lemma effect_pure {A : Type} (m : M A) :
  (forall w, snd (m w) = w) -> effect P R m.
Proof.
  intros Hm w r w' H. exists [].
  assert (w' = w) by (rewrite <- (Hm w), H; reflexivity). subst w'.
  rewrite app_nil_r. auto.
Qed.

Lemma effect_ret {A : Type} (a : A) : effect P R (ret a).
Proof. now apply effect_pure. Qed.

Lemma effect_raise {A : Type} (e : exn) : effect P R (@raise A e).
Proof. now apply effect_pure. Qed.

Lemma effect_lift {A : Type} (r : exn + A) : effect P R (lift r).
Proof. now apply effect_pure. Qed.

Lemma effect_get_fs : effect P R get_fs.
Proof. now apply effect_pure. Qed.

Lemma effect_get_clock : effect P R get_clock.
Proof. now apply effect_pure. Qed.

Lemma effect_input : effect P R input.
Proof.
  intros w r w'. unfold input.
  destruct (stdin w); intros H; injection H as <- <-;
    exists []; rewrite app_nil_r; auto.
Qed.

Lemma effect_log (ev : event) : P ev -> effect P R (log ev).
Proof.
  intros Hev w r w' H. injection H as <- <-.
  exists [ev]. auto.
Qed.

Lemma effect_bind {A B : Type} (m : M A) (k : A -> M B) :
  effect P R m -> (forall a, effect P R (k a)) -> effect P R (bind m k).
Proof.
  intros Hm Hk w r w'. unfold bind.
  destruct (m w) as [[e|a] w1] eqn:E.
  - intros H. injection H as <- <-. eauto.
  - intros H.
    destruct (Hm _ _ _ E) as (evs1 & Ht1 & Hp1 & Hr1).
    destruct (Hk _ _ _ _ H) as (evs2 & Ht2 & Hp2 & Hr2).
    exists (evs1 ++ evs2)%list. split; [|split].
    + now rewrite Ht2, Ht1, app_assoc.
    + apply Forall_app. auto.
    + eauto.
Qed.

Lemma effect_try {A : Type} (m : M A) (h : exn -> M A) :
  effect P R m -> (forall e, effect P R (h e)) -> effect P R (try_except_OSError m h).
Proof.
  intros Hm Hh w r w'. unfold try_except_OSError.
  destruct (m w) as [[e|a] w1] eqn:E.
  - destruct (is_OSError e).
    + intros H.
      destruct (Hm _ _ _ E) as (evs1 & Ht1 & Hp1 & Hr1).
      destruct (Hh _ _ _ _ H) as (evs2 & Ht2 & Hp2 & Hr2).
      exists (evs1 ++ evs2)%list. split; [|split].
      * now rewrite Ht2, Ht1, app_assoc.
      * apply Forall_app. auto.
      * eauto.
    + intros H. injection H as <- <-. eauto.
  - intros H. injection H as <- <-. eauto.
Qed.

(** [effect_bind], knowing what the first computation returns. *)
Lemma effect_bind_with {A B : Type} (Q : A -> Prop) (m : M A) (k : A -> M B) :
  effect P R m -> returns Q m -> (forall a, Q a -> effect P R (k a)) ->
  effect P R (bind m k).
Proof.
  intros Hm HQ Hk w r w'. unfold bind.
  destruct (m w) as [[e|a] w1] eqn:E.
  - intros H. injection H as <- <-. eauto.
  - intros H.
    destruct (Hm _ _ _ E) as (evs1 & Ht1 & Hp1 & Hr1).
    destruct (Hk a (HQ _ _ _ E) _ _ _ H) as (evs2 & Ht2 & Hp2 & Hr2).
    exists (evs1 ++ evs2)%list. split; [|split].
    + now rewrite Ht2, Ht1, app_assoc.
    + apply Forall_app. auto.
    + eauto.
Qed.

(** A write of the file system that [R] allows. *)
Lemma effect_put_fs (f : filesystem) :
  (forall w, R [] w (with_fs w f)) -> effect P R (put_fs f).
Proof.
  intros Hf w r w' H. injection H as <- <-.
  exists []. rewrite app_nil_r. split; [reflexivity|]. split; [constructor|].
  apply Hf.
Qed.

End Effects.

Lemma any_world_same (evs : list event) (w w' : World) :
  fs w' = fs w -> any_world evs w w'.
Proof. exact (fun _ => I). Qed.

Lemma any_world_app (evs1 evs2 : list event) (w1 w2 w3 : World) :
  any_world evs1 w1 w2 -> any_world evs2 w2 w3 ->
  any_world (evs1 ++ evs2)%list w1 w3.
Proof. exact (fun _ _ => I). Qed.

Lemma keeps_same (q : string) (evs : list event) (w w' : World) :
  fs w' = fs w -> keeps q evs w w'.
Proof. intros H _. rewrite H. auto. Qed.

Lemma keeps_app (q : string) (evs1 evs2 : list event) (w1 w2 w3 : World) :
  keeps q evs1 w1 w2 -> keeps q evs2 w2 w3 ->
  keeps q (evs1 ++ evs2)%list w1 w3.
Proof.
  intros H1 H2 Hall. apply Forall_app in Hall. destruct Hall as [Ha Hb].
  destruct (H1 Ha) as (Hr1 & Hk1). destruct (H2 Hb) as (Hr2 & Hk2).
  split; [now rewrite Hr2, Hr1|]. intros n Hn. now apply Hk2, Hk1.
Qed.

Create HintDb bfm.
#[local] Hint Resolve any_world_same any_world_app keeps_same keeps_app : bfm.
#[local] Hint Extern 1 (any_world _ _ _) => exact I : bfm.

Ltac effect_auto :=
  repeat first
    [ solve [eauto with bfm]
    | lazymatch goal with
      | |- effect _ _ (bind _ _) => apply effect_bind; [..|intros ?]
      | |- effect _ _ (ret _) => apply effect_ret
      | |- effect _ _ (raise _) => apply effect_raise
      | |- effect _ _ (lift _) => apply effect_lift
      | |- effect _ _ get_fs => apply effect_get_fs
      | |- effect _ _ get_clock => apply effect_get_clock
      | |- effect _ _ input => apply effect_input
      | |- effect _ _ (log _) => apply effect_log
      | |- effect _ _ (try_except_OSError _ _) =>
          apply effect_try; [..|intros ?]
      | |- effect _ any_world (put_fs _) =>
          apply effect_put_fs; intros ?; exact I
      | |- effect _ _ (if ?b then _ else _) => destruct b
      | |- effect _ _ (match ?x with _ => _ end) => destruct x
      end ].

(** *** The effect of each function *)

(** The functions that only read the file system, and those that write
    it through [makedirs] and [save_bootleg], whose effect is given. *)
Section EffectOfFunctions.

Variable P : event -> Prop.
Variable R : list event -> World -> World -> Prop.

Hypothesis R_same : forall evs w w', fs w' = fs w -> R evs w w'.
Hypothesis R_app :
  forall evs1 evs2 w1 w2 w3,
    R evs1 w1 w2 -> R evs2 w2 w3 -> R (evs1 ++ evs2)%list w1 w3.

Lemma effect_open_read (p : string) : effect P R (open_read p).
Proof. unfold open_read. effect_auto. Qed.

Lemma effect_chdir (p : string) : effect P R (chdir p).
Proof. unfold chdir. effect_auto. Qed.

Lemma effect_get_config (platform tree : option string) :
  effect P R (get_config platform tree).
Proof. unfold get_config, create_config. effect_auto. Qed.

Lemma effect_locate (path : string) : effect P R (locate path).
Proof. unfold locate. effect_auto. Qed.

Lemma effect_find_build (bld_path : string) :
  P (CallFindBuild bld_path) -> effect P R (find_build bld_path).
Proof. intros H. unfold find_build. effect_auto; apply effect_locate. Qed.

Lemma effect_find_bootleg (bootleg_loc : string) :
  P (CallFindBootleg bootleg_loc) -> effect P R (find_bootleg bootleg_loc).
Proof. intros H. unfold find_bootleg. effect_auto; apply effect_locate. Qed.

Lemma effect_find_path (path : string) :
  P (CallFindPath path) -> effect P R (find_path path).
Proof. intros H. unfold find_path. effect_auto; apply effect_locate. Qed.

Lemma effect_flash (tools : Tools) (binary : Binary.t) :
  P (CallFlash binary) -> effect P R (flash tools binary).
Proof. intros H. unfold flash. effect_auto. Qed.

Hypothesis effect_makedirs : forall p, effect P R (makedirs p).

Lemma effect_check_directories (dirs : list (string * string)) :
  forall args, effect P R (check_directories dirs args).
Proof.
  induction dirs as [|[dir_type dir_path] dirs IH]; intros args; simpl;
    effect_auto.
Qed.

Lemma effect_check_and_create_directories (config : Config.t) (args : Args.t) :
  effect P R (check_and_create_directories config args).
Proof. apply effect_check_directories. Qed.

Hypothesis effect_save_bootleg :
  forall bootleg_loc binary_path append,
    effect P R (save_bootleg bootleg_loc binary_path append).
Hypothesis P_flash : forall binary, P (CallFlash binary).

Lemma effect_deliver (tools : Tools) (config : Config.t) (args : Args.t)
    (binary : Binary.t) :
  effect P R (deliver tools config args binary).
Proof. unfold deliver. effect_auto; auto using effect_flash. Qed.

End EffectOfFunctions.

(** The functions that write the file system, for the trace alone. *)
Section Emits.

Variable P : event -> Prop.

Lemma emits_open_write (p text : string) :
  effect P any_world (open_write p text).
Proof. unfold open_write. effect_auto. Qed.

Lemma emits_makedirs (p : string) : effect P any_world (makedirs p).
Proof. unfold makedirs. effect_auto. Qed.



Lemma emits_set_version (file_path : string) (version : option Z) :
  P (CallSetVersion file_path version) ->
  effect P any_world (set_version file_path version).
Proof.
  intros H. unfold set_version.
  effect_auto; eauto using effect_open_read, emits_open_write with bfm.
Qed.

Lemma emits_build (tools : Tools) (config : Config.t) (release : bool) :
  P (CallBuild (Config.name config) release) ->
  effect P any_world (build tools config release).
Proof.
  intros H. unfold build. effect_auto; eauto using effect_chdir with bfm.
Qed.


Lemma emits_obtain_binary (tools : Tools) (config : Config.t) (args : Args.t) :
  (forall ev, is_stage_event ev -> P ev) ->
  effect P any_world (obtain_binary tools config args).
Proof.
  intros H. unfold obtain_binary.
  effect_auto;
    first [ apply emits_set_version | apply emits_build
          | apply effect_find_build | apply effect_find_bootleg
          | apply effect_find_path | idtac ];
    eauto with bfm; apply H; exact I.
Qed.

End Emits.

(** ** The pipeline *)

(** C4: when the configuration is resolved, the directories are checked
    and the stage that obtains the binary returns [None], [main] exits
    with status 1 after reporting the error [No binary found]; from the
    start to the end of the run the trace holds no call of
    [save_bootleg] and no call of [flash], and the file system is left
    as the locating stage left it. *)
Theorem no_binary_exits_1 (tools : Tools) (args : Args.t) (w : World)
    (config : Config.t) (w0 : World) (args' : Args.t) (w1 w2 : World) :
  get_config (Args.platform args) (Args.tree args) w = (inr config, w0) ->
  check_and_create_directories config args w0 = (inr args', w1) ->
  obtain_binary tools config args' w1 = (inr None, w2) ->
  exists evs,
    main tools args w
    = (1, {| fs := fs w2; stdin := stdin w2; clock := clock w2;
             trace := (trace w ++ evs
                       ++ [ReportError (RuntimeError "No binary found")])%list |})
    /\ Forall (fun ev => ~ is_delivery ev) evs.
Proof.
  intros Hconfig Hcheck Hobtain.
  set (P := fun ev => ~ is_delivery ev).
  assert (E0 : effect P any_world
                 (get_config (Args.platform args) (Args.tree args)))
    by (apply effect_get_config; eauto with bfm).
  assert (E1 : effect P any_world (check_and_create_directories config args))
    by (apply effect_check_and_create_directories;
        eauto using emits_makedirs with bfm).
  assert (E2 : effect P any_world (obtain_binary tools config args')).
  { apply emits_obtain_binary. intros ev Hs Hd. destruct ev; exact Hs || exact Hd. }
  destruct (E0 _ _ _ Hconfig) as (evs0 & Ht0 & Hp0 & _).
  destruct (E1 _ _ _ Hcheck) as (evs1 & Ht1 & Hp1 & _).
  destruct (E2 _ _ _ Hobtain) as (evs2 & Ht2 & Hp2 & _).
  exists (evs0 ++ evs1 ++ evs2)%list. split.
  - unfold main, main_try, bind.
    rewrite Hconfig, Hcheck, Hobtain. unfold raise, log. simpl.
    rewrite Ht2, Ht1, Ht0. now rewrite <- !app_assoc.
  - repeat (apply Forall_app; split); assumption.
Qed.

Lemma no_binary_exits_1_witness :
  exists evs,
    main no_tools default_args (world_of empty_build)
    = (1, {| fs := empty_build; stdin := []; clock := 1000;
             trace := ([] ++ evs
                       ++ [ReportError (RuntimeError "No binary found")])%list |})
    /\ Forall (fun ev => ~ is_delivery ev) evs.
Proof.
  apply (@no_binary_exits_1 no_tools default_args (world_of empty_build)
           springs_config (world_of empty_build) default_args
           (world_of empty_build)
           {| fs := empty_build; stdin := []; clock := 1000;
              trace := [WarnNoBinaryProvided;
                        CallFindBuild (Config.bld_path springs_config)] |});
    reflexivity.
Defined.

(** *** What the directory check returns *)

Lemma returns_ret {A : Type} (Q : A -> Prop) (a : A) : Q a -> returns Q (ret a).
Proof. intros H w a' w' E. now injection E as <- _. Qed.

Lemma returns_raise {A : Type} (Q : A -> Prop) (e : exn) : returns Q (@raise A e).
Proof. intros w a' w' E. discriminate. Qed.

Lemma returns_bind {A B : Type} (Q : B -> Prop) (m : M A) (k : A -> M B) :
  (forall a, returns Q (k a)) -> returns Q (bind m k).
Proof.
  intros Hk w b w'. unfold bind.
  destruct (m w) as [[e|a] w1]; [discriminate|]. apply Hk.
Qed.

Lemma skip_save_stage_options (dir_type : string) (a : Args.t) :
  same_stage_options a (skip_save dir_type a).
Proof.
  unfold skip_save, same_stage_options.
  destruct (String.eqb dir_type "local bootlegs"); [now simpl|].
  destruct (String.eqb dir_type "network bootlegs"); [now simpl|].
  destruct (String.eqb dir_type "custom output"); now simpl.
Qed.

Lemma same_stage_options_refl (a : Args.t) : same_stage_options a a.
Proof. now repeat split. Qed.

Lemma same_stage_options_trans (a b c : Args.t) :
  same_stage_options a b -> same_stage_options b c -> same_stage_options a c.
Proof.
  intros (H1 & H2 & H3 & H4 & H5 & H6) (K1 & K2 & K3 & K4 & K5 & K6).
  repeat split; congruence.
Qed.

Lemma check_directories_stage_options (a : Args.t)
    (dirs : list (string * string)) :
  forall args,
    same_stage_options a args ->
    returns (same_stage_options a) (check_directories dirs args).
Proof.
  induction dirs as [|[dir_type dir_path] dirs IH]; intros args Hargs; simpl.
  - now apply returns_ret.
  - apply returns_bind. intros f.
    destruct (negb (FS.exists_ f dir_path)); [|now apply IH].
    apply returns_bind. intros line.
    destruct (negb _).
    + apply IH.
      exact (same_stage_options_trans Hargs
               (skip_save_stage_options dir_type args)).
    + apply returns_bind. intros _. now apply IH.
Qed.

Lemma check_and_create_directories_stage_options (config : Config.t)
    (args : Args.t) :
  returns (same_stage_options args) (check_and_create_directories config args).
Proof.
  apply check_directories_stage_options. apply same_stage_options_refl.
Qed.



(** *** The calls that a stage makes *)

(** A computation that emits no event leaves the trace as it is. *)
Lemma silent_trace {A : Type} (m : M A) :
  effect silent any_world m ->
  forall w r w', m w = (r, w') -> trace w' = trace w.
Proof.
  intros Hm w r w' H. destruct (Hm _ _ _ H) as (evs & Ht & Hp & _).
  destruct evs as [|ev evs]; [now rewrite app_nil_r in Ht|].
  inversion Hp as [|? ? Hev _]. destruct Hev.
Qed.





Lemma find_bootleg_run (bootleg_loc : string) (w : World) :
  find_bootleg bootleg_loc w
  = (get_binary (view (fs w)) bootleg_loc,
     with_event w (CallFindBootleg bootleg_loc)).
Proof. reflexivity. Qed.




(** The platform configuration and the directory check record no
    call. *)
Lemma get_config_trace (platform tree : option string) (w : World)
    (r : exn + Config.t) (w' : World) :
  get_config platform tree w = (r, w') -> trace w' = trace w.
Proof.
  apply silent_trace. apply effect_get_config; eauto with bfm.
Qed.

Lemma check_and_create_directories_trace (config : Config.t) (args : Args.t)
    (w : World) (r : exn + Args.t) (w' : World) :
  check_and_create_directories config args w = (r, w') -> trace w' = trace w.
Proof.
  apply silent_trace. apply effect_check_and_create_directories;
    eauto using emits_makedirs with bfm.
Qed.


(** *** Options that a build leaves unread *)



(** [main], one step after the other. *)
Lemma main_steps (tools : Tools) (args : Args.t) (w : World) :
  main tools args w
  = match get_config (Args.platform args) (Args.tree args) w with
    | (inl e, w0) => (1, with_event w0 (ReportError e))
    | (inr config, w0) =>
        match check_and_create_directories config args w0 with
        | (inl e, w1) => (1, with_event w1 (ReportError e))
        | (inr args', w1) =>
            match obtain_binary tools config args' w1 with
            | (inl e, w2) => (1, with_event w2 (ReportError e))
            | (inr None, w2) =>
                (1, with_event w2 (ReportError (RuntimeError "No binary found")))
            | (inr (Some b), w2) =>
                match deliver tools config args' b w2 with
                | (inl e, w3) => (1, with_event w3 (ReportError e))
                | (inr _, w3) => (0, w3)
                end
            end
        end
    end.
Proof.
  unfold main, main_try, bind.
  destruct (get_config _ _ w) as [[e|config] w0]; [reflexivity|].
  destruct (check_and_create_directories config args w0) as [[e|args'] w1];
    [reflexivity|].
  destruct (obtain_binary tools config args' w1) as [[e|[b|]] w2];
    reflexivity.
Qed.

(** The effect of [main] from the effect of its body. *)
Lemma main_effect (P : event -> Prop)
    (R : list event -> World -> World -> Prop) (tools : Tools) (args : Args.t) :
  (forall evs w w', fs w' = fs w -> R evs w w') ->
  (forall evs1 evs2 w1 w2 w3,
      R evs1 w1 w2 -> R evs2 w2 w3 -> R (evs1 ++ evs2)%list w1 w3) ->
  effect P R (main_try tools args) ->
  (forall e, P (ReportError e)) ->
  forall w,
    exists evs,
      trace (snd (main tools args w)) = (trace w ++ evs)%list
      /\ Forall P evs
      /\ R evs w (snd (main tools args w)).
Proof.
  intros R_same R_app Hbody Hreport w. unfold main.
  destruct (main_try tools args w) as [[e|u] w'] eqn:E;
    destruct (Hbody _ _ _ E) as (evs & Ht & Hp & Hr).
  - exists (evs ++ [ReportError e])%list. simpl. split; [|split].
    + now rewrite Ht, app_assoc.
    + apply Forall_app. auto.
    + eapply R_app; [exact Hr|]. now apply R_same.
  - exists evs. auto.
Qed.




Example main_build_ignores_bootleg :
  trace (snd (main no_tools (with_reuse true (Some "FV/A32.bin") build_args)
                   (world_of empty_build)))
  = [CallBuild "Springs" false;
     CallFindBuild (Config.bld_path springs_config);
     ReportError (RuntimeError "No binary found")].
Proof. reflexivity. Qed.

Example main_bootleg_before_path :
  trace (snd (main no_tools (with_reuse true (Some "FV/A32.bin") default_args)
                   (world_of empty_build)))
  = [CallFindBootleg (Config.bootleg_loc springs_config);
     ReportError (RuntimeError "No binary found")].
Proof. reflexivity. Qed.

Example main_path_alone :
  trace (snd (main no_tools (with_reuse false (Some "FV/A32.bin") default_args)
                   (world_of empty_build)))
  = [CallFindPath "FV/A32.bin";
     ReportError (RuntimeError "No binary found")].
Proof. reflexivity. Qed.

(** *** What a run without a build leaves in place *)

Lemma keeps_makedirs (P : event -> Prop) (q p : string) :
  effect P (keeps q) (makedirs p).
Proof.
  intros w r w' H.
  destruct (@makedirs_outcome _ _ _ _ H) as (Ht & _ & _ & Hk & Hr & _).
  exists []. rewrite app_nil_r. split; [exact Ht|]. split; [constructor|].
  intros _. split; [apply Hr|]. intros n. apply Hk.
Qed.

Lemma keeps_save_bootleg (P : event -> Prop) (q bootleg_loc binary_path : string)
    (append : option string) :
  P (CallSaveBootleg bootleg_loc binary_path append) ->
  effect P (keeps q) (save_bootleg bootleg_loc binary_path append).
Proof.
  intros Hp w r w'. rewrite save_bootleg_steps. cbv zeta.
  set (ev := CallSaveBootleg bootleg_loc binary_path append).
  intros H.
  assert (Hfirst : exists r1 w1,
             (if negb (FS.exists_ (fs w) bootleg_loc)
              then makedirs bootleg_loc else ret tt) (with_event w ev) = (r1, w1)
             /\ trace w1 = (trace w ++ [ev])%list
             /\ FS.read (fs w1) q = FS.read (fs w) q
             /\ forall n, FS.lookup (fs w) q = Some n ->
                          FS.lookup (fs w1) q = Some n).
  { destruct (negb (FS.exists_ (fs w) bootleg_loc)).
    - destruct (makedirs bootleg_loc (with_event w ev)) as [r1 w1] eqn:E.
      destruct (@makedirs_outcome _ _ _ _ E) as (Ht & _ & _ & Hk & Hr & _).
      exists r1, w1. split; [reflexivity|]. split; [exact Ht|].
      split; [apply Hr|]. intros n. apply Hk.
    - exists (inr tt), (with_event w ev). auto. }
  destruct Hfirst as (r1 & w1 & E1 & Ht1 & Hr1 & Hk1).
  rewrite E1 in H.
  exists [ev]. destruct r1 as [e|u].
  - injection H as <- <-. split; [exact Ht1|]. split; [auto|].
    intros _. auto.
  - destruct (@copy2_frame _ _ q _ _ _ H) as (Ht2 & Hframe).
    split; [now rewrite Ht2|]. split; [auto|].
    intros Hall. inversion Hall as [|? ? Hnot _]; subst.
    unfold not_target, ev, save_targets in Hnot. cbv zeta in Hnot.
    assert (Hsame : FS.lookup (fs w') q = FS.lookup (fs w1) q)
      by (apply Hframe; apply Hnot; simpl; auto).
    split; [unfold FS.read; rewrite Hsame; exact Hr1|].
    intros n Hn. rewrite Hsame. now apply Hk1.
Qed.

Lemma main_try_without_build (tools : Tools) (args : Args.t) (q : string) :
  Args.build args = false ->
  effect (fun ev => ~ is_set_version_call ev) (keeps q) (main_try tools args).
Proof.
  intros Hbuild.
  set (P := fun ev => ~ is_set_version_call ev).
  unfold main_try.
  apply effect_bind; [eauto with bfm| |intros config].
  { apply effect_get_config; eauto with bfm. }
  apply effect_bind_with with (Q := same_stage_options args);
    [eauto with bfm| | |].
  - apply effect_check_and_create_directories;
      eauto using keeps_makedirs with bfm.
  - apply check_and_create_directories_stage_options.
  - intros args' (Hb & _).
    apply effect_bind; [eauto with bfm| |intros binary].
    + unfold obtain_binary. rewrite Hb, Hbuild.
      destruct (Args.bootleg args'); [|destruct (Args.path args')].
      * apply effect_find_bootleg; eauto with bfm. now intros H.
      * apply effect_find_path; eauto with bfm. now intros H.
      * apply effect_bind; [eauto with bfm| |intros _].
        -- apply effect_log; [eauto with bfm|]. now intros H.
        -- apply effect_find_build; eauto with bfm. now intros H.
    + destruct binary as [b|]; [|apply effect_raise; eauto with bfm].
      apply effect_deliver; eauto with bfm.
      * intros. apply keeps_save_bootleg. now intros H.
      * intros b' H. exact H.
Qed.

(** C9, as the code has it: in a run without the build option, whatever
    the decrement and set-version options are, [set_version] is never
    called, and the bytes of a file (of the version descriptor, for
    one) are the same before and after the run, as are its time and
    the rights on it, unless a call of [save_bootleg] has that file,
    under any spelling of its path, among the paths that it writes. *)
Theorem no_build_no_stamp (tools : Tools) (args : Args.t) (w : World) :
  Args.build args = false ->
  exists evs,
    trace (snd (main tools args w)) = (trace w ++ evs)%list
    /\ (forall file_path version, ~ In (CallSetVersion file_path version) evs)
    /\ (forall descriptor,
          (forall bootleg_loc binary_path append target,
              In (CallSaveBootleg bootleg_loc binary_path append) evs ->
              In target (save_targets bootleg_loc binary_path append) ->
              ~ same_path target descriptor) ->
          FS.read (fs (snd (main tools args w))) descriptor
          = FS.read (fs w) descriptor
          /\ forall n,
               FS.lookup (fs w) descriptor = Some n ->
               FS.lookup (fs (snd (main tools args w))) descriptor = Some n).
Proof.
  intros Hbuild.
  assert (Hrun : forall q,
             exists evs,
               trace (snd (main tools args w)) = (trace w ++ evs)%list
               /\ Forall (fun ev => ~ is_set_version_call ev) evs
               /\ keeps q evs w (snd (main tools args w))).
  { intros q.
    apply (main_effect (@keeps_same q) (@keeps_app q)
             (@main_try_without_build tools args q Hbuild)).
    intros e H. exact H. }
  destruct (Hrun EmptyString) as (evs & Ht & Hp & _).
  exists evs. split; [exact Ht|]. split.
  - intros file_path version Hin.
    rewrite Forall_forall in Hp. exact (Hp _ Hin I).
  - intros descriptor Hsaves.
    destruct (Hrun descriptor) as (evs' & Ht' & _ & Hkeeps).
    rewrite Ht in Ht'. apply app_inv_head in Ht'. subst evs'.
    apply Hkeeps. apply Forall_forall. intros ev Hin.
    destruct ev; try exact I. simpl. intros target. now apply Hsaves.
Qed.

Example save_run :
  fst (main no_tools save_args save_world) = 0
  /\ trace (snd (main no_tools save_args save_world))
     = [WarnNoBinaryProvided;
        CallFindBuild (Config.bld_path springs_config);
        CallSaveBootleg (Config.bootleg_loc springs_config)
          (Path.join (Config.bld_path springs_config) "A32.bin") None]
  /\ FS.read (fs (snd (main no_tools save_args save_world)))
             (Path.join (Config.bootleg_loc springs_config) "A32.bin")
     = Some "image".
Proof. repeat split; reflexivity. Qed.

Lemma no_build_no_stamp_witness :
  FS.read (fs (snd (main no_tools save_args save_world)))
          (Config.biosid_loc springs_config)
  = Some (descriptor_text "05").
Proof.
  destruct (@no_build_no_stamp no_tools save_args save_world eq_refl)
    as (evs & Ht & _ & Hkeeps).
  vm_compute in Ht. subst evs.
  destruct (Hkeeps (Config.biosid_loc springs_config)) as (Hread & _);
    [|rewrite Hread; reflexivity].
  intros bootleg_loc binary_path append target [H|[H|[H|[]]]];
    try discriminate H.
  injection H as <- <- <-.
  intros [<-|[<-|[]]]; vm_compute; discriminate.
Defined.

Example overwrite_run :
  main no_tools overwrite_args (world_of built_tree)
  = (0, {| fs := FS.store built_tree (Config.biosid_loc springs_config)
                          (File "not a descriptor" 7);
           stdin := []; clock := 1000;
           trace := [CallFindPath "/tmp/BiosId.env";
                     CallSaveBootleg descriptor_dir "/tmp/BiosId.env" None] |}).
Proof. reflexivity. Qed.

(** C9 as it is stated does not hold: a run without the build option
    can leave the version descriptor with another text, when the
    descriptor is the destination of a save. *)
Lemma descriptor_changes_without_build :
  ~ (forall (tools : Tools) (args : Args.t) (w : World)
            (config : Config.t) (w0 : World),
        Args.build args = false ->
        get_config (Args.platform args) (Args.tree args) w = (inr config, w0) ->
        FS.read (fs (snd (main tools args w))) (Config.biosid_loc config)
        = FS.read (fs w) (Config.biosid_loc config)).
Proof.
  intros H.
  specialize (H no_tools overwrite_args (world_of built_tree)
                springs_config (world_of built_tree) eq_refl eq_refl).
  vm_compute in H. discriminate H.
Qed.

(** ** The run as a whole *)

(** Archiving the binary that the locator has found in the destination
    directory itself is refused: the copy would be the source. *)
Lemma save_bootleg_of_found (bootleg_loc : string) (b : Binary.t) (w : World) :
  FS.isdir (fs w) bootleg_loc = true ->
  get_binary (view (fs w)) bootleg_loc = inr (Some b) ->
  exists e,
    save_bootleg bootleg_loc (Binary.name b) None w
    = (inl e, with_event w (CallSaveBootleg bootleg_loc (Binary.name b) None)).
Proof.
  intros Hdir Hget.
  destruct (get_binary_in_directory _ _ Hdir Hget) as (nm & Hname & Hnm).
  assert (Hloc : bootleg_loc <> EmptyString).
  { intros E. rewrite E in Hdir. discriminate Hdir. }
  destruct (@key_of_dirname_join bootleg_loc "*.bin" Hloc eq_refl)
    as (Hdir_ne & Hdir_key).
  set (dir := Path.dirname (Path.join bootleg_loc "*.bin")) in *.
  destruct (@key_of_join dir nm Hdir_ne Hnm) as (Hsrc_key & Hsrc_plain).
  destruct (@key_of_join bootleg_loc nm Hloc Hnm) as (Hdst_key & Hdst_plain).
  assert (Hplain : Py.contains "/" nm = false).
  { unfold Path.is_name in Hnm. apply andb_prop in Hnm.
    destruct Hnm as [H _]. now apply negb_true_iff in H. }
  assert (Hbase : Path.basename (Binary.name b) = nm).
  { rewrite Hname, basename_join. now apply after_last_sep_plain. }
  assert (Hsame : same_path (Path.join bootleg_loc nm) (Binary.name b)).
  { unfold same_path. now rewrite Hname, Hsrc_key, Hdst_key, Hdir_key. }
  assert (Hne : forall x, Path.key_of x = Path.key_of (Path.join bootleg_loc nm) ->
                          x <> EmptyString).
  { intros x Hx E. rewrite E, Hdst_key in Hx.
    apply (f_equal (fun k => List.length (snd k))) in Hx.
    cbn [snd] in Hx. rewrite length_app in Hx. simpl in Hx. lia. }
  assert (Hl : FS.lookup (fs w) (Path.join bootleg_loc nm)
               = FS.lookup (fs w) (Binary.name b)).
  { apply lookup_same_path; auto.
    now rewrite Hname, Hsrc_plain, Hdst_plain. }
  rewrite save_bootleg_steps. cbv zeta.
  rewrite (@isdir_exists _ _ Hdir). cbn [negb]. unfold ret at 1.
  unfold bootleg_basename. rewrite Hbase.
  set (w0 := with_event w (CallSaveBootleg bootleg_loc (Binary.name b) None)).
  destruct (copy2 (Binary.name b) (Path.join bootleg_loc nm) w0)
    as [[e|u] w1] eqn:Hcopy;
    pose proof (@copy2_outcome _ _ _ _ _ Hcopy) as Hout; cbv zeta in Hout.
  - destruct Hout as (-> & _). eauto.
  - exfalso. destruct Hout as (n & Hsrc & Hfile & Hother & _).
    cbn [w0 with_event fs] in Hsrc, Hfile, Hother.
    assert (Hnodir : FS.isdir (fs w) (Path.join bootleg_loc nm) = false).
    { unfold FS.isdir. rewrite Hl. unfold FS.isfile in Hfile.
      destruct (FS.lookup (fs w) (Binary.name b)) as [[| | |]|];
        solve [reflexivity | discriminate]. }
    rewrite Hnodir in Hother. exact (Hother Hsame).
Qed.

(** X18: reusing the latest archived binary and saving it to the local
    archive, without a suffix, never succeeds. In a run with the
    bootleg option and without the build option, once the
    configuration is resolved, the directories are checked, the save
    is still asked for and the archive is a directory, [main] exits
    with status 1 and leaves the file system as the directory check
    left it: either no binary is found, or the save of the binary that
    is found is refused, as its destination is the binary itself.
    Nothing is flashed. *)
Theorem reuse_then_save_fails (tools : Tools) (args : Args.t) (w : World)
    (config : Config.t) (w0 : World) (args' : Args.t) (w1 : World) :
  Args.build args = false ->
  Args.bootleg args = true ->
  Args.append args = None ->
  get_config (Args.platform args) (Args.tree args) w = (inr config, w0) ->
  check_and_create_directories config args w0 = (inr args', w1) ->
  Args.save args' = true ->
  FS.isdir (fs w1) (Config.bootleg_loc config) = true ->
  fst (main tools args w) = 1
  /\ fs (snd (main tools args w)) = fs w1
  /\ exists saves e,
       trace (snd (main tools args w))
       = (trace w ++ CallFindBootleg (Config.bootleg_loc config)
                  :: saves ++ [ReportError e])%list
       /\ (saves = []
           \/ exists name,
                saves = [CallSaveBootleg (Config.bootleg_loc config) name None]).
Proof.
  intros Hbuild Hbootleg Happend Hconfig Hcheck Hsave Hdir.
  pose proof (get_config_trace _ _ _ Hconfig) as Ht0.
  pose proof (check_and_create_directories_trace _ _ _ Hcheck) as Ht1.
  destruct (@check_and_create_directories_stage_options
              config args _ _ _ Hcheck) as (Hb & Hl & _).
  assert (Happend' : Args.append args' = None).
  { unfold check_and_create_directories in Hcheck.
    destruct (@check_directories_outcome _ _ _ _ _ Hcheck) as (Hshape & _).
    rewrite Hshape. exact Happend. }
  assert (Hmain : exists saves e,
             main tools args w
             = (1, {| fs := fs w1; stdin := stdin w1; clock := clock w1;
                      trace := (trace w
                                ++ CallFindBootleg (Config.bootleg_loc config)
                                   :: saves ++ [ReportError e])%list |})
             /\ (saves = []
                 \/ exists name,
                      saves = [CallSaveBootleg (Config.bootleg_loc config)
                                 name None])).
  { rewrite main_steps, Hconfig, Hcheck.
    unfold obtain_binary. rewrite Hb, Hbuild, Hl, Hbootleg, find_bootleg_run.
    destruct (get_binary (view (fs w1)) (Config.bootleg_loc config))
      as [e|[b|]] eqn:Hget.
    - exists [], e. unfold with_event. cbn [fs stdin clock trace app].
      rewrite Ht1, Ht0, <- app_assoc. auto.
    - unfold deliver. rewrite Hsave, Happend'. unfold bind at 1.
      destruct (@save_bootleg_of_found (Config.bootleg_loc config) b
                  (with_event w1 (CallFindBootleg (Config.bootleg_loc config))))
        as (e & Hrun); [exact Hdir|exact Hget|].
      rewrite Hrun.
      exists [CallSaveBootleg (Config.bootleg_loc config) (Binary.name b) None],
        e.
      unfold with_event. cbn [fs stdin clock trace app].
      rewrite Ht1, Ht0, <- !app_assoc. eauto.
    - exists [], (RuntimeError "No binary found").
      unfold with_event. cbn [fs stdin clock trace app].
      rewrite Ht1, Ht0, <- app_assoc. auto. }
  destruct Hmain as (saves & e & -> & Hsaves).
  split; [reflexivity|]. split; [reflexivity|]. exists saves, e. auto.
Qed.

Lemma reuse_then_save_fails_witness :
  fst (main no_tools reuse_args (world_of reuse_tree)) = 1
  /\ fs (snd (main no_tools reuse_args (world_of reuse_tree))) = reuse_tree.
Proof.
  destruct (@reuse_then_save_fails no_tools reuse_args (world_of reuse_tree)
              springs_config (world_of reuse_tree) reuse_args
              (world_of reuse_tree)
              eq_refl eq_refl eq_refl eq_refl eq_refl eq_refl eq_refl)
    as (Hexit & Hfs & _).
  split; [exact Hexit|exact Hfs].
Defined.

Example reuse_run :
  trace (snd (main no_tools reuse_args (world_of reuse_tree)))
  = [CallFindBootleg (Config.bootleg_loc springs_config);
     CallSaveBootleg (Config.bootleg_loc springs_config)
       (Path.join (Config.bootleg_loc springs_config) "A32.bin") None;
     ReportError (SameFileError "source and destination are the same file")].
Proof. reflexivity. Qed.

(** *** The order of the calls *)





(** *** Options that a run without a build leaves unread *)

Lemma skip_save_with_build_options (r d : bool) (v : option Z)
    (dir_type : string) (a : Args.t) :
  skip_save dir_type (with_build_options r d v a)
  = with_build_options r d v (skip_save dir_type a).
Proof.
  unfold skip_save.
  destruct (String.eqb dir_type "local bootlegs"); [reflexivity|].
  destruct (String.eqb dir_type "network bootlegs"); [reflexivity|].
  destruct (String.eqb dir_type "custom output"); reflexivity.
Qed.

Lemma check_directories_with_build_options (r d : bool) (v : option Z)
    (dirs : list (string * string)) :
  forall a w,
    check_directories dirs (with_build_options r d v a) w
    = match check_directories dirs a w with
      | (inr a', w') => (inr (with_build_options r d v a'), w')
      | (inl e, w') => (inl e, w')
      end.
Proof.
  induction dirs as [|[dir_type dir_path] dirs IH]; intros a w.
  - reflexivity.
  - rewrite !check_directories_cons.
    destruct (negb (FS.exists_ (fs w) dir_path)); [|apply IH].
    destruct (input w) as [[e|line] w1]; [reflexivity|].
    cbv zeta. destruct (negb (String.eqb _ _ || _)).
    + rewrite skip_save_with_build_options. apply IH.
    + destruct (try_except_OSError _ _ w1) as [[e|u] w2]; [reflexivity|].
      apply IH.
Qed.

(** X20: without the build option, the release, decrement and
    set-version options are not read: the run, its exit status and the
    world that it leaves are the same whatever their values are. *)
Theorem main_without_build (tools : Tools) (args : Args.t) (w : World)
    (release decrement : bool) (set_version : option Z) :
  Args.build args = false ->
  main tools (with_build_options release decrement set_version args) w
  = main tools args w.
Proof.
  intros Hbuild. rewrite !main_steps.
  change (Args.platform (with_build_options release decrement set_version args))
    with (Args.platform args).
  change (Args.tree (with_build_options release decrement set_version args))
    with (Args.tree args).
  destruct (get_config _ _ w) as [[e|config] w0]; [reflexivity|].
  unfold check_and_create_directories.
  change (directories_to_check config
            (with_build_options release decrement set_version args))
    with (directories_to_check config args).
  rewrite check_directories_with_build_options.
  destruct (check_directories _ args w0) as [[e|args'] w1] eqn:E;
    [reflexivity|].
  assert (Hb : Args.build args' = false).
  { destruct (@check_directories_stage_options args
                (directories_to_check config args) args
                (same_stage_options_refl args) _ _ _ E) as (H & _).
    congruence. }
  assert (Hobtain : obtain_binary tools config
                      (with_build_options release decrement set_version args')
                    = obtain_binary tools config args').
  { unfold obtain_binary. simpl. now rewrite Hb. }
  rewrite Hobtain. reflexivity.
Qed.

Lemma main_without_build_witness :
  main no_tools (with_build_options true true (Some 7) default_args)
       (world_of built_tree)
  = main no_tools default_args (world_of built_tree).
Proof.
  apply main_without_build. reflexivity.
Defined.
